(** * WWVB clock and WWVB signal simulator: a shallow embedding

    The two sketches of the repository are embedded here:
    - [wwvb_clock/wwvb_clock.ino], the receiver (module [Clock] below);
    - [wwvb_signal_simulator.pde], the transmitter (module [Simulator]).

    Both overlay a [struct wwvbBuffer] of bit-fields on one
    [unsigned long long].  The word is a [Z] in [0, 2^64); a bit-field is a
    window (offset, width) of that word.  The target is the ATmega328
    (avr-gcc): bit-fields are allocated from the least significant bit
    upward in declaration order, [int] is 16 bits wide, [unsigned long] is
    32 bits wide. *)

From Stdlib Require Import ZArith List Bool Lia Ascii.
From Stdlib Require String.
Import ListNotations.
Import String.StringSyntax.
Delimit Scope string_scope with string.
Local Open Scope Z_scope.

(** ** Machine integers *)

Definition wrap16 (z : Z) : Z := z mod 2 ^ 16.
Definition wrap32 (z : Z) : Z := z mod 2 ^ 32.
Definition wrap64 (z : Z) : Z := z mod 2 ^ 64.

(** [int] on the AVR: 16 bits, two's complement. *)
Definition int_wrap (z : Z) : Z := (z + 2 ^ 15) mod 2 ^ 16 - 2 ^ 15.

(** ** Bit-fields of [struct wwvbBuffer] *)

Inductive field : Set :=
  | U12 | Frame | Dst | Leapsec | Leapyear | U11 | YearOne | U10 | YearTen
  | U09 | OffVal | U08 | OffSign | U07 | DayOne | U06 | DayTen | U05
  | DayHun | U04 | HourOne | U03 | HourTen | U02 | MinOne | U01 | MinTen
  | U00.

Scheme Equality for field.

(** A struct declaration: the fields with their widths, in source order. *)
Definition layout : Set := list (field * Z).

(** Offset and width of field [f]; [off] is the offset of the head of [l]. *)
Fixpoint locate (l : layout) (f : field) (off : Z) : Z * Z :=
  match l with
  | [] => (off, 0)
  | (g, w) :: l' => if field_beq f g then (off, w) else locate l' f (off + w)
  end.

(** Reading the window [(off, w)] of a word. *)
Definition get_bits (ow : Z * Z) (x : Z) : Z :=
  Z.land (Z.shiftr x (fst ow)) (Z.ones (snd ow)).

(** Writing [v] into the window [(off, w)]: the value is truncated to the
    width of the field, the other bits of the word are kept. *)
Definition set_bits (ow : Z * Z) (x v : Z) : Z :=
  Z.lor (Z.ldiff x (Z.shiftl (Z.ones (snd ow)) (fst ow)))
        (Z.shiftl (Z.land v (Z.ones (snd ow))) (fst ow)).

Section Struct.
Variable L : layout.

(** [p->f] *)
Definition get (f : field) (x : Z) : Z := get_bits (locate L f 0) x.
(** [p->f = v] *)
Definition assign (f : field) (v : Z) (x : Z) : Z :=
  set_bits (locate L f 0) x v.
(** [p->f++] *)
Definition incr (f : field) (x : Z) : Z := assign f (get f x + 1) x.

(** The nine carries of the minute increment.  The same statements, word
    for word, close [loop()] of the simulator and make up
    [incrementWwvbMinute()] of the clock; they differ only in the struct
    they go through. *)
Definition carry_MinOne (b : Z) : Z :=
  let b := incr MinOne b in
  if get MinOne b =? 10 then incr MinTen (assign MinOne 0 b) else b.

Definition carry_MinTen (b : Z) : Z :=
  if get MinTen b =? 6 then incr HourOne (assign MinTen 0 b) else b.

Definition carry_HourOne (b : Z) : Z :=
  if get HourOne b =? 10 then incr HourTen (assign HourOne 0 b) else b.

Definition carry_Hour24 (b : Z) : Z :=
  if (get HourTen b =? 2) && (get HourOne b =? 4)
  then incr DayOne (assign HourOne 0 (assign HourTen 0 b)) else b.

Definition carry_DayOne (b : Z) : Z :=
  if get DayOne b =? 10 then incr DayTen (assign DayOne 0 b) else b.

Definition carry_DayTen (b : Z) : Z :=
  if get DayTen b =? 10 then incr DayHun (assign DayTen 0 b) else b.

Definition carry_NewYear (b : Z) : Z :=
  if (get DayHun b =? 3) && (get DayTen b =? 6)
     && (get DayOne b =? 6 + get Leapyear b)
  then incr YearOne (assign DayOne 1 (assign DayTen 0 (assign DayHun 0 b)))
  else b.

Definition carry_YearOne (b : Z) : Z :=
  if get YearOne b =? 10 then incr YearTen (assign YearOne 0 b) else b.

Definition carry_YearTen (b : Z) : Z :=
  if get YearTen b =? 10 then assign YearTen 0 b else b.

Definition increment_minute (b : Z) : Z :=
  carry_YearTen (carry_YearOne (carry_NewYear (carry_DayTen (carry_DayOne
    (carry_Hour24 (carry_HourOne (carry_MinTen (carry_MinOne b)))))))).
End Struct.

(** ** The receiver: [wwvb_clock.ino] *)

Module Clock.

(** [struct wwvbBuffer] of the clock, first declared field first. *)
Definition wwvbBuffer : layout :=
  [ (U12, 4); (Frame, 2); (Dst, 2); (Leapsec, 1); (Leapyear, 1); (U11, 1);
    (YearOne, 4); (U10, 1); (YearTen, 4); (U09, 1); (OffVal, 4); (U08, 1);
    (OffSign, 3); (U07, 2); (DayOne, 4); (U06, 1); (DayTen, 4); (U05, 1);
    (DayHun, 2); (U04, 3); (HourOne, 4); (U03, 1); (HourTen, 2); (U02, 3);
    (MinOne, 4); (U01, 1); (MinTen, 3) ].

(** The globals the decoder works on.  [lastFrameBuffer] is the word
    [wwvbFrame] points to, so every [wwvbFrame->f] is a window of it. *)
Record state : Set := mkState {
  pulseStartTime : Z;
  pulseEndTime : Z;
  frameEndTime : Z;
  bitReceived : bool;
  wasMark : bool;
  framePosition : Z;
  bitPosition : Z;
  lastBit : ascii;
  errors : list Z;
  errIdx : Z;
  bitError : Z;
  frameError : bool;
  receiveBuffer : Z;
  lastFrameBuffer : Z
}.

Definition set_pulseStartTime v s :=
  mkState v (pulseEndTime s) (frameEndTime s) (bitReceived s) (wasMark s)
    (framePosition s) (bitPosition s) (lastBit s) (errors s) (errIdx s)
    (bitError s) (frameError s) (receiveBuffer s) (lastFrameBuffer s).
Definition set_pulseEndTime v s :=
  mkState (pulseStartTime s) v (frameEndTime s) (bitReceived s) (wasMark s)
    (framePosition s) (bitPosition s) (lastBit s) (errors s) (errIdx s)
    (bitError s) (frameError s) (receiveBuffer s) (lastFrameBuffer s).
Definition set_frameEndTime v s :=
  mkState (pulseStartTime s) (pulseEndTime s) v (bitReceived s) (wasMark s)
    (framePosition s) (bitPosition s) (lastBit s) (errors s) (errIdx s)
    (bitError s) (frameError s) (receiveBuffer s) (lastFrameBuffer s).
Definition set_bitReceived v s :=
  mkState (pulseStartTime s) (pulseEndTime s) (frameEndTime s) v (wasMark s)
    (framePosition s) (bitPosition s) (lastBit s) (errors s) (errIdx s)
    (bitError s) (frameError s) (receiveBuffer s) (lastFrameBuffer s).
Definition set_wasMark v s :=
  mkState (pulseStartTime s) (pulseEndTime s) (frameEndTime s)
    (bitReceived s) v
    (framePosition s) (bitPosition s) (lastBit s) (errors s) (errIdx s)
    (bitError s) (frameError s) (receiveBuffer s) (lastFrameBuffer s).
Definition set_framePosition v s :=
  mkState (pulseStartTime s) (pulseEndTime s) (frameEndTime s)
    (bitReceived s) (wasMark s)
    v (bitPosition s) (lastBit s) (errors s) (errIdx s)
    (bitError s) (frameError s) (receiveBuffer s) (lastFrameBuffer s).
Definition set_bitPosition v s :=
  mkState (pulseStartTime s) (pulseEndTime s) (frameEndTime s)
    (bitReceived s) (wasMark s)
    (framePosition s) v (lastBit s) (errors s) (errIdx s)
    (bitError s) (frameError s) (receiveBuffer s) (lastFrameBuffer s).
Definition set_lastBit v s :=
  mkState (pulseStartTime s) (pulseEndTime s) (frameEndTime s)
    (bitReceived s) (wasMark s)
    (framePosition s) (bitPosition s) v (errors s) (errIdx s)
    (bitError s) (frameError s) (receiveBuffer s) (lastFrameBuffer s).
Definition set_errors v s :=
  mkState (pulseStartTime s) (pulseEndTime s) (frameEndTime s)
    (bitReceived s) (wasMark s)
    (framePosition s) (bitPosition s) (lastBit s) v (errIdx s)
    (bitError s) (frameError s) (receiveBuffer s) (lastFrameBuffer s).
Definition set_errIdx v s :=
  mkState (pulseStartTime s) (pulseEndTime s) (frameEndTime s)
    (bitReceived s) (wasMark s)
    (framePosition s) (bitPosition s) (lastBit s) (errors s) v
    (bitError s) (frameError s) (receiveBuffer s) (lastFrameBuffer s).
Definition set_bitError v s :=
  mkState (pulseStartTime s) (pulseEndTime s) (frameEndTime s)
    (bitReceived s) (wasMark s)
    (framePosition s) (bitPosition s) (lastBit s) (errors s) (errIdx s)
    v (frameError s) (receiveBuffer s) (lastFrameBuffer s).
Definition set_frameError v s :=
  mkState (pulseStartTime s) (pulseEndTime s) (frameEndTime s)
    (bitReceived s) (wasMark s)
    (framePosition s) (bitPosition s) (lastBit s) (errors s) (errIdx s)
    (bitError s) v (receiveBuffer s) (lastFrameBuffer s).
Definition set_receiveBuffer v s :=
  mkState (pulseStartTime s) (pulseEndTime s) (frameEndTime s)
    (bitReceived s) (wasMark s)
    (framePosition s) (bitPosition s) (lastBit s) (errors s) (errIdx s)
    (bitError s) (frameError s) v (lastFrameBuffer s).
Definition set_lastFrameBuffer v s :=
  mkState (pulseStartTime s) (pulseEndTime s) (frameEndTime s)
    (bitReceived s) (wasMark s)
    (framePosition s) (bitPosition s) (lastBit s) (errors s) (errIdx s)
    (bitError s) (frameError s) (receiveBuffer s) v.

(** The initialisers of the globals, then [setup()]. *)
Definition init : state :=
  {| pulseStartTime := 0; pulseEndTime := 0; frameEndTime := 0;
     bitReceived := false; wasMark := false;
     framePosition := 0; bitPosition := 1;
     lastBit := " "%char;
     errors := [1; 1; 1; 1; 1; 1; 1; 1; 1; 1]; errIdx := 0;
     bitError := 0; frameError := false;
     receiveBuffer := 0; lastFrameBuffer := 0 |}.

(** [a[i] = v] on a C array held as a list.  An index outside the array is
    undefined behaviour in C; the list is left as it is. *)
Fixpoint store_nth (n : nat) (v : Z) (a : list Z) : list Z :=
  match a, n with
  | [], _ => []
  | _ :: a', O => v :: a'
  | x :: a', S n' => x :: store_nth n' v a'
  end.
Definition store (i : Z) (v : Z) (a : list Z) : list Z :=
  if (0 <=? i) then store_nth (Z.to_nat i) v a else a.
Definition load (i : Z) (a : list Z) : Z := nth (Z.to_nat i) a 0.

(** [logFrameError(err)] *)
Definition logFrameError (err : bool) (s : state) : state :=
  let add := if err then 1 else 0 in
  let s := set_errors (store (errIdx s) add (errors s)) s in
  let s := set_errIdx (int_wrap (errIdx s + 1)) s in
  if errIdx s >=? 10 then set_errIdx 0 s else s.

(** [sumFrameErrors()].  The local [rv] is declared without an
    initialiser ([int i, rv;]) and the loop adds to it, so what the
    function returns depends on the indeterminate value [rv0] the variable
    starts with. *)
Fixpoint sumFrameErrors_loop (n : nat) (i rv : Z) (a : list Z) : Z :=
  match n with
  | O => rv
  | S n' =>
      if i <? 10
      then sumFrameErrors_loop n' (i + 1) (int_wrap (rv + load i a)) a
      else rv
  end.
Definition sumFrameErrors (rv0 : Z) (s : state) : Z :=
  sumFrameErrors_loop 10 0 rv0 (errors s).

(** [buffer(bit)]: [0] and [1] are data bits, [-1] a marker, [-2] an
    error.  Serial output is not modelled. *)
Definition buffer (bit : Z) (s : state) : state :=
  let s :=
    if bit =? 0 then set_lastBit "0"%char s
    else if bit =? 1 then set_lastBit "1"%char s
    else if bit =? -1 then
      set_framePosition (int_wrap (framePosition s + 1))
        (set_lastBit "M"%char s)
    else if bit =? -2 then set_lastBit "X"%char s
    else s in
  let bit := if bit <? 0 then 0 else bit in
  let s :=
    set_receiveBuffer
      (Z.lor (receiveBuffer s)
             (wrap64 (Z.shiftl bit (64 - bitPosition s)))) s in
  set_bitPosition (int_wrap (bitPosition s + 1)) s.

(** [unsigned int pulseWidth = pulseEndTime - pulseStartTime;] the
    difference of two [unsigned long], narrowed to 16 bits. *)
Definition pulseWidth (s : state) : Z :=
  wrap16 (wrap32 (pulseEndTime s - pulseStartTime s)).

(** The resets shared by the boundary branch and the overflow branch. *)
Definition reset_counters (s : state) : state :=
  set_receiveBuffer 0 (set_bitError 0 (set_wasMark false
    (set_bitPosition 1 (set_framePosition 0 s)))).

(** [processBit()], first part: the pulse is decoded by its width.  The
    front panel light and the serial trace are not modelled. *)
Definition decode_pulse (s : state) : state :=
  let pulseWidth := pulseWidth s in
  if pulseWidth <? 100 then
    let s := buffer (-2) s in
    let s := set_bitError (int_wrap (bitError s + 1)) s in
    set_wasMark false s
  else if pulseWidth <? 400 then
    let s := buffer 0 s in
    set_wasMark false s
  else if pulseWidth <? 700 then
    let s := buffer 1 s in
    set_wasMark false s
  else if pulseWidth <? 900 then
    if wasMark s then
      let s := set_lastBit "*"%char s in
      let s :=
        if (framePosition s =? 6) && (bitPosition s =? 60)
           && (bitError s =? 0)
        then
          let s := set_frameEndTime (pulseStartTime s) s in
          let s := set_lastFrameBuffer (receiveBuffer s) s in
          logFrameError false s
        else set_frameError true s in
      reset_counters s
    else
      let s := buffer (-1) s in
      set_wasMark true s
  else
    let s := buffer (-2) s in
    let s := set_bitError (int_wrap (bitError s + 1)) s in
    set_wasMark false s.

(** [processBit()], second part: "Reset everything if we have more than
    60 bits in the frame". *)
Definition check_frame (s : state) : state :=
  if frameError s || (bitPosition s >? 60) then
    let s := set_frameError false s in
    let s := logFrameError true s in
    reset_counters s
  else s.

Definition processBit (s : state) : state :=
  let s := set_bitReceived false s in
  check_frame (decode_pulse s).

(** [millis()]: an [unsigned long] count of milliseconds. *)
Definition millis (t : Z) : Z := wrap32 t.

(** [wwvbChange()], the interrupt routine; [signalLevel] is [true] for
    [HIGH]; [now] is what [millis()] returns. *)
Definition wwvbChange (signalLevel : bool) (now : Z) (s : state) : state :=
  if negb signalLevel then set_pulseStartTime now s
  else set_bitReceived true (set_pulseEndTime now s).

(** The first statement of [loop()] only: "If we've received another bit,
    process it".  This is the decoder's step, not the whole of [loop()]:
    the second statement, the refresh of the display and of the real-time
    clock, runs when 250 ms have passed since it last ran, and
    [loop_update] below is what it does to the globals of the decoder.  It
    writes [lastFrameBuffer] and [frameEndTime], which the decoder never
    reads, and nothing else here.  So [pulse] and [pulses], which run the
    decoder alone, give every other global as the program has it, and
    these two as the program has them up to the next refresh: right after
    the [processBit()] that accepts a frame.  [Rtc.loop] is [loop()] in
    full. *)
Definition loop (s : state) : state :=
  if bitReceived s then processBit s else s.

(** One low pulse on the input pin, as the decoder takes it: a falling
    edge at time [t], a rising edge [low] milliseconds later, the first
    statement of the main loop running after each. *)
Definition pulse (t low : Z) (s : state) : state :=
  let s := loop (wwvbChange false (millis t) s) in
  loop (wwvbChange true (millis (t + low)) s).

(** A train of pulses, each given as (low time, high time), the first one
    starting at time [t]. *)
Fixpoint pulses_from (t : Z) (s : state) (ps : list (Z * Z)) : state :=
  match ps with
  | [] => s
  | (low, high) :: ps' => pulses_from (t + low + high) (pulse t low s) ps'
  end.
Definition pulses (t : Z) (ps : list (Z * Z)) (s : state) : state :=
  pulses_from t s ps.

(** [incrementWwvbMinute()]; it works on the one global [wwvbFrame]
    points to, [lastFrameBuffer]. *)
Definition incrementWwvbMinute (lastFrameBuffer : Z) : Z :=
  increment_minute wwvbBuffer lastFrameBuffer.

(** "Update RTC if there has been a successfully received WWVB Frame":
    [updateRTC()] advances the held frame by one minute before it writes
    the clock chip, and the time of the frame is cleared.  (The registers
    and the write are in [Rtc.updateRTC].) *)
Definition loop_update (s : state) : state :=
  if negb (frameEndTime s =? 0) then
    let s :=
      set_lastFrameBuffer (incrementWwvbMinute (lastFrameBuffer s)) s in
    set_frameEndTime 0 s
  else s.

End Clock.

(** ** The transmitter: [wwvb_signal_simulator.pde] *)

Module Simulator.

(** [struct wwvbBuffer] of the simulator. *)
Definition wwvbBuffer : layout :=
  [ (U12, 4); (Frame, 1); (Dst, 2); (Leapsec, 1); (Leapyear, 1); (U11, 1);
    (YearOne, 4); (U10, 1); (YearTen, 4); (U09, 1); (OffVal, 4); (U08, 1);
    (OffSign, 3); (U07, 2); (DayOne, 4); (U06, 1); (DayTen, 4); (U05, 1);
    (DayHun, 2); (U04, 3); (HourOne, 4); (U03, 1); (HourTen, 2); (U02, 3);
    (MinOne, 4); (U01, 1); (MinTen, 3); (U00, 1) ].

(** The fourteen values [setup()] presets. *)
Record TimeFrame : Set := mkTimeFrame {
  minuteTens : Z; minuteOnes : Z;
  hourTens : Z; hourOnes : Z;
  dayHundreds : Z; dayTens : Z; dayOnes : Z;
  ut1Sign : Z; ut1Magnitude : Z;
  yearTens : Z; yearOnes : Z;
  dstStatus : Z; leapYear : Z; leapSecondPending : Z
}.

(** "Preset the time struct": [*timeBits = 0] and the fourteen
    assignments of [setup()], in their order. *)
Definition preset (T : TimeFrame) : Z :=
  let b := 0 in
  let b := assign wwvbBuffer MinTen (minuteTens T) b in
  let b := assign wwvbBuffer MinOne (minuteOnes T) b in
  let b := assign wwvbBuffer HourTen (hourTens T) b in
  let b := assign wwvbBuffer HourOne (hourOnes T) b in
  let b := assign wwvbBuffer DayHun (dayHundreds T) b in
  let b := assign wwvbBuffer DayTen (dayTens T) b in
  let b := assign wwvbBuffer DayOne (dayOnes T) b in
  let b := assign wwvbBuffer OffSign (ut1Sign T) b in
  let b := assign wwvbBuffer OffVal (ut1Magnitude T) b in
  let b := assign wwvbBuffer YearTen (yearTens T) b in
  let b := assign wwvbBuffer YearOne (yearOnes T) b in
  let b := assign wwvbBuffer Dst (dstStatus T) b in
  let b := assign wwvbBuffer Leapyear (leapYear T) b in
  assign wwvbBuffer Leapsec (leapSecondPending T) b.

(** The values [setup()] writes: 23:57, day 365 of year 10, UT1 +0.3,
    DST in effect, no leap year, no leap second. *)
Definition setup : Z :=
  preset (mkTimeFrame 5 7 2 3 3 6 5 5 3 1 0 3 0 0).

(** [sendMark()], [sendWeighted()], [sendUnweighted()]: milliseconds the
    pin is held low, then high. *)
Definition sendMark : Z * Z := (800, 200).
Definition sendWeighted : Z * Z := (500, 500).
Definition sendUnweighted : Z * Z := (200, 800).

(** The [for (int i = 63; i >= 4; i--)] loop of [loop()]; [n] bounds the
    number of iterations. *)
Fixpoint send_bits (n : nat) (i position : Z) (timeBits : Z)
  : list (Z * Z) :=
  match n with
  | O => []
  | S n' =>
      if i >=? 4 then
        let mask := wrap64 (Z.shiftl 1 i) in
        let bit := if Z.land timeBits mask =? 0 then 0 else 1 in
        let mark :=
          if (position =? 0) || ((position + 1) mod 10 =? 0)
          then 1 else 0 in
        (if negb (mark =? 0) then sendMark
         else if bit =? 0 then sendUnweighted
         else sendWeighted)
        :: send_bits n' (i - 1) (position + 1) timeBits
      else []
  end.

(** One frame: sixty symbols. *)
Definition frame (timeBits : Z) : list (Z * Z) :=
  send_bits 60 63 0 timeBits.

(** One pass of [loop()]: the frame sent, and the word one minute on. *)
Definition loop (timeBits : Z) : list (Z * Z) * Z :=
  (frame timeBits, increment_minute wwvbBuffer timeBits).

End Simulator.

(** ** Vocabulary of the statements *)

Definition all_fields : list field :=
  [ U12; Frame; Dst; Leapsec; Leapyear; U11; YearOne; U10; YearTen; U09;
    OffVal; U08; OffSign; U07; DayOne; U06; DayTen; U05; DayHun; U04;
    HourOne; U03; HourTen; U02; MinOne; U01; MinTen; U00 ].

Definition width (L : layout) (f : field) : Z := snd (locate L f 0).

(** A window lies in the word, two windows do not overlap. *)
Definition window_ok (a : Z * Z) : bool := (0 <=? fst a) && (0 <=? snd a).
Definition apart (a b : Z * Z) : bool :=
  (fst a + snd a <=? fst b) || (fst b + snd b <=? fst a).

(** A struct whose fields occupy pairwise disjoint windows. *)
Definition layout_ok (L : layout) : bool :=
  forallb (fun f =>
    window_ok (locate L f 0)
    && forallb (fun g => field_beq f g
                         || apart (locate L f 0) (locate L g 0))
               all_fields)
    all_fields.

(** Readings of the frame the clock holds ([wwvbFrame->f]). *)
Definition frame_get : field -> Z -> Z := get Clock.wwvbBuffer.

Definition minute_of (b : Z) : Z :=
  10 * frame_get MinTen b + frame_get MinOne b.
Definition hour_of (b : Z) : Z :=
  10 * frame_get HourTen b + frame_get HourOne b.
Definition day_of_year (b : Z) : Z :=
  100 * frame_get DayHun b + 10 * frame_get DayTen b + frame_get DayOne b.
Definition year_of (b : Z) : Z :=
  10 * frame_get YearTen b + frame_get YearOne b.

(** The invariant of a time frame: every digit in its range, the hour below
    24, and the day of the year a day of that year (1 to 365, or to 366 when
    the leap year flag is set). *)
Definition valid_frame (b : Z) : bool :=
  (frame_get MinTen b <=? 5) && (frame_get MinOne b <=? 9)
  && (frame_get HourTen b <=? 2) && (frame_get HourOne b <=? 9)
  && (hour_of b <=? 23)
  && (frame_get DayHun b <=? 3) && (frame_get DayTen b <=? 9)
  && (frame_get DayOne b <=? 9)
  && (1 <=? day_of_year b)
  && (day_of_year b <=? 365 + frame_get Leapyear b)
  && (frame_get YearTen b <=? 9) && (frame_get YearOne b <=? 9)
  && (frame_get OffVal b <=? 9).

(** The fields the minute increment may write. *)
Definition clock_field (f : field) : bool :=
  match f with
  | MinOne | MinTen | HourOne | HourTen | DayOne | DayTen | DayHun
  | YearOne | YearTen => true
  | _ => false
  end.

(** The symbol a pulse width stands for: the bands [processBit()] tests. *)
Inductive PulseClass : Set := Marker | Zero | One | Invalid.

Definition classify (pulseWidth : Z) : PulseClass :=
  if pulseWidth <? 100 then Invalid
  else if pulseWidth <? 400 then Zero
  else if pulseWidth <? 700 then One
  else if pulseWidth <? 900 then Marker
  else Invalid.

(** The time frame the clock reads out of a held word. *)
Definition decode (b : Z) : Simulator.TimeFrame :=
  Simulator.mkTimeFrame
    (frame_get MinTen b) (frame_get MinOne b)
    (frame_get HourTen b) (frame_get HourOne b)
    (frame_get DayHun b) (frame_get DayTen b) (frame_get DayOne b)
    (frame_get OffSign b) (frame_get OffVal b)
    (frame_get YearTen b) (frame_get YearOne b)
    (frame_get Dst b) (frame_get Leapyear b) (frame_get Leapsec b).

(** The word that holds a given time frame in the struct of the clock. *)
Definition held (T : Simulator.TimeFrame) : Z :=
  let C := Clock.wwvbBuffer in
  assign C MinTen (Simulator.minuteTens T)
 (assign C MinOne (Simulator.minuteOnes T)
 (assign C HourTen (Simulator.hourTens T)
 (assign C HourOne (Simulator.hourOnes T)
 (assign C DayHun (Simulator.dayHundreds T)
 (assign C DayTen (Simulator.dayTens T)
 (assign C DayOne (Simulator.dayOnes T)
 (assign C OffSign (Simulator.ut1Sign T)
 (assign C OffVal (Simulator.ut1Magnitude T)
 (assign C YearTen (Simulator.yearTens T)
 (assign C YearOne (Simulator.yearOnes T)
 (assign C Dst (Simulator.dstStatus T)
 (assign C Leapyear (Simulator.leapYear T)
 (assign C Leapsec (Simulator.leapSecondPending T) 0))))))))))))).

(** The ranges of the sub-fields of a time frame.  The UT1 sign is the raw
    three-bit code (5 positive, 2 negative, anything else unknown). *)
Definition in_range (T : Simulator.TimeFrame) : Prop :=
  0 <= Simulator.minuteTens T <= 5 /\ 0 <= Simulator.minuteOnes T <= 9 /\
  0 <= Simulator.hourTens T <= 2 /\ 0 <= Simulator.hourOnes T <= 9 /\
  10 * Simulator.hourTens T + Simulator.hourOnes T <= 23 /\
  0 <= Simulator.dayHundreds T <= 3 /\ 0 <= Simulator.dayTens T <= 9 /\
  0 <= Simulator.dayOnes T <= 9 /\
  1 <= 100 * Simulator.dayHundreds T + 10 * Simulator.dayTens T
       + Simulator.dayOnes T <= 366 /\
  0 <= Simulator.ut1Sign T <= 7 /\ 0 <= Simulator.ut1Magnitude T <= 9 /\
  0 <= Simulator.yearTens T <= 9 /\ 0 <= Simulator.yearOnes T <= 9 /\
  0 <= Simulator.dstStatus T <= 3 /\
  0 <= Simulator.leapYear T <= 1 /\ 0 <= Simulator.leapSecondPending T <= 1.

(** What holds of the counters between two calls of [processBit()], and of
    the globals whenever the main loop waits for an edge. *)
Definition sane (s : Clock.state) : Prop :=
  Clock.frameError s = false /\
  1 <= Clock.bitPosition s <= 60 /\
  0 <= Clock.framePosition s < Clock.bitPosition s /\
  0 <= Clock.bitError s < Clock.bitPosition s /\
  0 <= Clock.errIdx s < 10 /\ length (Clock.errors s) = 10%nat.

Definition idle (s : Clock.state) : Prop :=
  Clock.bitReceived s = false /\ sane s.

(** The globals as [processBit()] finds them after a pulse that began at
    time [t] and lasted [low] milliseconds. *)
Definition timed (t low : Z) (s : Clock.state) : Clock.state :=
  Clock.set_bitReceived true
    (Clock.set_pulseEndTime (Clock.millis (t + low))
       (Clock.set_pulseStartTime (Clock.millis t) s)).

(** The globals of the decoder after a refresh of the display has left
    [v] in [lastFrameBuffer] and [w] in [frameEndTime]. *)
Definition refreshed (v w : Z) (s : Clock.state) : Clock.state :=
  Clock.set_lastFrameBuffer v (Clock.set_frameEndTime w s).



(** A run of frame outcomes logged one after the other. *)
Definition record (outcomes : list bool) (s : Clock.state) : Clock.state :=
  fold_left (fun s err => Clock.logFrameError err s) outcomes s.

(** The number of failures in a window of outcomes (a slot holds 1 for a
    failure and 0 for a success). *)
Definition failures (a : list Z) : Z := fold_right Z.add 0 a.

(** The last ten of the outcomes logged so far, oldest first, the ten
    initial slots counting as the oldest outcomes. *)
Definition slot (err : bool) : Z := if err then 1 else 0.
Definition history (outcomes : list bool) : list Z :=
  Clock.errors Clock.init ++ map slot outcomes.
Definition last10 (h : list Z) : list Z := skipn (length h - 10) h.

(** The window read oldest slot first: [errIdx] points to the oldest. *)
Definition window (s : Clock.state) : list Z :=
  skipn (Z.to_nat (Clock.errIdx s)) (Clock.errors s)
  ++ firstn (Z.to_nat (Clock.errIdx s)) (Clock.errors s).

Definition is_marker (c : PulseClass) : bool :=
  match c with Marker => true | _ => false end.
Definition is_invalid (c : PulseClass) : bool :=
  match c with Invalid => true | _ => false end.
Definition is_one (c : PulseClass) : bool :=
  match c with One => true | _ => false end.

(** A frame boundary: a marker pulse right after a marker pulse. *)
Definition boundary (s : Clock.state) : bool :=
  Clock.wasMark s && is_marker (classify (Clock.pulseWidth s)).

(** The test [processBit()] makes at a frame boundary. *)
Definition frame_accepted (s : Clock.state) : bool :=
  (Clock.framePosition s =? 6) && (Clock.bitPosition s =? 60)
  && (Clock.bitError s =? 0).

(** The decoder is [position] symbols into the frame the simulator sends
    for the word [e]: it has counted the markers so far, and holds the bits
    of [e] sent so far, one place up. *)
Definition synced (e position : Z) (s : Clock.state) : Prop :=
  idle s /\
  Clock.bitPosition s = position /\
  Clock.framePosition s = position / 10 /\
  Clock.wasMark s = (position mod 10 =? 0) /\
  Clock.bitError s = 0 /\
  Clock.receiveBuffer s = Z.shiftl (Z.shiftr e (64 - position)) (65 - position).

(** A word of the simulator with nothing in the bits that are never sent
    (the low four), that are sent as markers, or that lie outside the
    struct. *)
Definition quiet (e : Z) : Prop :=
  forall k, 0 <= k ->
    k < 4 \/ 63 <= k \/ (64 - k) mod 10 = 0 -> Z.testbit e k = false.

(** Some frames and states to try the statements on. *)
Definition frame_2357 : Simulator.TimeFrame :=
  Simulator.mkTimeFrame 5 7 2 3 3 6 5 5 3 1 0 3 0 0.
Definition frame_2359 : Simulator.TimeFrame :=
  Simulator.mkTimeFrame 5 9 2 3 3 6 5 5 3 1 0 3 0 0.
Definition frame_2359_day100 : Simulator.TimeFrame :=
  Simulator.mkTimeFrame 5 9 2 3 1 0 0 5 3 1 0 3 0 0.
Definition after_marker : Clock.state := Clock.pulse 0 800 Clock.init.
Definition frame_full : Clock.state := Clock.set_bitPosition 60 Clock.init.

(** The frame of a word whose bits are all set: every symbol that is not a
    marker is a one. *)
Definition all_ones : list (Z * Z) := Simulator.frame (2 ^ 64 - 1).

(** ** The receiver: real-time clock, display and debug trace *)

Module Rtc.

(** [byte]: 8 bits, unsigned. *)
Definition byte (z : Z) : Z := z mod 2 ^ 8.

(** [bcd2dec(bcd)] and [dec2bcd(dec)], on [int]: [/] and [%] truncate
    toward zero, [>>] keeps the sign. *)
Definition bcd2dec (bcd : Z) : Z :=
  int_wrap (int_wrap (Z.shiftr bcd 4 * 10) + Z.rem bcd 16).

Definition dec2bcd (dec : Z) : Z :=
  int_wrap (int_wrap (Z.shiftl (Z.quot dec 10) 4) + Z.rem dec 10).

(** [int eomYear[14][2]]: the last day of each month as a day of the year,
    in a common year and in a leap year. *)
Definition eomYear : list (list Z) :=
  [ [0; 0]; [31; 31]; [59; 60]; [90; 91]; [120; 121]; [151; 152];
    [181; 182]; [212; 213]; [243; 244]; [273; 274]; [304; 305];
    [334; 335]; [365; 366]; [366; 367] ].

(** [eomYear[i][j]] *)
Definition eomYear_at (i j : Z) : Z :=
  nth (Z.to_nat j) (nth (Z.to_nat i) eomYear []) 0.

(** [char *months[12]] *)
Definition months : list String.string :=
  [ "Jan"; "Feb"; "Mar"; "Apr"; "May"; "Jun";
    "Jul"; "Aug"; "Sep"; "Oct"; "Nov"; "Dec" ]%string.

(** The "RTC clock variables", each a [byte]. *)
Record registers : Set := mkRegisters {
  second : Z; minute : Z; hour : Z; day : Z;
  date : Z; month : Z; year : Z; ctrl : Z
}.

(** The globals of the sketch: those of the decoder, the copy of the
    registers of the clock chip, and the two the display keeps. *)
Record globals : Set := mkGlobals {
  decoder : Clock.state;
  rtc : registers;
  lastRtcUpdateTime : Z;
  lastTimeUpdate : String.string
}.

Definition init : globals :=
  {| decoder := Clock.init;
     rtc := mkRegisters 0 0 0 0 1 1 0 0;
     lastRtcUpdateTime := 0;
     lastTimeUpdate := ""%string |}.

(** *** [sprintf]

    The conversions the sketch uses: [%s], [%c], and [%i] with a
    precision, which is the least number of digits ([%i] alone has
    precision 1; [%0.2i] has precision 2, and the flag [0] is without
    effect when a precision is given).  The argument of [%i] is an
    [int]. *)
Definition digit (d : Z) : ascii := ascii_of_nat (48 + Z.to_nat d).

Fixpoint digits (n : nat) (x : Z) (acc : String.string) : String.string :=
  match n with
  | O => acc
  | S n' =>
      if x =? 0 then acc
      else digits n' (x / 10) (String.String (digit (x mod 10)) acc)
  end.

Fixpoint zeros (n : nat) (acc : String.string) : String.string :=
  match n with
  | O => acc
  | S n' => String.String "0"%char (zeros n' acc)
  end.

Definition fmt_i (precision : nat) (x : Z) : String.string :=
  let x := int_wrap x in
  let d := digits 5 (Z.abs x) ""%string in
  let d := zeros (precision - String.length d) d in
  if x <? 0 then String.String "-"%char d else d.

Definition fmt_c (c : ascii) : String.string := String.String c ""%string.

(** A [char*] as a function hands it to its caller: the address of an
    array that is still there, with the text in it, or the address of a
    local array of the function, which is gone when the caller has the
    address; [text] is then what the function wrote there. *)
Inductive chars : Set :=
| alive (text : String.string)
| dead (text : String.string).

(** [lcd.print(p)]: the text printed.  Reading through the address of an
    array that is gone is undefined: [None]. *)
Definition lcd_print (p : chars) : option String.string :=
  match p with
  | alive text => Some text
  | dead _ => None
  end.

(** [buildTimeString()]: [sprintf] writes the text for the first row to
    the local [rv], and the address of [rv] is returned. *)
Definition buildTimeString (g : globals) : chars :=
  dead
    (String.concat ""%string
       [ fmt_i 2 (bcd2dec (hour (rtc g))); ":"%string;
         fmt_i 2 (bcd2dec (minute (rtc g))); ":"%string;
         fmt_i 2 (bcd2dec (second (rtc g))); " UTC   "%string;
         fmt_c (Clock.lastBit (decoder g)) ]).

(** [wwvbFrame->f]: a window of [lastFrameBuffer]. *)
Definition wwvbFrame (f : field) (g : globals) : Z :=
  get Clock.wwvbBuffer f (Clock.lastFrameBuffer (decoder g)).

(** [updateDisplay()]: the texts printed on the two rows, each [None]
    where the code leaves it undefined.  The first is printed through the
    address [buildTimeString()] returns.  For the second, [msg] is not
    written when [cycle] is none of 0 to 5, and [months] is read outside
    its twelve entries when the month is not 1 to 12.  [rv0] is the value
    the local [rv] of [sumFrameErrors()] starts with.  The front panel
    light is not modelled. *)
Definition updateDisplay (rv0 : Z) (g : globals)
  : option String.string * option String.string :=
  let time := lcd_print (buildTimeString g) in
  let cycle := int_wrap (Z.quot (bcd2dec (second (rtc g))) 10) in
  let msg :=
    if cycle =? 0 then
      let i := int_wrap (bcd2dec (month (rtc g)) - 1) in
      if (0 <=? i) && (i <? 12) then
        Some (String.concat ""%string
          [ nth (Z.to_nat i) months ""%string; " "%string;
            fmt_i 2 (bcd2dec (date (rtc g))); " 20"%string;
            fmt_i 2 (bcd2dec (year (rtc g))) ])
      else None
    else if cycle =? 1 then
      let signal :=
        int_wrap (Z.quot (int_wrap (10 - Clock.sumFrameErrors rv0 (decoder g)))
                         2) in
      Some (String.append "WWVB Signal: "%string (fmt_i 1 signal))
    else if cycle =? 2 then
      let leapyear :=
        if byte (wwvbFrame Leapyear g) =? 1 then "Yes"%string
        else "No"%string in
      let leapsec :=
        if byte (wwvbFrame Leapsec g) =? 1 then "Yes"%string
        else "No"%string in
      Some (String.concat ""%string
              [ "LY: "%string; leapyear; "  LS: "%string; leapsec ])
    else if cycle =? 3 then
      let dst := byte (wwvbFrame Dst g) in
      if dst =? 0 then Some "DST: No"%string
      else if dst =? 1 then Some "DST: Ending"%string
      else if dst =? 2 then Some "DST: Starting"%string
      else if dst =? 3 then Some "DST: Yes"%string
      else None
    else if cycle =? 4 then
      let sign :=
        if byte (wwvbFrame OffSign g) =? 2 then "-"%char
        else if byte (wwvbFrame OffSign g) =? 5 then "+"%char
        else "?"%char in
      Some (String.concat ""%string
              [ "UT1 "%string; fmt_c sign; " 0."%string;
                fmt_i 1 (byte (wwvbFrame OffVal g)) ])
    else if cycle =? 5 then
      Some (String.concat ""%string
              [ "["%string; lastTimeUpdate g; "]"%string ])
    else None in
  (time, msg).

(** [Wire.read()]: the next byte received, or -1 when none is left. *)
Definition Wire_read (rx : list Z) : Z * list Z :=
  match rx with
  | [] => (-1, [])
  | b :: rx' => (b, rx')
  end.

(** [#define RTC_SECS 0]: the number of the seconds register. *)
Definition RTC_SECS : Z := 0.

(** [getRTC()]: the number of the seconds register is written to the
    clock chip, and eight bytes are read from it.  [rx] is what the chip
    answers to the request for the eight bytes; the result is the globals
    and the bytes written. *)
Definition getRTC (rx : list Z) (g : globals) : globals * list Z :=
  let sent := [RTC_SECS] in
  let '(second, rx) := Wire_read rx in
  let '(minute, rx) := Wire_read rx in
  let '(hour, rx) := Wire_read rx in
  let '(day, rx) := Wire_read rx in
  let '(date, rx) := Wire_read rx in
  let '(month, rx) := Wire_read rx in
  let '(year, rx) := Wire_read rx in
  let '(ctrl, rx) := Wire_read rx in
  (mkGlobals (decoder g)
     (mkRegisters (byte second) (byte minute) (byte hour) (byte day)
        (byte date) (byte month) (byte year) (byte ctrl))
     (lastRtcUpdateTime g) (lastTimeUpdate g), sent).

(** [setRTC()]: the bytes written to the clock chip, the register address
    [RTC_SECS] first. *)
Definition setRTC (g : globals) : list Z :=
  [ RTC_SECS; second (rtc g); minute (rtc g); hour (rtc g); day (rtc g);
    date (rtc g); month (rtc g); year (rtc g); ctrl (rtc g) ].

(** [updateRTC()], its first lines: the seconds since the frame's on-time
    marker, to the nearest second.  [now] is what [millis()] returns. *)
Definition secondsSinceFrame (now frameEndTime : Z) : Z :=
  let timeSinceFrame := wrap16 (wrap32 (now - frameEndTime)) in
  let secondsSinceFrame := byte (timeSinceFrame / 1000) in
  if timeSinceFrame mod 1000 >? 500 then byte (secondsSinceFrame + 1)
  else secondsSinceFrame.

(** [while ( (i < 14) && (eomYear[i][isLeapyear] < doy) ) i++;]  The loop
    ends after fourteen rounds at the latest. *)
Fixpoint month_loop (n : nat) (i isLeapyear doy : Z) : Z :=
  match n with
  | O => i
  | S n' =>
      if (i <? 14) && (eomYear_at i isLeapyear <? doy)
      then month_loop n' (int_wrap (i + 1)) isLeapyear doy
      else i
  end.

(** [updateRTC()]: the globals after it, and the bytes sent to the clock
    chip. *)
Definition updateRTC (now : Z) (g : globals) : globals * list Z :=
  let secondsSinceFrame :=
    secondsSinceFrame now (Clock.frameEndTime (decoder g)) in
  let g :=
    mkGlobals
      (Clock.set_lastFrameBuffer
         (Clock.incrementWwvbMinute (Clock.lastFrameBuffer (decoder g)))
         (decoder g))
      (rtc g) (lastRtcUpdateTime g) (lastTimeUpdate g) in
  let second := secondsSinceFrame in
  let minute :=
    byte (Z.shiftl (byte (wwvbFrame MinTen g)) 4 + byte (wwvbFrame MinOne g)) in
  let hour :=
    byte (Z.shiftl (byte (wwvbFrame HourTen g)) 4
          + byte (wwvbFrame HourOne g)) in
  let day := 0 in
  let doy :=
    int_wrap (byte (wwvbFrame DayHun g) * 100
              + byte (wwvbFrame DayTen g) * 10
              + byte (wwvbFrame DayOne g)) in
  let isLeapyear := byte (wwvbFrame Leapyear g) in
  let i := month_loop 14 0 isLeapyear doy in
  let date :=
    if i >? 0
    then byte (dec2bcd (int_wrap (doy - eomYear_at (i - 1) isLeapyear)))
    else date (rtc g) in
  let month :=
    if i >? 0 then byte (dec2bcd (if i >? 12 then 1 else i))
    else month (rtc g) in
  let year :=
    byte (Z.shiftl (byte (wwvbFrame YearTen g)) 4
          + byte (wwvbFrame YearOne g)) in
  let r := mkRegisters second minute hour day date month year (ctrl (rtc g)) in
  let g := mkGlobals (decoder g) r (lastRtcUpdateTime g) (lastTimeUpdate g) in
  let sent := setRTC g in
  let text :=
    String.concat ""%string
      [ fmt_i 2 (bcd2dec hour); ":"%string; fmt_i 2 (bcd2dec minute);
        " "%string; fmt_i 2 (bcd2dec month); "/"%string;
        fmt_i 2 (bcd2dec date); "/"%string; fmt_i 2 (bcd2dec year) ] in
  (mkGlobals (decoder g) r (lastRtcUpdateTime g) text, sent).

(** [debugPrintFrame()]: the line printed on the serial port. *)
Definition debugPrintFrame (g : globals) : String.string :=
  let minTen := byte (wwvbFrame MinTen g) in
  let minOne := byte (wwvbFrame MinOne g) in
  let hourTen := byte (wwvbFrame HourTen g) in
  let hourOne := byte (wwvbFrame HourOne g) in
  let dayHun := byte (wwvbFrame DayHun g) in
  let dayTen := byte (wwvbFrame DayTen g) in
  let dayOne := byte (wwvbFrame DayOne g) in
  let yearOne := byte (wwvbFrame YearOne g) in
  let yearTen := byte (wwvbFrame YearTen g) in
  let wwvb_minute := byte (int_wrap (10 * minTen + minOne)) in
  let wwvb_hour := byte (int_wrap (10 * hourTen + hourOne)) in
  let wwvb_day := byte (int_wrap (100 * dayHun + 10 * dayTen + dayOne)) in
  let wwvb_year := byte (int_wrap (10 * yearTen + yearOne)) in
  String.concat ""%string
    [ String.String "010"%char "Frame Decoded: "%string;
      fmt_i 2 wwvb_hour; ":"%string; fmt_i 2 wwvb_minute; "  "%string;
      fmt_i 3 wwvb_day; "  20"%string; fmt_i 2 wwvb_year;
      String.String "010"%char ""%string ].

(** What one pass of [loop()] sends out: the transmissions to the clock
    chip, in the order they are made, each one the bytes written between
    [Wire.beginTransmission] and [Wire.endTransmission]; and the two rows
    put on the display, if it was refreshed. *)
Record effects : Set := mkEffects {
  sent : list (list Z);
  shown : option (option String.string * option String.string)
}.

(** [loop()].  [now], [now'] and [now''] are what the three calls of
    [millis()] return, in the order they are made (the third one is the
    call in [updateRTC()]); [rx] is what the clock chip answers. *)
Definition loop (now now' now'' : Z) (rx : list Z) (rv0 : Z) (g : globals)
  : globals * effects :=
  let g :=
    mkGlobals (Clock.loop (decoder g)) (rtc g) (lastRtcUpdateTime g)
      (lastTimeUpdate g) in
  if wrap32 (now - lastRtcUpdateTime g) >? 250 then
    let '(g, asked) := getRTC rx g in
    let g := mkGlobals (decoder g) (rtc g) now' (lastTimeUpdate g) in
    let '(g, sent) :=
      if negb (Clock.frameEndTime (decoder g) =? 0) then
        let '(g, written) := updateRTC now'' g in
        (mkGlobals (Clock.set_frameEndTime 0 (decoder g)) (rtc g)
           (lastRtcUpdateTime g) (lastTimeUpdate g), [asked; written])
      else (g, [asked]) in
    (g, mkEffects sent (Some (updateDisplay rv0 g)))
  else (g, mkEffects [] None).

End Rtc.

(** ** More vocabulary *)

(** The position of a marker in a frame: 0, 9, 19, 29, 39, 49 or 59. *)
Definition is_mark (position : Z) : bool :=
  (position =? 0) || ((position + 1) mod 10 =? 0).

(** The runtime of the board calls [loop()] again and again; here [n]
    times, on a sketch whose [loop()] sends symbols and changes a word. *)
Section Runtime.
Variable loop : Z -> list (Z * Z) * Z.

Fixpoint run (n : nat) (timeBits : Z) : list (Z * Z) * Z :=
  match n with
  | O => ([], timeBits)
  | S n' =>
      let (sent, timeBits) := loop timeBits in
      let (rest, timeBits) := run n' timeBits in
      (sent ++ rest, timeBits)
  end.
End Runtime.

(** The simulator left running: the symbols sent in [n] passes of
    [loop()], and the word it is left with. *)
Definition simulator_run (timeBits : Z) (n : nat) : list (Z * Z) :=
  fst (run Simulator.loop n timeBits).

Definition simulator_word (timeBits : Z) (n : nat) : Z :=
  snd (run Simulator.loop n timeBits).

(** The word the clock holds once it has taken in the frame of the word
    [e] of the simulator: the four lowest bits are not sent, and the structs
    of the two sketches are one bit apart. *)
Definition received (e : Z) : Z := Z.shiftl (Z.shiftr e 4) 5.

(** Minutes since midnight. *)
Definition minute_of_day (b : Z) : Z := 60 * hour_of b + minute_of b.

(** A register of the clock chip that holds two decimal digits. *)
Definition is_bcd (x : Z) : Prop :=
  0 <= x < 256 /\ x / 16 <= 9 /\ x mod 16 <= 9.

(** The registers [updateRTC()] makes of the frame [b], the held frame one
    minute on, and the text it keeps for the display. *)
Definition registers_of (secs : Z) (b : Z) (r : Rtc.registers)
  : Rtc.registers :=
  let leap := frame_get Leapyear b in
  let i := Rtc.month_loop 14 0 leap (day_of_year b) in
  Rtc.mkRegisters
    secs
    (16 * frame_get MinTen b + frame_get MinOne b)
    (16 * frame_get HourTen b + frame_get HourOne b)
    0
    (if i >? 0
     then Rtc.byte (Rtc.dec2bcd
            (int_wrap (day_of_year b - Rtc.eomYear_at (i - 1) leap)))
     else Rtc.date r)
    (if i >? 0 then Rtc.byte (Rtc.dec2bcd (if i >? 12 then 1 else i))
     else Rtc.month r)
    (16 * frame_get YearTen b + frame_get YearOne b)
    (Rtc.ctrl r).

Definition text_of (r : Rtc.registers) : String.string :=
  String.concat ""%string
    [ Rtc.fmt_i 2 (Rtc.bcd2dec (Rtc.hour r)); ":"%string;
      Rtc.fmt_i 2 (Rtc.bcd2dec (Rtc.minute r)); " "%string;
      Rtc.fmt_i 2 (Rtc.bcd2dec (Rtc.month r)); "/"%string;
      Rtc.fmt_i 2 (Rtc.bcd2dec (Rtc.date r)); "/"%string;
      Rtc.fmt_i 2 (Rtc.bcd2dec (Rtc.year r)) ].


(** The copy of the registers holds a time of day and a date the way the
    clock chip keeps them: binary-coded decimal, the seconds below 60, the
    month from 1 to 12. *)
Definition calendar (r : Rtc.registers) : Prop :=
  is_bcd (Rtc.second r) /\ Rtc.bcd2dec (Rtc.second r) <= 59
  /\ is_bcd (Rtc.minute r) /\ is_bcd (Rtc.hour r)
  /\ is_bcd (Rtc.date r)
  /\ is_bcd (Rtc.month r) /\ 1 <= Rtc.bcd2dec (Rtc.month r) <= 12
  /\ is_bcd (Rtc.year r).

(** The window of outcomes one outcome on: the oldest is dropped, the new
    one comes last. *)
Definition shift_in (x : Z) (w : list Z) : list Z := tl w ++ [x].

(** ** Generic facts on windows *)

Lemma get_bits_spec off w x i :
  0 <= off -> 0 <= w -> 0 <= i ->
  Z.testbit (get_bits (off, w) x) i = Z.testbit x (i + off) && (i <? w).
Proof.
  intros Ho Hw Hi. unfold get_bits; cbn [fst snd].
  rewrite Z.land_spec, Z.shiftr_spec by lia.
  rewrite Z.testbit_ones_nonneg by lia. reflexivity.
Qed.

Lemma set_bits_spec off w x v i :
  0 <= off -> 0 <= w -> 0 <= i ->
  Z.testbit (set_bits (off, w) x v) i =
  if (off <=? i) && (i <? off + w) then Z.testbit v (i - off)
  else Z.testbit x i.
Proof.
  intros Ho Hw Hi. unfold set_bits; cbn [fst snd].
  rewrite Z.lor_spec, Z.ldiff_spec, !Z.shiftl_spec, Z.land_spec by lia.
  destruct (Z.leb_spec off i) as [Hle|Hlt]; cbn [andb].
  - rewrite !Z.testbit_ones_nonneg by lia.
    replace (i - off <? w) with (i <? off + w)
      by (destruct (Z.ltb_spec i (off + w)), (Z.ltb_spec (i - off) w); lia).
    destruct (i <? off + w); cbn.
    + now rewrite Bool.andb_false_r, Bool.andb_true_r.
    + now rewrite Bool.andb_true_r, Bool.andb_false_r, Bool.orb_false_r.
  - rewrite !(Z.testbit_neg_r _ (i - off)) by lia.
    cbn. now rewrite Bool.andb_true_r, Bool.orb_false_r.
Qed.

Lemma get_set_bits_same off w x v :
  0 <= off -> 0 <= w ->
  get_bits (off, w) (set_bits (off, w) x v) = v mod 2 ^ w.
Proof.
  intros Ho Hw. apply Z.bits_inj'; intros i Hi.
  rewrite get_bits_spec, set_bits_spec by lia.
  destruct (Z.ltb_spec i w) as [Hlt|Hge].
  - replace ((off <=? i + off) && (i + off <? off + w)) with true
      by (symmetry; apply andb_true_intro; split;
          [apply Z.leb_le | apply Z.ltb_lt]; lia).
    rewrite Z.mod_pow2_bits_low by lia.
    rewrite Bool.andb_true_r. f_equal; lia.
  - rewrite Z.mod_pow2_bits_high by lia. apply Bool.andb_false_r.
Qed.

Lemma get_set_bits_other off w off' w' x v :
  0 <= off -> 0 <= w -> 0 <= off' -> 0 <= w' ->
  off + w <= off' \/ off' + w' <= off ->
  get_bits (off', w') (set_bits (off, w) x v) = get_bits (off', w') x.
Proof.
  intros Ho Hw Ho' Hw' Hd. apply Z.bits_inj'; intros i Hi.
  rewrite !get_bits_spec, set_bits_spec by lia.
  destruct (Z.ltb_spec i w') as [Hlt|Hge];
    [rewrite !Bool.andb_true_r | now rewrite !Bool.andb_false_r].
  replace ((off <=? i + off') && (i + off' <? off + w)) with false;
    [reflexivity|].
  symmetry. apply Bool.andb_false_iff.
  destruct (Z.leb_spec off (i + off')), (Z.ltb_spec (i + off') (off + w));
    auto; lia.
Qed.

Lemma all_fields_complete f : In f all_fields.
Proof. destruct f; cbn; tauto. Qed.

Lemma field_beq_refl f : field_beq f f = true.
Proof. now destruct f. Qed.

Lemma field_beq_neq f g : f <> g -> field_beq f g = false.
Proof.
  intros H. destruct (field_beq f g) eqn:E; [|reflexivity].
  elim H. now apply internal_field_dec_bl.
Qed.

Section Windows.
Variable L : layout.
Hypothesis HL : layout_ok L = true.

Lemma locate_ok f : 0 <= fst (locate L f 0) /\ 0 <= snd (locate L f 0).
Proof.
  unfold layout_ok in HL. rewrite forallb_forall in HL.
  specialize (HL f (all_fields_complete f)).
  apply andb_prop in HL. destruct HL as [H _].
  unfold window_ok in H. apply andb_prop in H. lia.
Qed.

Lemma locate_apart f g :
  f <> g ->
  fst (locate L g 0) + snd (locate L g 0) <= fst (locate L f 0)
  \/ fst (locate L f 0) + snd (locate L f 0) <= fst (locate L g 0).
Proof.
  intros Hfg. unfold layout_ok in HL. rewrite forallb_forall in HL.
  specialize (HL f (all_fields_complete f)).
  apply andb_prop in HL. destruct HL as [_ H].
  rewrite forallb_forall in H. specialize (H g (all_fields_complete g)).
  rewrite (field_beq_neq f g Hfg) in H. cbn [orb] in H.
  unfold apart in H. apply Bool.orb_prop in H. lia.
Qed.

Lemma get_assign_same f v x : get L f (assign L f v x) = v mod 2 ^ width L f.
Proof.
  unfold get, assign, width. destruct (locate_ok f) as [Ho Hw].
  destruct (locate L f 0) as [off w]. now apply get_set_bits_same.
Qed.

Lemma get_assign_other f g v x :
  f <> g -> get L f (assign L g v x) = get L f x.
Proof.
  intros Hfg. unfold get, assign.
  destruct (locate_ok f) as [Ho Hw], (locate_ok g) as [Ho' Hw'].
  pose proof (locate_apart f g Hfg) as Hd.
  destruct (locate L f 0) as [off w], (locate L g 0) as [off' w'].
  cbn [fst snd] in *. apply get_set_bits_other; lia.
Qed.

Lemma get_range f x : 0 <= get L f x < 2 ^ width L f.
Proof.
  unfold get, width, get_bits. destruct (locate_ok f) as [Ho Hw].
  rewrite Z.land_ones by lia. apply Z.mod_pos_bound. lia.
Qed.
End Windows.

(** ** The minute increment of the clock, carry by carry *)

Ltac Zify.zify_post_hook ::= Z.div_mod_to_equations.

Lemma clock_layout_ok : layout_ok Clock.wwvbBuffer = true.
Proof. vm_compute. reflexivity. Qed.

Lemma simulator_layout_ok : layout_ok Simulator.wwvbBuffer = true.
Proof. vm_compute. reflexivity. Qed.

Lemma frame_get_assign_same f v x :
  frame_get f (assign Clock.wwvbBuffer f v x)
  = v mod 2 ^ width Clock.wwvbBuffer f.
Proof. apply get_assign_same, clock_layout_ok. Qed.

Lemma frame_get_assign_other f g v x :
  f <> g -> frame_get f (assign Clock.wwvbBuffer g v x) = frame_get f x.
Proof. apply get_assign_other, clock_layout_ok. Qed.

Lemma frame_get_range f b :
  0 <= frame_get f b < 2 ^ width Clock.wwvbBuffer f.
Proof. apply get_range, clock_layout_ok. Qed.

(** Reading a field through a chain of assignments. *)
Ltac frame_simpl :=
  unfold incr; fold frame_get;
  repeat first
    [ rewrite frame_get_assign_same
    | rewrite frame_get_assign_other by discriminate ];
  repeat match goal with
    | |- context [2 ^ width Clock.wwvbBuffer ?f] =>
        let w := eval vm_compute in (2 ^ width Clock.wwvbBuffer f) in
        change (2 ^ width Clock.wwvbBuffer f) with w
    end.

Lemma carry_MinOne_cases b :
  let m := (frame_get MinOne b + 1) mod 16 in
  (m = 10 /\ forall f, frame_get f (carry_MinOne Clock.wwvbBuffer b) =
     match f with
     | MinOne => 0
     | MinTen => (frame_get MinTen b + 1) mod 8
     | _ => frame_get f b
     end)
  \/ (m <> 10 /\ forall f, frame_get f (carry_MinOne Clock.wwvbBuffer b) =
     match f with MinOne => m | _ => frame_get f b end).
Proof.
  intros m. unfold carry_MinOne. cbv zeta.
  assert (E : get Clock.wwvbBuffer MinOne (incr Clock.wwvbBuffer MinOne b) = m)
    by (frame_simpl; reflexivity).
  rewrite E. destruct (Z.eqb_spec m 10) as [Hm|Hm]; [left|right];
    (split; [assumption|]); intros f; destruct f; frame_simpl;
    try reflexivity; assumption.
Qed.

Lemma carry_MinTen_cases b :
  (frame_get MinTen b = 6 /\
   forall f, frame_get f (carry_MinTen Clock.wwvbBuffer b) =
     match f with
     | MinTen => 0
     | HourOne => (frame_get HourOne b + 1) mod 16
     | _ => frame_get f b
     end)
  \/ (frame_get MinTen b <> 6 /\
      forall f, frame_get f (carry_MinTen Clock.wwvbBuffer b) = frame_get f b).
Proof.
  unfold carry_MinTen. fold frame_get.
  destruct (Z.eqb_spec (frame_get MinTen b) 6); [left|right];
    (split; [assumption|]); intros f; destruct f; frame_simpl; reflexivity.
Qed.

Lemma carry_HourOne_cases b :
  (frame_get HourOne b = 10 /\
   forall f, frame_get f (carry_HourOne Clock.wwvbBuffer b) =
     match f with
     | HourOne => 0
     | HourTen => (frame_get HourTen b + 1) mod 4
     | _ => frame_get f b
     end)
  \/ (frame_get HourOne b <> 10 /\
      forall f, frame_get f (carry_HourOne Clock.wwvbBuffer b) = frame_get f b).
Proof.
  unfold carry_HourOne. fold frame_get.
  destruct (Z.eqb_spec (frame_get HourOne b) 10); [left|right];
    (split; [assumption|]); intros f; destruct f; frame_simpl; reflexivity.
Qed.

Lemma carry_Hour24_cases b :
  (frame_get HourTen b = 2 /\ frame_get HourOne b = 4 /\
   forall f, frame_get f (carry_Hour24 Clock.wwvbBuffer b) =
     match f with
     | HourTen => 0
     | HourOne => 0
     | DayOne => (frame_get DayOne b + 1) mod 16
     | _ => frame_get f b
     end)
  \/ (~ (frame_get HourTen b = 2 /\ frame_get HourOne b = 4) /\
      forall f, frame_get f (carry_Hour24 Clock.wwvbBuffer b) = frame_get f b).
Proof.
  unfold carry_Hour24. fold frame_get.
  destruct (Z.eqb_spec (frame_get HourTen b) 2),
           (Z.eqb_spec (frame_get HourOne b) 4); cbn [andb];
    [left; repeat (split; [assumption|])
    |right; split; [lia|] |right; split; [lia|] |right; split; [lia|]];
    intros f; destruct f; frame_simpl; reflexivity.
Qed.

Lemma carry_DayOne_cases b :
  (frame_get DayOne b = 10 /\
   forall f, frame_get f (carry_DayOne Clock.wwvbBuffer b) =
     match f with
     | DayOne => 0
     | DayTen => (frame_get DayTen b + 1) mod 16
     | _ => frame_get f b
     end)
  \/ (frame_get DayOne b <> 10 /\
      forall f, frame_get f (carry_DayOne Clock.wwvbBuffer b) = frame_get f b).
Proof.
  unfold carry_DayOne. fold frame_get.
  destruct (Z.eqb_spec (frame_get DayOne b) 10); [left|right];
    (split; [assumption|]); intros f; destruct f; frame_simpl; reflexivity.
Qed.

Lemma carry_DayTen_cases b :
  (frame_get DayTen b = 10 /\
   forall f, frame_get f (carry_DayTen Clock.wwvbBuffer b) =
     match f with
     | DayTen => 0
     | DayHun => (frame_get DayHun b + 1) mod 4
     | _ => frame_get f b
     end)
  \/ (frame_get DayTen b <> 10 /\
      forall f, frame_get f (carry_DayTen Clock.wwvbBuffer b) = frame_get f b).
Proof.
  unfold carry_DayTen. fold frame_get.
  destruct (Z.eqb_spec (frame_get DayTen b) 10); [left|right];
    (split; [assumption|]); intros f; destruct f; frame_simpl; reflexivity.
Qed.

Lemma carry_NewYear_cases b :
  (frame_get DayHun b = 3 /\ frame_get DayTen b = 6 /\
   frame_get DayOne b = 6 + frame_get Leapyear b /\
   forall f, frame_get f (carry_NewYear Clock.wwvbBuffer b) =
     match f with
     | DayHun => 0
     | DayTen => 0
     | DayOne => 1
     | YearOne => (frame_get YearOne b + 1) mod 16
     | _ => frame_get f b
     end)
  \/ (~ (frame_get DayHun b = 3 /\ frame_get DayTen b = 6 /\
         frame_get DayOne b = 6 + frame_get Leapyear b) /\
      forall f, frame_get f (carry_NewYear Clock.wwvbBuffer b) = frame_get f b).
Proof.
  unfold carry_NewYear. fold frame_get.
  destruct (Z.eqb_spec (frame_get DayHun b) 3),
           (Z.eqb_spec (frame_get DayTen b) 6),
           (Z.eqb_spec (frame_get DayOne b) (6 + frame_get Leapyear b));
    cbn [andb];
    try (right; split; [lia|]; intros f; reflexivity).
  left; repeat (split; [assumption|]).
  intros f; destruct f; frame_simpl; reflexivity.
Qed.

Lemma carry_YearOne_cases b :
  (frame_get YearOne b = 10 /\
   forall f, frame_get f (carry_YearOne Clock.wwvbBuffer b) =
     match f with
     | YearOne => 0
     | YearTen => (frame_get YearTen b + 1) mod 16
     | _ => frame_get f b
     end)
  \/ (frame_get YearOne b <> 10 /\
      forall f, frame_get f (carry_YearOne Clock.wwvbBuffer b) = frame_get f b).
Proof.
  unfold carry_YearOne. fold frame_get.
  destruct (Z.eqb_spec (frame_get YearOne b) 10); [left|right];
    (split; [assumption|]); intros f; destruct f; frame_simpl; reflexivity.
Qed.

Lemma carry_YearTen_cases b :
  (frame_get YearTen b = 10 /\
   forall f, frame_get f (carry_YearTen Clock.wwvbBuffer b) =
     match f with
     | YearTen => 0
     | _ => frame_get f b
     end)
  \/ (frame_get YearTen b <> 10 /\
      forall f, frame_get f (carry_YearTen Clock.wwvbBuffer b) = frame_get f b).
Proof.
  unfold carry_YearTen. fold frame_get.
  destruct (Z.eqb_spec (frame_get YearTen b) 10); [left|right];
    (split; [assumption|]); intros f; destruct f; frame_simpl; reflexivity.
Qed.

(** ** The minute increment as a whole *)

Lemma valid_frame_spec b :
  valid_frame b = true <->
  frame_get MinTen b <= 5 /\ frame_get MinOne b <= 9 /\
  frame_get HourTen b <= 2 /\ frame_get HourOne b <= 9 /\
  hour_of b <= 23 /\
  frame_get DayHun b <= 3 /\ frame_get DayTen b <= 9 /\
  frame_get DayOne b <= 9 /\
  1 <= day_of_year b <= 365 + frame_get Leapyear b /\
  frame_get YearTen b <= 9 /\ frame_get YearOne b <= 9 /\
  frame_get OffVal b <= 9.
Proof.
  unfold valid_frame. rewrite !Bool.andb_true_iff, !Z.leb_le. tauto.
Qed.

Lemma frame_get_nonneg f b : 0 <= frame_get f b.
Proof. apply frame_get_range. Qed.

Lemma leap_flag_range b : 0 <= frame_get Leapyear b <= 1.
Proof.
  pose proof (frame_get_range Leapyear b) as H.
  change (2 ^ width Clock.wwvbBuffer Leapyear) with 2 in H. lia.
Qed.

(** The fields a proof about the increment looks at. *)
Ltac at_fields H :=
  pose proof (H MinOne); pose proof (H MinTen); pose proof (H HourOne);
  pose proof (H HourTen); pose proof (H DayOne); pose proof (H DayTen);
  pose proof (H DayHun); pose proof (H Leapyear); pose proof (H YearOne);
  pose proof (H YearTen); pose proof (H OffVal); clear H.

Ltac nonneg_fields b :=
  pose proof (frame_get_nonneg MinOne b);
  pose proof (frame_get_nonneg MinTen b);
  pose proof (frame_get_nonneg HourOne b);
  pose proof (frame_get_nonneg HourTen b);
  pose proof (frame_get_nonneg DayOne b);
  pose proof (frame_get_nonneg DayTen b);
  pose proof (frame_get_nonneg DayHun b);
  pose proof (frame_get_nonneg YearOne b);
  pose proof (frame_get_nonneg YearTen b);
  pose proof (leap_flag_range b).

Ltac small_mods :=
  repeat match goal with
    | H : context [?a mod ?m] |- _ => rewrite (Z.mod_small a m) in H by lia
    end.

(** One carry: split on whether it fires, express the fields of the result
    by those of the word the increment started from, drop the cases the
    hypotheses exclude. *)
Ltac carry fn lem :=
  match goal with
  | |- context [fn Clock.wwvbBuffer ?b] =>
      let H := fresh "H" in
      destruct (lem b) as [H|H];
      repeat match type of H with
        | _ /\ _ => let c := fresh "c" in destruct H as [c H]
        end;
      at_fields H; cbv beta iota in *;
      repeat match goal with
        | E : frame_get _ b = _ |- _ => rewrite ?E in *; clear E
        end;
      small_mods;
      try (exfalso; lia);
      generalize dependent (fn Clock.wwvbBuffer b); intros
  end.

Ltac carries :=
  unfold increment_minute;
  carry carry_MinOne carry_MinOne_cases;
  carry carry_MinTen carry_MinTen_cases;
  carry carry_HourOne carry_HourOne_cases;
  carry carry_Hour24 carry_Hour24_cases;
  carry carry_DayOne carry_DayOne_cases;
  carry carry_DayTen carry_DayTen_cases;
  carry carry_NewYear carry_NewYear_cases;
  carry carry_YearOne carry_YearOne_cases;
  carry carry_YearTen carry_YearTen_cases.

Lemma increment_minute_valid b :
  valid_frame b = true ->
  valid_frame (increment_minute Clock.wwvbBuffer b) = true.
Proof.
  rewrite !valid_frame_spec. unfold hour_of, day_of_year.
  intros Hv. nonneg_fields b. carries; lia.
Qed.

(** The fields the increment never writes keep their value. *)
Ltac untouched f lem :=
  let H := fresh "H" in
  let Hf := fresh "Hf" in
  intros Hf; destruct lem as [H|H];
  repeat match type of H with _ /\ _ => destruct H as [_ H] end;
  rewrite H; destruct f; try discriminate Hf; reflexivity.

Lemma increment_minute_frame f b :
  clock_field f = false ->
  frame_get f (increment_minute Clock.wwvbBuffer b) = frame_get f b.
Proof.
  intros Hf. unfold increment_minute.
  assert (E1 : forall x, frame_get f (carry_MinOne Clock.wwvbBuffer x)
                         = frame_get f x)
    by (intros x; revert Hf; untouched f (carry_MinOne_cases x)).
  assert (E2 : forall x, frame_get f (carry_MinTen Clock.wwvbBuffer x)
                         = frame_get f x)
    by (intros x; revert Hf; untouched f (carry_MinTen_cases x)).
  assert (E3 : forall x, frame_get f (carry_HourOne Clock.wwvbBuffer x)
                         = frame_get f x)
    by (intros x; revert Hf; untouched f (carry_HourOne_cases x)).
  assert (E4 : forall x, frame_get f (carry_Hour24 Clock.wwvbBuffer x)
                         = frame_get f x)
    by (intros x; revert Hf; untouched f (carry_Hour24_cases x)).
  assert (E5 : forall x, frame_get f (carry_DayOne Clock.wwvbBuffer x)
                         = frame_get f x)
    by (intros x; revert Hf; untouched f (carry_DayOne_cases x)).
  assert (E6 : forall x, frame_get f (carry_DayTen Clock.wwvbBuffer x)
                         = frame_get f x)
    by (intros x; revert Hf; untouched f (carry_DayTen_cases x)).
  assert (E7 : forall x, frame_get f (carry_NewYear Clock.wwvbBuffer x)
                         = frame_get f x)
    by (intros x; revert Hf; untouched f (carry_NewYear_cases x)).
  assert (E8 : forall x, frame_get f (carry_YearOne Clock.wwvbBuffer x)
                         = frame_get f x)
    by (intros x; revert Hf; untouched f (carry_YearOne_cases x)).
  assert (E9 : forall x, frame_get f (carry_YearTen Clock.wwvbBuffer x)
                         = frame_get f x)
    by (intros x; revert Hf; untouched f (carry_YearTen_cases x)).
  now rewrite E9, E8, E7, E6, E5, E4, E3, E2, E1.
Qed.

(** ** The decoder, pulse by pulse *)

Lemma int_wrap_small z : - 2 ^ 15 <= z < 2 ^ 15 -> int_wrap z = z.
Proof.
  unfold int_wrap. change (2 ^ 15) with 32768. change (2 ^ 16) with 65536.
  lia.
Qed.

Lemma wrap64_small z : 0 <= z < 2 ^ 64 -> wrap64 z = z.
Proof. unfold wrap64. apply Z.mod_small. Qed.

Lemma pulseWidth_timed t low s :
  Clock.pulseWidth (timed t low s) = wrap16 low.
Proof.
  unfold Clock.pulseWidth, timed, Clock.millis, wrap16, wrap32.
  cbn [Clock.pulseEndTime Clock.pulseStartTime Clock.set_bitReceived
       Clock.set_pulseEndTime Clock.set_pulseStartTime].
  change (2 ^ 32) with 4294967296. change (2 ^ 16) with 65536. lia.
Qed.

Lemma pulse_timed t low s :
  Clock.bitReceived s = false ->
  Clock.pulse t low s = Clock.processBit (timed t low s).
Proof.
  intros H. unfold Clock.pulse, Clock.loop, Clock.wwvbChange, timed.
  cbn. rewrite H. reflexivity.
Qed.


(** What [buffer] does with each of the four values it is called with. *)
Lemma buffer_placeholder bit s :
  bit = -1 \/ bit = -2 ->
  Clock.receiveBuffer (Clock.buffer bit s) = Clock.receiveBuffer s.
Proof.
  intros [->| ->]; unfold Clock.buffer; cbn;
    rewrite Z.shiftl_0_l; unfold wrap64; cbn; apply Z.lor_0_r.
Qed.

(** [decode_pulse] by the class of the pulse. *)
Lemma decode_pulse_classify s :
  Clock.decode_pulse s =
  match classify (Clock.pulseWidth s) with
  | Invalid =>
      Clock.set_wasMark false
        (Clock.set_bitError
           (int_wrap (Clock.bitError (Clock.buffer (-2) s) + 1))
           (Clock.buffer (-2) s))
  | Zero => Clock.set_wasMark false (Clock.buffer 0 s)
  | One => Clock.set_wasMark false (Clock.buffer 1 s)
  | Marker =>
      if Clock.wasMark s then
        Clock.reset_counters
          (if (Clock.framePosition s =? 6) && (Clock.bitPosition s =? 60)
              && (Clock.bitError s =? 0)
           then Clock.logFrameError false
                  (Clock.set_lastFrameBuffer (Clock.receiveBuffer s)
                     (Clock.set_frameEndTime (Clock.pulseStartTime s)
                        (Clock.set_lastBit "*"%char s)))
           else Clock.set_frameError true (Clock.set_lastBit "*"%char s))
      else Clock.set_wasMark true (Clock.buffer (-1) s)
  end.
Proof.
  unfold Clock.decode_pulse, classify. cbv zeta.
  destruct (Clock.pulseWidth s <? 100); [reflexivity|].
  destruct (Clock.pulseWidth s <? 400); [reflexivity|].
  destruct (Clock.pulseWidth s <? 700); [reflexivity|].
  destruct (Clock.pulseWidth s <? 900); reflexivity.
Qed.

Ltac state_simpl :=
  cbn [Clock.pulseStartTime Clock.pulseEndTime Clock.frameEndTime
       Clock.bitReceived Clock.wasMark Clock.framePosition Clock.bitPosition
       Clock.lastBit Clock.errors Clock.errIdx Clock.bitError
       Clock.frameError Clock.receiveBuffer Clock.lastFrameBuffer
       Clock.set_pulseStartTime Clock.set_pulseEndTime Clock.set_frameEndTime
       Clock.set_bitReceived Clock.set_wasMark Clock.set_framePosition
       Clock.set_bitPosition Clock.set_lastBit Clock.set_errors
       Clock.set_errIdx Clock.set_bitError Clock.set_frameError
       Clock.set_receiveBuffer Clock.set_lastFrameBuffer] in *.

(** The same on a state whose fields are all given; nothing is left over
    that a projection would have to go through. *)
Ltac state_cbv :=
  cbv beta iota delta
      [Clock.pulseStartTime Clock.pulseEndTime Clock.frameEndTime
       Clock.bitReceived Clock.wasMark Clock.framePosition Clock.bitPosition
       Clock.lastBit Clock.errors Clock.errIdx Clock.bitError
       Clock.frameError Clock.receiveBuffer Clock.lastFrameBuffer
       Clock.set_pulseStartTime Clock.set_pulseEndTime Clock.set_frameEndTime
       Clock.set_bitReceived Clock.set_wasMark Clock.set_framePosition
       Clock.set_bitPosition Clock.set_lastBit Clock.set_errors
       Clock.set_errIdx Clock.set_bitError Clock.set_frameError
       Clock.set_receiveBuffer Clock.set_lastFrameBuffer
       Clock.reset_counters].

Ltac int_small :=
  rewrite ?int_wrap_small by (change (2 ^ 15) with 32768; lia).

Lemma buffer_eq bit s :
  Clock.buffer bit s =
  Clock.set_bitPosition (int_wrap (Clock.bitPosition s + 1))
    (Clock.set_receiveBuffer
       (Z.lor (Clock.receiveBuffer s)
          (wrap64 (Z.shiftl (if bit <? 0 then 0 else bit)
                            (64 - Clock.bitPosition s))))
       (Clock.set_framePosition
          (if bit =? -1 then int_wrap (Clock.framePosition s + 1)
           else Clock.framePosition s)
          (Clock.set_lastBit
             (if bit =? 0 then "0"%char else if bit =? 1 then "1"%char
              else if bit =? -1 then "M"%char
              else if bit =? -2 then "X"%char
              else Clock.lastBit s) s))).
Proof.
  unfold Clock.buffer.
  destruct (bit =? 0) eqn:E0; [apply Z.eqb_eq in E0; subst; reflexivity|].
  destruct (bit =? 1) eqn:E1; [apply Z.eqb_eq in E1; subst; reflexivity|].
  destruct (bit =? -1) eqn:E2; [reflexivity|].
  destruct (bit =? -2) eqn:E3; [reflexivity|]. now destruct s.
Qed.

Lemma shiftl_bit_range b n :
  0 <= n < 64 -> 0 <= Z.shiftl (Z.b2z b) n < 2 ^ 64.
Proof.
  intros Hn. rewrite Z.shiftl_mul_pow2 by lia.
  assert (0 < 2 ^ n) by (apply Z.pow_pos_nonneg; lia).
  assert (2 ^ n <= 2 ^ 63) by (apply Z.pow_le_mono_r; lia).
  change (2 ^ 64) with (2 * 2 ^ 63). destruct b; cbn [Z.b2z]; lia.
Qed.

Lemma pulseWidth_set_bitReceived v s :
  Clock.pulseWidth (Clock.set_bitReceived v s) = Clock.pulseWidth s.
Proof. reflexivity. Qed.

(** [logFrameError] writes the slot [errIdx] points to and moves [errIdx]
    on, round the ten slots. *)
Lemma logFrameError_spec err s :
  0 <= Clock.errIdx s < 10 ->
  Clock.errors (Clock.logFrameError err s)
  = Clock.store (Clock.errIdx s) (slot err) (Clock.errors s)
  /\ Clock.errIdx (Clock.logFrameError err s) = (Clock.errIdx s + 1) mod 10.
Proof.
  intros H. unfold Clock.logFrameError. cbv zeta. state_simpl. int_small.
  destruct (Z.geb_spec (Clock.errIdx s + 1) 10); state_simpl;
    (split; [reflexivity | lia]).
Qed.

Lemma logFrameError_other err s :
  Clock.pulseStartTime (Clock.logFrameError err s) = Clock.pulseStartTime s
  /\ Clock.pulseEndTime (Clock.logFrameError err s) = Clock.pulseEndTime s
  /\ Clock.frameEndTime (Clock.logFrameError err s) = Clock.frameEndTime s
  /\ Clock.bitReceived (Clock.logFrameError err s) = Clock.bitReceived s
  /\ Clock.wasMark (Clock.logFrameError err s) = Clock.wasMark s
  /\ Clock.framePosition (Clock.logFrameError err s) = Clock.framePosition s
  /\ Clock.bitPosition (Clock.logFrameError err s) = Clock.bitPosition s
  /\ Clock.bitError (Clock.logFrameError err s) = Clock.bitError s
  /\ Clock.frameError (Clock.logFrameError err s) = Clock.frameError s
  /\ Clock.receiveBuffer (Clock.logFrameError err s) = Clock.receiveBuffer s
  /\ Clock.lastFrameBuffer (Clock.logFrameError err s)
     = Clock.lastFrameBuffer s.
Proof.
  unfold Clock.logFrameError. cbv zeta. state_simpl.
  destruct (int_wrap (Clock.errIdx s + 1) >=? 10); state_simpl;
    repeat apply conj; reflexivity.
Qed.

Lemma logFrameError_mk err pst pet fet br wm fp bp lb errs ei be fe rb lfb :
  0 <= ei < 10 ->
  Clock.logFrameError err
    (Clock.mkState pst pet fet br wm fp bp lb errs ei be fe rb lfb)
  = Clock.mkState pst pet fet br wm fp bp lb
      (Clock.store ei (slot err) errs) ((ei + 1) mod 10) be fe rb lfb.
Proof.
  intros H. unfold Clock.logFrameError. cbv zeta. state_cbv. int_small.
  destruct (Z.geb_spec (ei + 1) 10); state_cbv; f_equal; lia.
Qed.

Lemma store_nth_length n v a : length (Clock.store_nth n v a) = length a.
Proof.
  revert n; induction a as [|x a IH]; intros [|n]; cbn; auto.
Qed.

Lemma store_length i v a : length (Clock.store i v a) = length a.
Proof.
  unfold Clock.store. destruct (0 <=? i); auto using store_nth_length.
Qed.

(** A pulse that is not a frame boundary, with room left in the frame. *)
Lemma processBit_buffers s :
  sane s -> boundary s = false -> Clock.bitPosition s < 60 ->
  let c := classify (Clock.pulseWidth s) in
  let s' := Clock.processBit s in
  Clock.bitPosition s' = Clock.bitPosition s + 1 /\
  Clock.framePosition s' = Clock.framePosition s + Z.b2z (is_marker c) /\
  Clock.bitError s' = Clock.bitError s + Z.b2z (is_invalid c) /\
  Clock.wasMark s' = is_marker c /\
  Clock.receiveBuffer s' =
    Z.lor (Clock.receiveBuffer s)
          (Z.shiftl (Z.b2z (is_one c)) (64 - Clock.bitPosition s)) /\
  Clock.frameError s' = false /\ Clock.bitReceived s' = false /\
  Clock.errors s' = Clock.errors s /\ Clock.errIdx s' = Clock.errIdx s /\
  Clock.lastFrameBuffer s' = Clock.lastFrameBuffer s /\
  Clock.frameEndTime s' = Clock.frameEndTime s /\
  Clock.pulseStartTime s' = Clock.pulseStartTime s /\
  Clock.pulseEndTime s' = Clock.pulseEndTime s.
Proof.
  unfold sane, boundary.
  destruct s as [pst pet fet br wm fp bp lb errs ei be fe rb lfb].
  state_cbv.
  intros (Hfe & Hbp & Hfp & Hbe & Hei & Hlen) Hnb Hlt. subst fe.
  unfold Clock.processBit. cbv zeta.
  rewrite decode_pulse_classify, pulseWidth_set_bitReceived.
  assert (Hgt : (bp + 1 >? 60) = false)
    by (rewrite Z.gtb_ltb; apply Z.ltb_ge; lia).
  match goal with
  | |- context [classify ?w] => destruct (classify w) eqn:Ec
  end;
    rewrite ?Ec in Hnb; cbn [is_marker is_invalid is_one Z.b2z] in *;
    [ rewrite Bool.andb_true_r in Hnb; subst wm | | | ].
  all: rewrite ?buffer_eq; state_cbv.
  all: unfold Clock.check_frame; state_cbv.
  all: int_small.
  all: rewrite Hgt; cbn [orb]; state_cbv.
  all: change (0 <? 0) with false; change (1 <? 0) with false;
    change (-1 <? 0) with true; change (-2 <? 0) with true;
    change (-1 =? -1) with true; change (0 =? -1) with false;
    change (1 =? -1) with false; change (-2 =? -1) with false;
    cbv iota.
  all: rewrite ?Z.shiftl_0_l.
  all: try rewrite (wrap64_small (Z.shiftl 1 _))
         by (apply (shiftl_bit_range true); lia).
  all: change (wrap64 0) with 0.
  all: rewrite ?Z.add_0_r.
  all: repeat apply conj; auto.
Qed.

(** A pulse that is not a frame boundary and finds the frame full. *)
Lemma processBit_overflow s :
  sane s -> boundary s = false -> Clock.bitPosition s = 60 ->
  let s' := Clock.processBit s in
  Clock.bitPosition s' = 1 /\ Clock.framePosition s' = 0 /\
  Clock.bitError s' = 0 /\ Clock.wasMark s' = false /\
  Clock.receiveBuffer s' = 0 /\
  Clock.frameError s' = false /\ Clock.bitReceived s' = false /\
  Clock.errors s' = Clock.store (Clock.errIdx s) 1 (Clock.errors s) /\
  Clock.errIdx s' = (Clock.errIdx s + 1) mod 10 /\
  Clock.lastFrameBuffer s' = Clock.lastFrameBuffer s /\
  Clock.frameEndTime s' = Clock.frameEndTime s /\
  Clock.pulseStartTime s' = Clock.pulseStartTime s /\
  Clock.pulseEndTime s' = Clock.pulseEndTime s.
Proof.
  unfold sane, boundary.
  destruct s as [pst pet fet br wm fp bp lb errs ei be fe rb lfb].
  state_cbv.
  intros (Hfe & Hbp & Hfp & Hbe & Hei & Hlen) Hnb Hlt. subst fe bp.
  unfold Clock.processBit. cbv zeta.
  rewrite decode_pulse_classify, pulseWidth_set_bitReceived.
  match goal with
  | |- context [classify ?w] => destruct (classify w) eqn:Ec
  end;
    rewrite ?Ec in Hnb; cbn [is_marker is_invalid is_one Z.b2z] in *;
    [ rewrite Bool.andb_true_r in Hnb; subst wm | | | ].
  all: rewrite ?buffer_eq; state_cbv.
  all: unfold Clock.check_frame; state_cbv.
  all: int_small.
  all: change (60 + 1 >? 60) with true; cbn [orb].
  all: rewrite logFrameError_mk by exact Hei.
  all: state_cbv.
  all: repeat apply conj; auto.
Qed.

(** A frame boundary. *)
Lemma processBit_boundary s :
  sane s -> boundary s = true ->
  let ok := frame_accepted s in
  let s' := Clock.processBit s in
  Clock.bitPosition s' = 1 /\ Clock.framePosition s' = 0 /\
  Clock.bitError s' = 0 /\ Clock.wasMark s' = false /\
  Clock.receiveBuffer s' = 0 /\
  Clock.frameError s' = false /\ Clock.bitReceived s' = false /\
  Clock.errors s'
    = Clock.store (Clock.errIdx s) (slot (negb ok)) (Clock.errors s) /\
  Clock.errIdx s' = (Clock.errIdx s + 1) mod 10 /\
  Clock.lastFrameBuffer s'
    = (if ok then Clock.receiveBuffer s else Clock.lastFrameBuffer s) /\
  Clock.frameEndTime s'
    = (if ok then Clock.pulseStartTime s else Clock.frameEndTime s) /\
  Clock.pulseStartTime s' = Clock.pulseStartTime s /\
  Clock.pulseEndTime s' = Clock.pulseEndTime s.
Proof.
  unfold sane, boundary, frame_accepted.
  destruct s as [pst pet fet br wm fp bp lb errs ei be fe rb lfb].
  state_cbv.
  intros (Hfe & Hbp & Hfp & Hbe & Hei & Hlen) Hb. subst fe.
  apply andb_prop in Hb. destruct Hb as [Hw Hm]. subst wm.
  unfold Clock.processBit. cbv zeta.
  rewrite decode_pulse_classify, pulseWidth_set_bitReceived.
  match goal with
  | |- context [classify ?w] => destruct (classify w) eqn:Ec
  end; rewrite ?Ec in Hm; try discriminate Hm.
  state_cbv.
  destruct ((fp =? 6) && (bp =? 60) && (be =? 0)).
  all: cbn [negb slot].
  all: rewrite ?logFrameError_mk by exact Hei.
  all: unfold Clock.check_frame; state_cbv.
  all: cbn [orb]; change (1 >? 60) with false; cbv iota.
  all: rewrite ?logFrameError_mk by exact Hei.
  all: state_cbv.
  all: repeat apply conj; auto.
Qed.

(** ** What holds between pulses *)

Lemma timed_fields t low s :
  Clock.pulseStartTime (timed t low s) = Clock.millis t /\
  Clock.pulseEndTime (timed t low s) = Clock.millis (t + low) /\
  Clock.frameEndTime (timed t low s) = Clock.frameEndTime s /\
  Clock.wasMark (timed t low s) = Clock.wasMark s /\
  Clock.framePosition (timed t low s) = Clock.framePosition s /\
  Clock.bitPosition (timed t low s) = Clock.bitPosition s /\
  Clock.errors (timed t low s) = Clock.errors s /\
  Clock.errIdx (timed t low s) = Clock.errIdx s /\
  Clock.bitError (timed t low s) = Clock.bitError s /\
  Clock.frameError (timed t low s) = Clock.frameError s /\
  Clock.receiveBuffer (timed t low s) = Clock.receiveBuffer s /\
  Clock.lastFrameBuffer (timed t low s) = Clock.lastFrameBuffer s.
Proof. destruct s. repeat apply conj; reflexivity. Qed.

Lemma sane_timed t low s : sane s -> sane (timed t low s).
Proof.
  destruct (timed_fields t low s)
    as (_ & _ & _ & _ & E1 & E2 & E3 & E4 & E5 & E6 & _ & _).
  unfold sane. now rewrite E1, E2, E3, E4, E5, E6.
Qed.

Lemma init_idle : idle Clock.init.
Proof. unfold idle, sane. cbn. repeat apply conj; lia. Qed.

Lemma processBit_sane s :
  sane s ->
  sane (Clock.processBit s) /\ Clock.bitReceived (Clock.processBit s) = false.
Proof.
  intros Hs. pose proof Hs as (Hfe & Hbp & Hfp & Hbe & Hei & Hlen).
  destruct (boundary s) eqn:Hb.
  - destruct (processBit_boundary s Hs Hb)
      as (E1 & E2 & E3 & E4 & E5 & E6 & E7 & E8 & E9 & _).
    unfold sane. rewrite E1, E2, E3, E6, E8, E9, store_length.
    repeat apply conj; try lia; assumption.
  - destruct (Z.eq_dec (Clock.bitPosition s) 60) as [H60|H60].
    + destruct (processBit_overflow s Hs Hb H60)
        as (E1 & E2 & E3 & E4 & E5 & E6 & E7 & E8 & E9 & _).
      unfold sane. rewrite E1, E2, E3, E6, E8, E9, store_length.
      repeat apply conj; try lia; assumption.
    + assert (Hlt : Clock.bitPosition s < 60) by lia.
      destruct (processBit_buffers s Hs Hb Hlt)
        as (E1 & E2 & E3 & E4 & E5 & E6 & E7 & E8 & E9 & _).
      unfold sane. rewrite E1, E2, E3, E6, E8, E9.
      destruct (is_marker _), (is_invalid _); cbn [Z.b2z];
        repeat apply conj; try lia; assumption.
Qed.

Lemma pulse_idle t low s : idle s -> idle (Clock.pulse t low s).
Proof.
  intros [Hbr Hs]. rewrite pulse_timed by assumption.
  destruct (processBit_sane (timed t low s) (sane_timed t low s Hs)).
  now split.
Qed.

Lemma pulses_nil t s : Clock.pulses t [] s = s.
Proof. reflexivity. Qed.

Lemma pulses_cons t low high ps s :
  Clock.pulses t ((low, high) :: ps) s
  = Clock.pulses (t + low + high) ps (Clock.pulse t low s).
Proof. unfold Clock.pulses. reflexivity. Qed.

Lemma pulses_app ps qs : forall t s,
  Clock.pulses t (ps ++ qs) s
  = Clock.pulses (t + fold_right (fun p n => fst p + snd p + n) 0 ps) qs
      (Clock.pulses t ps s).
Proof.
  induction ps as [|[low high] ps IH]; intros t s.
  - cbn [app fold_right]. now rewrite pulses_nil, Z.add_0_r.
  - rewrite <- app_comm_cons, !pulses_cons, IH. cbn [fold_right fst snd].
    f_equal. lia.
Qed.

Lemma pulses_idle ps : forall t s, idle s -> idle (Clock.pulses t ps s).
Proof.
  induction ps as [|[low high] ps IH]; intros t s Hs.
  - assumption.
  - rewrite pulses_cons. apply IH, pulse_idle, Hs.
Qed.

Lemma load_store i v a :
  0 <= i -> (Z.to_nat i < length a)%nat ->
  Clock.load i (Clock.store i v a) = v.
Proof.
  intros Hi Hlen. unfold Clock.load, Clock.store.
  destruct (Z.leb_spec 0 i); [|lia].
  generalize dependent (Z.to_nat i). clear.
  induction a as [|x a IH]; intros n Hn; cbn in Hn; [lia|].
  destruct n as [|n]; cbn; [reflexivity|]. apply IH. lia.
Qed.

(** ** The frame the simulator sends, as the decoder takes it in *)

Lemma testbit_b2z b m : 0 <= m -> Z.testbit (Z.b2z b) m = b && (m =? 0).
Proof.
  intros Hm. destruct (Z.eqb_spec m 0) as [->|Hne].
  - rewrite Z.b2z_bit0. now rewrite Bool.andb_true_r.
  - rewrite Bool.andb_false_r. destruct b; cbn [Z.b2z].
    + change 1 with (2 ^ 0). rewrite Z.pow2_bits_false by lia. reflexivity.
    + apply Z.bits_0.
Qed.

(** Taking in the bit at [position]: the window of [e] held so far grows by
    one bit at its low end. *)
Lemma take_in_bit e position :
  1 <= position <= 59 ->
  Z.lor (Z.shiftl (Z.shiftr e (64 - position)) (65 - position))
        (Z.shiftl (Z.b2z (Z.testbit e (63 - position))) (64 - position))
  = Z.shiftl (Z.shiftr e (64 - (position + 1))) (65 - (position + 1)).
Proof.
  intros Hp. apply Z.bits_inj'; intros k Hk.
  rewrite Z.lor_spec, !Z.shiftl_spec by lia.
  destruct (Z.lt_trichotomy k (64 - position)) as [Hlt|[Heq|Hgt]].
  - rewrite !Z.testbit_neg_r by lia. reflexivity.
  - rewrite (Z.testbit_neg_r _ (k - (65 - position))) by lia.
    rewrite testbit_b2z, Z.shiftr_spec by lia.
    replace (k - (64 - position) =? 0) with true by (symmetry; apply Z.eqb_eq; lia).
    rewrite Bool.andb_true_r. cbn [orb]. f_equal. lia.
  - rewrite testbit_b2z, !Z.shiftr_spec by lia.
    replace (k - (64 - position) =? 0) with false by (symmetry; apply Z.eqb_neq; lia).
    rewrite Bool.andb_false_r, Bool.orb_false_r. f_equal. lia.
Qed.

(** The test the simulator makes of bit [i] of its word. *)
Lemma mask_test e i :
  0 <= i < 64 ->
  (Z.land e (wrap64 (Z.shiftl 1 i)) =? 0) = negb (Z.testbit e i).
Proof.
  intros Hi. rewrite wrap64_small by (apply (shiftl_bit_range true); lia).
  rewrite Z.shiftl_1_l.
  destruct (Z.testbit e i) eqn:Eb; cbn [negb].
  - apply Z.eqb_neq. intros H0.
    assert (Hb : Z.testbit (Z.land e (2 ^ i)) i = false)
      by (rewrite H0; apply Z.bits_0).
    rewrite Z.land_spec, Eb, Z.pow2_bits_true in Hb by lia. discriminate.
  - apply Z.eqb_eq. apply Z.bits_inj'; intros k Hk.
    rewrite Z.land_spec, Z.bits_0, Z.pow2_bits_eqb by lia.
    destruct (Z.eqb_spec i k) as [->|]; [now rewrite Eb|].
    apply Bool.andb_false_r.
Qed.

Lemma send_bits_S n i position e :
  Simulator.send_bits (S n) i position e =
  if i >=? 4 then
    (if negb ((if (position =? 0) || ((position + 1) mod 10 =? 0)
               then 1 else 0) =? 0)
     then Simulator.sendMark
     else if (if Z.land e (wrap64 (Z.shiftl 1 i)) =? 0 then 0 else 1) =? 0
          then Simulator.sendUnweighted
          else Simulator.sendWeighted)
    :: Simulator.send_bits n (i - 1) (position + 1) e
  else [].
Proof. reflexivity. Qed.

(** The pulse the simulator sends at [position], seen from the decoder. *)
Lemma sent_symbol e position :
  1 <= position <= 59 ->
  exists low high,
    (if negb ((if (position =? 0) || ((position + 1) mod 10 =? 0)
               then 1 else 0) =? 0)
     then Simulator.sendMark
     else if (if Z.land e (wrap64 (Z.shiftl 1 (63 - position))) =? 0
              then 0 else 1) =? 0
          then Simulator.sendUnweighted
          else Simulator.sendWeighted) = (low, high)
    /\ low + high = 1000
    /\ wrap16 low = low
    /\ is_marker (classify low) = ((position + 1) mod 10 =? 0)
    /\ is_invalid (classify low) = false
    /\ is_one (classify low)
       = negb ((position + 1) mod 10 =? 0) && Z.testbit e (63 - position).
Proof.
  intros Hp.
  replace (position =? 0) with false by (symmetry; apply Z.eqb_neq; lia).
  cbn [orb]. rewrite mask_test by lia.
  destruct ((position + 1) mod 10 =? 0).
  - exists 800, 200. repeat apply conj; reflexivity.
  - destruct (Z.testbit e (63 - position)).
    + exists 500, 500. repeat apply conj; reflexivity.
    + exists 200, 800. repeat apply conj; reflexivity.
Qed.

(** The fifty-nine symbols after the opening marker take the decoder from
    position 1 to position 60; the rest of the train goes on from there. *)
Lemma frame_body e : quiet e ->
  forall n position s t,
    1 <= position -> position + Z.of_nat n = 60 -> synced e position s ->
    exists s',
      (forall rest,
         Clock.pulses t
           (Simulator.send_bits n (63 - position) position e ++ rest) s
         = Clock.pulses (t + 1000 * Z.of_nat n) rest s')
      /\ synced e 60 s'
      /\ Clock.lastFrameBuffer s' = Clock.lastFrameBuffer s
      /\ Clock.frameEndTime s' = Clock.frameEndTime s
      /\ Clock.errors s' = Clock.errors s
      /\ Clock.errIdx s' = Clock.errIdx s.
Proof.
  intros Hq. induction n as [|n IH]; intros position s t Hp Hn Hs.
  - exists s. cbn [Simulator.send_bits app].
    replace (t + 1000 * Z.of_nat 0) with t by lia.
    replace position with 60 in Hs by lia. auto 10.
  - rewrite send_bits_S.
    replace (63 - position >=? 4) with true
      by (symmetry; rewrite Z.geb_leb; apply Z.leb_le; lia).
    destruct (sent_symbol e position)
      as (low & high & -> & Hlh & Hw & Hm & Hi & Ho); [lia|].
    destruct Hs as ((Hbr & Hsane) & Hbp & Hfp & Hwm & Hbe & Hrb).
    pose proof (pulse_timed t low s Hbr) as Hpulse.
    pose proof (sane_timed t low s Hsane) as Hst.
    destruct (timed_fields t low s)
      as (_ & _ & T3 & T4 & T5 & T6 & T7 & T8 & T9 & T10 & T11 & T12).
    assert (Hnb : boundary (timed t low s) = false).
    { unfold boundary. rewrite T4, pulseWidth_timed, Hw, Hm, Hwm.
      destruct (Z.eqb_spec (position mod 10) 0),
               (Z.eqb_spec ((position + 1) mod 10) 0); try reflexivity. lia. }
    destruct (processBit_buffers (timed t low s) Hst Hnb)
      as (E1 & E2 & E3 & E4 & E5 & E6 & E7 & E8 & E9 & E10 & E11 & _);
      [rewrite T6; lia|].
    destruct (processBit_sane (timed t low s) Hst) as [Hs1 Hbr1].
    rewrite pulseWidth_timed, Hw in *.
    generalize dependent (Clock.processBit (timed t low s)). intros s1.
    intros.
    replace (63 - position - 1) with (63 - (position + 1)) by lia.
    assert (Hsync : synced e (position + 1) s1).
    { unfold synced, idle. split; [split; assumption|].
      repeat apply conj.
      - rewrite E1, T6. lia.
      - rewrite E2, T5, Hm, Hfp.
        destruct (Z.eqb_spec ((position + 1) mod 10) 0); cbn [Z.b2z]; lia.
      - rewrite E4. exact Hm.
      - rewrite E3, T9, Hi. cbn [Z.b2z]. lia.
      - rewrite E5, T11, T6, Hrb, Hbp, Ho.
        rewrite <- take_in_bit by lia. f_equal. f_equal.
        destruct (Z.eqb_spec ((position + 1) mod 10) 0) as [Hmk|Hmk];
          cbn [negb andb]; [|reflexivity].
        rewrite Hq; [reflexivity|lia|].
        right; right. replace (64 - (63 - position)) with (position + 1)
          by lia. exact Hmk. }
    destruct (IH (position + 1) s1 (t + low + high))
      as (s' & I0 & I1 & I2 & I3 & I4 & I5); [lia|lia|exact Hsync|].
    exists s'. split; [|split; [exact I1|]].
    + intros rest. rewrite <- app_comm_cons, pulses_cons, Hpulse, I0.
      f_equal. lia.
    + repeat apply conj.
      * rewrite I2, E10, T12. reflexivity.
      * rewrite I3, E11, T3. reflexivity.
      * rewrite I4, E8, T7. reflexivity.
      * rewrite I5, E9, T8. reflexivity.
Qed.

(** An opening marker right after a marker: whatever was being received is
    closed, and the decoder stands at position 1 of the new frame. *)
Lemma frame_opening e s t :
  quiet e -> idle s -> Clock.wasMark s = true ->
  let s1 := Clock.pulse t 800 s in
  synced e 1 s1 /\ Clock.errIdx s1 = (Clock.errIdx s + 1) mod 10.
Proof.
  intros Hq [Hbr Hs] Hw. cbv zeta. rewrite pulse_timed by assumption.
  pose proof (sane_timed t 800 s Hs) as Hst.
  destruct (timed_fields t 800 s)
    as (_ & _ & T3 & T4 & T5 & T6 & T7 & T8 & T9 & T10 & T11 & T12).
  assert (Hb : boundary (timed t 800 s) = true).
  { unfold boundary. rewrite T4, pulseWidth_timed, Hw. reflexivity. }
  destruct (processBit_boundary (timed t 800 s) Hst Hb)
    as (E1 & E2 & E3 & E4 & E5 & E6 & E7 & E8 & E9 & _).
  destruct (processBit_sane (timed t 800 s) Hst) as [Hs1 Hbr1].
  split; [|now rewrite E9, T8].
  unfold synced, idle. split; [split; assumption|].
  repeat apply conj; try assumption.
  change (64 - 1) with 63. change (65 - 1) with 64. rewrite E5.
  replace (Z.shiftr e 63) with 0; [reflexivity|].
  apply Z.bits_inj'; intros k Hk.
  rewrite Z.bits_0, Z.shiftr_spec by lia. symmetry. apply Hq; lia.
Qed.

(** The next frame's opening marker finds the frame complete and takes it;
    one more marker changes nothing of what the decoder holds (the refresh
    of the display apart: see [marker_after_refresh]). *)
Lemma frame_closing e s t :
  synced e 60 s ->
  let s1 := Clock.pulses t [Simulator.sendMark] s in
  let s2 := Clock.pulses t [Simulator.sendMark; Simulator.sendMark] s in
  (Clock.lastFrameBuffer s1 = Z.shiftl (Z.shiftr e 4) 5
   /\ Clock.frameEndTime s1 = Clock.millis t
   /\ Clock.load (Clock.errIdx s) (Clock.errors s1) = 0)
  /\ (Clock.lastFrameBuffer s2 = Z.shiftl (Z.shiftr e 4) 5
      /\ Clock.frameEndTime s2 = Clock.millis t
      /\ Clock.load (Clock.errIdx s) (Clock.errors s2) = 0).
Proof.
  intros ((Hbr & Hs) & Hbp & Hfp & Hwm & Hbe & Hrb). cbv zeta.
  unfold Simulator.sendMark. rewrite !pulses_cons, !pulses_nil.
  rewrite (pulse_timed t 800 s) by assumption.
  pose proof (sane_timed t 800 s Hs) as Hst.
  destruct (timed_fields t 800 s)
    as (T1 & _ & T3 & T4 & T5 & T6 & T7 & T8 & T9 & T10 & T11 & T12).
  assert (Hb : boundary (timed t 800 s) = true).
  { unfold boundary. rewrite T4, pulseWidth_timed, Hwm. reflexivity. }
  assert (Hok : frame_accepted (timed t 800 s) = true).
  { unfold frame_accepted. rewrite T5, T6, T9, Hfp, Hbp, Hbe. reflexivity. }
  destruct (processBit_boundary (timed t 800 s) Hst Hb)
    as (E1 & E2 & E3 & E4 & E5 & E6 & E7 & E8 & E9 & E10 & E11 & _).
  destruct (processBit_sane (timed t 800 s) Hst) as [Hs1 Hbr1].
  rewrite Hok in *. cbn [negb slot] in E8.
  generalize dependent (Clock.processBit (timed t 800 s)). intros s1.
  intros.
  assert (Hload : Clock.load (Clock.errIdx s)
                    (Clock.store (Clock.errIdx s) 0 (Clock.errors s)) = 0).
  { destruct Hs as (_ & _ & _ & _ & Hei & Hlen). apply load_store; lia. }
  split.
  - rewrite E10, T11, Hrb, E11, T1, E8, T8, T7. auto.
  - rewrite pulse_timed by assumption.
    pose proof (sane_timed (t + 800 + 200) 800 s1 Hs1) as Hst1.
    destruct (timed_fields (t + 800 + 200) 800 s1)
      as (_ & _ & U3 & U4 & U5 & U6 & U7 & U8 & U9 & U10 & U11 & U12).
    assert (Hnb : boundary (timed (t + 800 + 200) 800 s1) = false).
    { unfold boundary. now rewrite U4, E4. }
    destruct (processBit_buffers (timed (t + 800 + 200) 800 s1) Hst1 Hnb)
      as (F1 & F2 & F3 & F4 & F5 & F6 & F7 & F8 & F9 & F10 & F11 & _);
      [rewrite U6, E1; lia|].
    rewrite F10, U12, E10, T11, Hrb, F11, U3, E11, T1, F8, U7, E8, T8, T7.
    auto.
Qed.

(** ** The word the simulator is preset with *)

Lemma get_zero L f : get L f 0 = 0.
Proof.
  unfold get, get_bits. now rewrite Z.shiftr_0_l, Z.land_0_l.
Qed.

Lemma window_clear off w e k :
  get_bits (off, w) e = 0 -> 0 <= off -> off <= k < off + w ->
  Z.testbit e k = false.
Proof.
  intros H0 Ho Hk.
  assert (Hb : Z.testbit (get_bits (off, w) e) (k - off) = false)
    by (rewrite H0; apply Z.bits_0).
  rewrite get_bits_spec in Hb by lia.
  replace (k - off + off) with k in Hb by lia.
  replace (k - off <? w) with true in Hb
    by (symmetry; apply Z.ltb_lt; lia).
  now rewrite Bool.andb_true_r in Hb.
Qed.

Lemma field_clear L f e k :
  layout_ok L = true -> get L f e = 0 ->
  fst (locate L f 0) <= k < fst (locate L f 0) + snd (locate L f 0) ->
  Z.testbit e k = false.
Proof.
  intros HL H0 Hk. destruct (locate_ok L HL f) as [Ho Hw].
  unfold get in H0. destruct (locate L f 0) as [off w]. cbn [fst snd] in *.
  now apply (window_clear off w).
Qed.

Ltac located :=
  repeat match goal with
    | |- context [locate ?L ?f 0] =>
        let q := eval vm_compute in (locate L f 0) in
        change (locate L f 0) with q
    end;
  cbn [fst snd].

Lemma assign_above L f v x k :
  layout_ok L = true ->
  fst (locate L f 0) + snd (locate L f 0) <= k ->
  Z.testbit (assign L f v x) k = Z.testbit x k.
Proof.
  intros HL Hk. destruct (locate_ok L HL f) as [Ho Hw].
  unfold assign. destruct (locate L f 0) as [off w]. cbn [fst snd] in *.
  rewrite set_bits_spec by lia.
  replace (k <? off + w) with false by (symmetry; apply Z.ltb_ge; lia).
  now rewrite Bool.andb_false_r.
Qed.

(** Reading a field of the simulator's struct through its assignments. *)
Ltac preset_simpl :=
  repeat first
    [ rewrite (get_assign_same _ simulator_layout_ok)
    | rewrite (get_assign_other _ simulator_layout_ok) by discriminate
    | rewrite get_zero ];
  repeat match goal with
    | |- context [2 ^ width Simulator.wwvbBuffer ?f] =>
        let w := eval vm_compute in (2 ^ width Simulator.wwvbBuffer f) in
        change (2 ^ width Simulator.wwvbBuffer f) with w
    end.

Lemma preset_fields T :
  in_range T ->
  let e := Simulator.preset T in
  let S := Simulator.wwvbBuffer in
  get S MinTen e = Simulator.minuteTens T /\
  get S MinOne e = Simulator.minuteOnes T /\
  get S HourTen e = Simulator.hourTens T /\
  get S HourOne e = Simulator.hourOnes T /\
  get S DayHun e = Simulator.dayHundreds T /\
  get S DayTen e = Simulator.dayTens T /\
  get S DayOne e = Simulator.dayOnes T /\
  get S OffSign e = Simulator.ut1Sign T /\
  get S OffVal e = Simulator.ut1Magnitude T /\
  get S YearTen e = Simulator.yearTens T /\
  get S YearOne e = Simulator.yearOnes T /\
  get S Dst e = Simulator.dstStatus T /\
  get S Leapyear e = Simulator.leapYear T /\
  get S Leapsec e = Simulator.leapSecondPending T.
Proof.
  unfold in_range. intros H. cbv zeta. unfold Simulator.preset. cbv zeta.
  repeat apply conj; preset_simpl; apply Z.mod_small; lia.
Qed.

Lemma preset_quiet T : quiet (Simulator.preset T).
Proof.
  set (e := Simulator.preset T).
  assert (Hhigh : forall k, 64 <= k -> Z.testbit e k = false).
  { intros k Hk. subst e. unfold Simulator.preset. cbv zeta.
    rewrite !(assign_above _ _ _ _ _ simulator_layout_ok)
      by (located; lia).
    apply Z.bits_0. }
  assert (Hclear : forall f, In f [U12; Frame; U10; U08; U06; U04; U02; U00] ->
                   get Simulator.wwvbBuffer f e = 0).
  { intros f Hf. subst e. unfold Simulator.preset. cbv zeta.
    cbn [In] in Hf.
    repeat (destruct Hf as [<-|Hf]; [preset_simpl; reflexivity|]).
    destruct Hf. }
  assert (Hf : forall f k,
            In f [U12; Frame; U10; U08; U06; U04; U02; U00] ->
            fst (locate Simulator.wwvbBuffer f 0) <= k
              < fst (locate Simulator.wwvbBuffer f 0)
                + snd (locate Simulator.wwvbBuffer f 0) ->
            Z.testbit e k = false)
    by (intros f k Hf; apply field_clear;
        [apply simulator_layout_ok | now apply Hclear]).
  clear Hclear. clearbody e. intros k Hk Hcase.
  destruct (Z_lt_le_dec k 4) as [H4|H4];
    [apply (Hf U12); [cbn; tauto | located; lia]|].
  destruct (Z_lt_le_dec k 64) as [H64|H64]; [|now apply Hhigh].
  destruct (Z.eq_dec k 63) as [H63|H63];
    [apply (Hf U00); [cbn; tauto | located; lia]|].
  assert (Hm : (64 - k) mod 10 = 0) by lia. clear Hcase.
  pose proof (Z.div_mod (64 - k) 10 ltac:(lia)) as Hq.
  rewrite Hm, Z.add_0_r in Hq.
  set (q := (64 - k) / 10) in Hq.
  assert (Hk' : k = 64 - 10 * q) by lia. clear Hq Hm. clearbody q.
  assert (Hqs : q = 1 \/ q = 2 \/ q = 3 \/ q = 4 \/ q = 5 \/ q = 6) by lia.
  destruct Hqs as [->|[->|[->|[->|[->| ->]]]]]; subst k.
  - apply (Hf U02); [cbn; tauto | located; lia].
  - apply (Hf U04); [cbn; tauto | located; lia].
  - apply (Hf U06); [cbn; tauto | located; lia].
  - apply (Hf U08); [cbn; tauto | located; lia].
  - apply (Hf U10); [cbn; tauto | located; lia].
  - apply (Hf Frame); [cbn; tauto | located; lia].
Qed.

(** What the decoder holds after a frame lies one bit above what the
    simulator sent, and the struct of the clock lies one bit above the
    struct of the simulator: field for field they read the same. *)
Lemma get_bits_up off w e :
  4 <= off -> 0 <= w ->
  get_bits (off + 1, w) (Z.shiftl (Z.shiftr e 4) 5) = get_bits (off, w) e.
Proof.
  intros Ho Hw. apply Z.bits_inj'; intros k Hk.
  rewrite !get_bits_spec, Z.shiftl_spec, Z.shiftr_spec by lia.
  do 2 f_equal. lia.
Qed.

Lemma held_field f e :
  locate Clock.wwvbBuffer f 0
  = (fst (locate Simulator.wwvbBuffer f 0) + 1,
     snd (locate Simulator.wwvbBuffer f 0)) ->
  4 <= fst (locate Simulator.wwvbBuffer f 0) ->
  frame_get f (Z.shiftl (Z.shiftr e 4) 5) = get Simulator.wwvbBuffer f e.
Proof.
  intros Hl Ho. unfold frame_get, get. rewrite Hl.
  destruct (locate_ok _ simulator_layout_ok f) as [_ Hw].
  destruct (locate Simulator.wwvbBuffer f 0) as [off w]. cbn [fst snd] in *.
  now apply get_bits_up.
Qed.

Lemma decode_held e :
  let S := Simulator.wwvbBuffer in
  decode (Z.shiftl (Z.shiftr e 4) 5)
  = Simulator.mkTimeFrame
      (get S MinTen e) (get S MinOne e) (get S HourTen e) (get S HourOne e)
      (get S DayHun e) (get S DayTen e) (get S DayOne e)
      (get S OffSign e) (get S OffVal e) (get S YearTen e) (get S YearOne e)
      (get S Dst e) (get S Leapyear e) (get S Leapsec e).
Proof.
  cbv zeta. unfold decode.
  rewrite (held_field MinTen e), (held_field MinOne e),
    (held_field HourTen e), (held_field HourOne e), (held_field DayHun e),
    (held_field DayTen e), (held_field DayOne e), (held_field OffSign e),
    (held_field OffVal e), (held_field YearTen e), (held_field YearOne e),
    (held_field Dst e), (held_field Leapyear e), (held_field Leapsec e)
    by (located; (reflexivity || lia)).
  reflexivity.
Qed.

Lemma decode_preset T :
  in_range T ->
  decode (Z.shiftl (Z.shiftr (Simulator.preset T) 4) 5) = T.
Proof.
  intros HT. destruct (preset_fields T HT)
    as (E1 & E2 & E3 & E4 & E5 & E6 & E7 & E8 & E9 & E10 & E11 & E12
        & E13 & E14).
  cbv zeta in *. rewrite decode_held. cbv zeta.
  generalize dependent (Simulator.preset T). intros e.
  intros -> -> -> -> -> -> -> -> -> -> -> -> -> ->.
  now destruct T.
Qed.

(** A whole frame, taken in by a decoder whose last pulse was a marker:
    the decoder stands at position 60 of it. *)
Lemma frame_taken_in T s t :
  idle s -> Clock.wasMark s = true ->
  exists s60,
    synced (Simulator.preset T) 60 s60
    /\ Clock.errIdx s60 = (Clock.errIdx s + 1) mod 10
    /\ forall rest,
         Clock.pulses t (Simulator.frame (Simulator.preset T) ++ rest) s
         = Clock.pulses (t + 60000) rest s60.
Proof.
  intros Hs Hw. pose proof (preset_quiet T) as Hq.
  destruct (frame_opening _ s t Hq Hs Hw) as [Hs1 Hi1].
  destruct (frame_body _ Hq 59 1 (Clock.pulse t 800 s) (t + 800 + 200))
    as (s60 & E0 & Hs60 & _ & _ & _ & Hi2); [lia|lia|exact Hs1|].
  exists s60. split; [exact Hs60|]. split; [now rewrite Hi2|].
  intros rest. unfold Simulator.frame. rewrite send_bits_S.
  change (63 >=? 4) with true. change (0 =? 0) with true.
  cbn [orb negb]. change (1 =? 0) with false. cbn [negb]. cbv iota.
  unfold Simulator.sendMark at 1.
  rewrite <- app_comm_cons, pulses_cons. change (0 + 1) with 1.
  rewrite E0. f_equal. lia.
Qed.

Lemma frame_received T s t :
  in_range T -> idle s -> Clock.wasMark s = true ->
  let received rest :=
    Clock.pulses t (Simulator.frame (Simulator.preset T) ++ rest) s in
  let s1 := received [Simulator.sendMark] in
  let s2 := received [Simulator.sendMark; Simulator.sendMark] in
  (decode (Clock.lastFrameBuffer s1) = T
   /\ Clock.frameEndTime s1 = Clock.millis (t + 60000)
   /\ Clock.load ((Clock.errIdx s + 1) mod 10) (Clock.errors s1) = 0)
  /\ (decode (Clock.lastFrameBuffer s2) = T
      /\ Clock.frameEndTime s2 = Clock.millis (t + 60000)
      /\ Clock.load ((Clock.errIdx s + 1) mod 10) (Clock.errors s2) = 0).
Proof.
  intros HT Hs Hw. cbv zeta.
  destruct (frame_taken_in T s t Hs Hw) as (s60 & Hs60 & Hi & E).
  rewrite !E.
  destruct (frame_closing _ s60 (t + 60000) Hs60)
    as ((F1 & F2 & F3) & (G1 & G2 & G3)).
  rewrite F1, F2, G1, G2. rewrite Hi in F3, G3.
  rewrite (decode_preset T HT). auto 10.
Qed.

(** ** The window of frame outcomes *)

Lemma int_wrap_add_l a b : int_wrap (int_wrap a + b) = int_wrap (a + b).
Proof.
  unfold int_wrap. change (2 ^ 15) with 32768. change (2 ^ 16) with 65536.
  lia.
Qed.

Lemma failures_app a b : failures (a ++ b) = failures a + failures b.
Proof.
  unfold failures. induction a as [|x a IH]; cbn [app fold_right]; lia.
Qed.

Lemma failures_window s : failures (window s) = failures (Clock.errors s).
Proof.
  unfold window. rewrite failures_app, Z.add_comm, <- failures_app.
  now rewrite firstn_skipn.
Qed.

(** What the loop of [sumFrameErrors] adds up, on top of what [rv] held. *)
Lemma sumFrameErrors_spec rv0 s :
  length (Clock.errors s) = 10%nat ->
  Clock.sumFrameErrors rv0 s = int_wrap (rv0 + failures (Clock.errors s)).
Proof.
  unfold Clock.sumFrameErrors. destruct (Clock.errors s)
    as [|e0 [|e1 [|e2 [|e3 [|e4 [|e5 [|e6 [|e7 [|e8 [|e9 [|]]]]]]]]]]];
    try discriminate.
  intros _.
  change (Clock.sumFrameErrors_loop 10 0 rv0
            [e0; e1; e2; e3; e4; e5; e6; e7; e8; e9])
    with (int_wrap (int_wrap (int_wrap (int_wrap (int_wrap (int_wrap
           (int_wrap (int_wrap (int_wrap (int_wrap
             (rv0 + e0) + e1) + e2) + e3) + e4) + e5) + e6) + e7) + e8)
           + e9)).
  rewrite (int_wrap_add_l (rv0 + e0) e1), (int_wrap_add_l _ e2),
    (int_wrap_add_l _ e3), (int_wrap_add_l _ e4), (int_wrap_add_l _ e5),
    (int_wrap_add_l _ e6), (int_wrap_add_l _ e7), (int_wrap_add_l _ e8),
    (int_wrap_add_l _ e9).
  unfold failures. cbn [fold_right]. apply (f_equal int_wrap). lia.
Qed.

Lemma skipn_snoc {A} (l : list A) x n :
  (n < length l)%nat ->
  skipn (S n) (l ++ [x]) = tl (skipn n l) ++ [x].
Proof.
  revert n. induction l as [|y l IH]; intros n Hn; cbn in Hn; [lia|].
  destruct n as [|n].
  - reflexivity.
  - cbn [app skipn]. destruct l as [|z l]; [cbn in Hn; lia|].
    rewrite <- IH by (cbn in *; lia). reflexivity.
Qed.

Lemma last10_snoc h x :
  (10 <= length h)%nat -> length (last10 h) = 10%nat ->
  last10 (h ++ [x]) = tl (last10 h) ++ [x].
Proof.
  intros Hh Hl. unfold last10 in *. rewrite length_app. cbn [length].
  replace (length h + 1 - 10)%nat with (S (length h - 10)) by lia.
  apply skipn_snoc. lia.
Qed.

Lemma last10_length h : (10 <= length h)%nat -> length (last10 h) = 10%nat.
Proof. intros H. unfold last10. rewrite length_skipn. lia. Qed.

(** Logging one outcome drops the oldest slot of the window and appends
    the new one. *)
Lemma window_logFrameError err s :
  0 <= Clock.errIdx s < 10 -> length (Clock.errors s) = 10%nat ->
  window (Clock.logFrameError err s) = tl (window s) ++ [slot err].
Proof.
  intros Hi Hl. destruct (logFrameError_spec err s Hi) as [E1 E2].
  unfold window. rewrite E1, E2.
  destruct (Clock.errors s)
    as [|e0 [|e1 [|e2 [|e3 [|e4 [|e5 [|e6 [|e7 [|e8 [|e9 [|]]]]]]]]]]];
    try discriminate.
  assert (H : Clock.errIdx s = 0 \/ Clock.errIdx s = 1 \/ Clock.errIdx s = 2
              \/ Clock.errIdx s = 3 \/ Clock.errIdx s = 4
              \/ Clock.errIdx s = 5 \/ Clock.errIdx s = 6
              \/ Clock.errIdx s = 7 \/ Clock.errIdx s = 8
              \/ Clock.errIdx s = 9) by lia.
  destruct H as [H|[H|[H|[H|[H|[H|[H|[H|[H|H]]]]]]]]]; rewrite H;
    reflexivity.
Qed.

Lemma record_snoc os err s :
  record (os ++ [err]) s = Clock.logFrameError err (record os s).
Proof. unfold record. now rewrite fold_left_app. Qed.

(** The window holds the last ten outcomes logged, oldest first. *)
Lemma window_record os :
  window (record os Clock.init) = last10 (history os)
  /\ 0 <= Clock.errIdx (record os Clock.init) < 10
  /\ length (Clock.errors (record os Clock.init)) = 10%nat.
Proof.
  induction os as [|err os IH] using rev_ind.
  - cbn. repeat apply conj; (reflexivity || lia).
  - destruct IH as (IH1 & IH2 & IH3). rewrite record_snoc.
    destruct (logFrameError_spec err (record os Clock.init) IH2) as [E1 E2].
    repeat apply conj.
    + rewrite window_logFrameError, IH1 by assumption.
      unfold history. rewrite map_app, app_assoc. cbn [map].
      symmetry. apply last10_snoc.
      * rewrite length_app. cbn. lia.
      * apply last10_length. rewrite length_app. cbn. lia.
    + rewrite E2. lia.
    + rewrite E2. lia.
    + now rewrite E1, store_length.
Qed.

Lemma sumFrameErrors_record rv0 os :
  Clock.sumFrameErrors rv0 (record os Clock.init)
  = int_wrap (rv0 + failures (last10 (history os))).
Proof.
  destruct (window_record os) as (E & _ & Hl).
  rewrite sumFrameErrors_spec by assumption.
  now rewrite <- failures_window, E.
Qed.

(** Every slot holds 0 or 1. *)
Lemma history_slots os : Forall (fun x => 0 <= x <= 1) (history os).
Proof.
  unfold history. apply Forall_app. split.
  - cbn. repeat constructor; lia.
  - induction os as [|[] os IH]; cbn; constructor; (lia || assumption).
Qed.

Lemma last10_slots h :
  Forall (fun x => 0 <= x <= 1) h -> Forall (fun x => 0 <= x <= 1) (last10 h).
Proof.
  unfold last10. generalize (length h - 10)%nat. intros n. revert h.
  induction n as [|n IH]; intros h Hh; [assumption|].
  destruct h as [|x h]; [constructor|]. cbn [skipn]. apply IH.
  now inversion Hh.
Qed.

(** The number of failures in the window goes down only when a success is
    logged. *)
Lemma failures_record_snoc os err :
  failures (Clock.errors (record (os ++ [err]) Clock.init))
  < failures (Clock.errors (record os Clock.init)) ->
  err = false.
Proof.
  destruct (window_record os) as (E & Hi & Hl).
  destruct (window_record (os ++ [err])) as (E' & _ & _).
  rewrite <- !failures_window, E'.
  rewrite record_snoc, window_logFrameError in E' by assumption.
  rewrite <- E', E.
  pose proof (last10_slots _ (history_slots os)) as Hs.
  assert (Hlen : length (last10 (history os)) = 10%nat)
    by (rewrite <- E; unfold window; rewrite length_app, length_skipn,
          length_firstn; lia).
  destruct (last10 (history os)) as [|x w]; [discriminate|].
  cbn [tl]. rewrite failures_app. unfold failures. cbn [fold_right].
  inversion Hs; subst. destruct err; cbn [slot]; [lia|reflexivity].
Qed.

(** ** After an error in reception *)



(** ** The refresh of the display and the decoder *)




Lemma wwvbChange_refreshed v w signalLevel now s :
  Clock.wwvbChange signalLevel now (refreshed v w s)
  = refreshed v w (Clock.wwvbChange signalLevel now s).
Proof. destruct s, signalLevel; reflexivity. Qed.





(** ** The slots of the window *)

Lemma nth_error_store_nth n v a :
  (n < length a)%nat ->
  nth_error (Clock.store_nth n v a) n = Some v
  /\ forall m, m <> n ->
       nth_error (Clock.store_nth n v a) m = nth_error a m.
Proof.
  revert n. induction a as [|x a IH]; intros n Hn; cbn in Hn; [lia|].
  destruct n as [|n]; cbn [Clock.store_nth].
  - split; [reflexivity|]. intros [|m] Hm; [congruence|reflexivity].
  - destruct (IH n) as [I1 I2]; [lia|]. split; [exact I1|].
    intros [|m] Hm; [reflexivity|]. cbn [nth_error]. apply I2. congruence.
Qed.

(** Writing slot [i] of the window: the slot holds what was written, and
    the others what they held. *)
Lemma store_slots i v a :
  0 <= i -> (Z.to_nat i < length a)%nat ->
  nth_error (Clock.store i v a) (Z.to_nat i) = Some v
  /\ (forall m, m <> Z.to_nat i ->
        nth_error (Clock.store i v a) m = nth_error a m)
  /\ length (Clock.store i v a) = length a.
Proof.
  intros Hi Hlen. unfold Clock.store.
  destruct (Z.leb_spec 0 i); [|lia].
  destruct (nth_error_store_nth (Z.to_nat i) v a Hlen) as [N1 N2].
  repeat apply conj; [exact N1|exact N2|apply store_nth_length].
Qed.

(** * The claims *)








(** C4, as amended.  The invariant of the held time frame -- every digit in
    its range, the hour below 24, the day of the year between 1 and 365, or
    366 when the leap year flag is set -- is preserved by the one-minute
    advance, and it holds of the frame held after the round trip of a time
    frame that has it.  (Boundary validation itself looks at the marker
    count, the position and the error count only.) *)
Theorem advance_keeps_frame_valid (b : Z) :
  valid_frame b = true ->
  valid_frame (Clock.incrementWwvbMinute b) = true
  /\ (forall T s t,
        decode b = T -> idle s -> Clock.wasMark s = true ->
        in_range T ->
        valid_frame
          (Clock.lastFrameBuffer
             (Clock.pulses t
                (Simulator.frame (Simulator.preset T)
                 ++ [Simulator.sendMark; Simulator.sendMark]) s)) = true).
Proof.
  intros Hv. split; [now apply increment_minute_valid|].
  intros T s t <- Hs Hw Hr.
  destruct (frame_received (decode b) s t Hr Hs Hw) as (_ & Hd & _).
  cbv zeta in Hd.
  generalize dependent (Clock.lastFrameBuffer
    (Clock.pulses t (Simulator.frame (Simulator.preset (decode b))
                     ++ [Simulator.sendMark; Simulator.sendMark]) s)).
  intros b' Hd. unfold decode in Hd. injection Hd as E1 E2 E3 E4 E5 E6 E7
    E8 E9 E10 E11 E12 E13 E14.
  unfold valid_frame, hour_of, day_of_year in *.
  now rewrite E1, E2, E3, E4, E5, E6, E7, E9, E10, E11, E13.
Qed.

Lemma advance_keeps_frame_valid_witness :
  valid_frame (held frame_2359) = true
  /\ valid_frame (Clock.incrementWwvbMinute (held frame_2359)) = true.
Proof.
  assert (H : valid_frame (held frame_2359) = true)
    by (vm_compute; reflexivity).
  split; [exact H|].
  exact (proj1 (advance_keeps_frame_valid (held frame_2359) H)).
Defined.

(** C4 as stated fails: a marker, then the sixty symbols of a frame whose
    data bits are all ones, then the next opening marker.  The frame passes
    boundary validation (its boundary time is noted, a success is logged)
    and is held, with minute digits 7 and 15. *)
Lemma accepted_frame_out_of_range :
  let s' :=
    Clock.pulses 0
      (Simulator.sendMark :: all_ones ++ [Simulator.sendMark]) Clock.init in
  Clock.frameEndTime s' = 61000
  /\ Clock.load 1 (Clock.errors s') = 0
  /\ frame_get MinTen (Clock.lastFrameBuffer s') = 7
  /\ frame_get MinOne (Clock.lastFrameBuffer s') = 15
  /\ valid_frame (Clock.lastFrameBuffer s') = false.
Proof. vm_compute. repeat apply conj; reflexivity. Qed.

(** C5, as amended.  Advancing a time frame that reads 23:59 yields 00:00,
    all four digits zero, and the day of the year one higher -- unless it
    was the last day of the year (365, or 366 with the leap year flag),
    when the day of the year is 1. *)
Theorem midnight_carry (b : Z) :
  valid_frame b = true ->
  frame_get HourTen b = 2 -> frame_get HourOne b = 3 ->
  frame_get MinTen b = 5 -> frame_get MinOne b = 9 ->
  let b' := Clock.incrementWwvbMinute b in
  frame_get HourTen b' = 0 /\ frame_get HourOne b' = 0
  /\ frame_get MinTen b' = 0 /\ frame_get MinOne b' = 0
  /\ (day_of_year b < 365 + frame_get Leapyear b ->
      day_of_year b' = day_of_year b + 1 /\ year_of b' = year_of b)
  /\ (day_of_year b = 365 + frame_get Leapyear b -> day_of_year b' = 1).
Proof.
  rewrite valid_frame_spec. cbv zeta.
  unfold Clock.incrementWwvbMinute, hour_of, day_of_year, year_of.
  intros Hv H1 H2 H3 H4. nonneg_fields b. carries; lia.
Qed.

Lemma midnight_carry_witness :
  valid_frame (held frame_2359_day100) = true
  /\ day_of_year (Clock.incrementWwvbMinute (held frame_2359_day100)) = 101.
Proof.
  assert (H : valid_frame (held frame_2359_day100) = true)
    by (vm_compute; reflexivity).
  split; [exact H|].
  assert (H' : day_of_year (held frame_2359_day100)
               < 365 + frame_get Leapyear (held frame_2359_day100))
    by (vm_compute; reflexivity).
  pose proof (midnight_carry (held frame_2359_day100) H
                eq_refl eq_refl eq_refl eq_refl) as (_ & _ & _ & _ & Hd & _).
  exact (proj1 (Hd H')).
Defined.

(** C5 as stated fails on the last day of a year: the frame the simulator
    reaches two minutes after [setup()], 23:59 on day 365 with the leap year
    flag clear, is advanced to day 1, not day 366. *)
Lemma year_end_not_next_day :
  let b := held frame_2359 in
  valid_frame b = true
  /\ hour_of b = 23 /\ minute_of b = 59 /\ day_of_year b = 365
  /\ hour_of (Clock.incrementWwvbMinute b) = 0
  /\ minute_of (Clock.incrementWwvbMinute b) = 0
  /\ day_of_year (Clock.incrementWwvbMinute b) = 1
  /\ day_of_year (Clock.incrementWwvbMinute b) <> day_of_year b + 1.
Proof. vm_compute. repeat apply conj; (reflexivity || discriminate). Qed.

(** C6.  Year rollover: when the advance carries past the last minute of
    day 365 with the leap year flag clear, or of day 366 with it set, the
    day of the year becomes 1 and the year's ones digit goes up by one; from
    9 it goes to 0 and carries to the tens digit, which from 9 goes to 0;
    nothing else is carried: every other field keeps its value. *)
Theorem year_rollover (b : Z) :
  frame_get HourTen b = 2 -> frame_get HourOne b = 3 ->
  frame_get MinTen b = 5 -> frame_get MinOne b = 9 ->
  frame_get DayTen b <= 9 -> frame_get DayOne b <= 9 ->
  (frame_get Leapyear b = 0 /\ day_of_year b = 365)
  \/ (frame_get Leapyear b = 1 /\ day_of_year b = 366) ->
  frame_get YearOne b <= 9 -> frame_get YearTen b <= 9 ->
  let b' := Clock.incrementWwvbMinute b in
  (frame_get DayHun b' = 0 /\ frame_get DayTen b' = 0
   /\ frame_get DayOne b' = 1 /\ day_of_year b' = 1
   /\ frame_get YearOne b' = (frame_get YearOne b + 1) mod 10
   /\ (frame_get YearOne b = 9 ->
       frame_get YearTen b' = (frame_get YearTen b + 1) mod 10)
   /\ (frame_get YearOne b < 9 -> frame_get YearTen b' = frame_get YearTen b)
   /\ year_of b' = (year_of b + 1) mod 100)
  /\ (forall f, clock_field f = false -> frame_get f b' = frame_get f b).
Proof.
  cbv zeta. intros H1 H2 H3 H4 H5 H6 H7 H8 H9.
  split; [|intros f Hf; now apply increment_minute_frame].
  unfold Clock.incrementWwvbMinute, day_of_year, year_of in *.
  nonneg_fields b. carries; lia.
Qed.

Lemma year_rollover_witness :
  (frame_get Leapyear (held frame_2359) = 0
   /\ day_of_year (held frame_2359) = 365)
  /\ day_of_year (Clock.incrementWwvbMinute (held frame_2359)) = 1
  /\ year_of (Clock.incrementWwvbMinute (held frame_2359)) = 11.
Proof.
  assert (H : frame_get Leapyear (held frame_2359) = 0
              /\ day_of_year (held frame_2359) = 365)
    by (vm_compute; split; reflexivity).
  split; [exact H|].
  assert (H5 : frame_get DayTen (held frame_2359) <= 9)
    by (vm_compute; intros Hc; discriminate Hc).
  assert (H6 : frame_get DayOne (held frame_2359) <= 9)
    by (vm_compute; intros Hc; discriminate Hc).
  assert (H8 : frame_get YearOne (held frame_2359) <= 9)
    by (vm_compute; intros Hc; discriminate Hc).
  assert (H9 : frame_get YearTen (held frame_2359) <= 9)
    by (vm_compute; intros Hc; discriminate Hc).
  pose proof (year_rollover (held frame_2359) eq_refl eq_refl eq_refl
                eq_refl H5 H6 (or_introl H) H8 H9)
    as [(_ & _ & _ & Hd & _ & _ & _ & Hy) _].
  split; [exact Hd|]. rewrite Hy. vm_compute. reflexivity.
Defined.

(** C7.  The ten slots hold the last ten outcomes logged, the oldest
    overwritten first, and the loop of [sumFrameErrors()] adds up the
    failures among them -- on top of whatever its local [rv] held to begin
    with, which the code never sets.  After ten failures the function
    returns 10 only if [rv] happened to start at 0: started at 1 it returns
    11, and 10 after one more success. *)
Theorem sumFrameErrors_uninitialised :
  (forall outcomes,
     window (record outcomes Clock.init) = last10 (history outcomes))
  /\ (forall rv0 outcomes,
        Clock.sumFrameErrors rv0 (record outcomes Clock.init)
        = int_wrap (rv0 + failures (last10 (history outcomes))))
  /\ Clock.sumFrameErrors 0 (record (repeat true 10) Clock.init) = 10
  /\ Clock.sumFrameErrors 1 (record (repeat true 10) Clock.init) = 11
  /\ Clock.sumFrameErrors 1 (record (repeat true 10 ++ [false]) Clock.init)
     = 10.
Proof.
  split; [intros os; apply window_record|].
  split; [intros rv0 os; apply sumFrameErrors_record|].
  vm_compute. repeat apply conj; reflexivity.
Qed.



(** C9.  Overflow guard: a pulse that is not a frame boundary and takes the
    position past 60 logs a failure -- the slot of the window [errIdx]
    points to holds 1 afterwards, the other nine hold what they held, and
    [errIdx] has moved on by one round the ten slots, which is what
    [logFrameError()] leaves -- and resets the position, the marker
    count, the error count, the marker flag and the receive buffer,
    leaving the held frame alone: the state a failed validation at a
    boundary leaves behind from the same window of outcomes and the same
    held frame.  So, from start-up on, the position is between 1 and 60
    after every pulse. *)
Theorem overflow_guard (s : Clock.state) :
  sane s -> boundary s = false -> Clock.bitPosition s = 60 ->
  let s' := Clock.processBit s in
  (Clock.bitPosition s' = 1 /\ Clock.framePosition s' = 0
   /\ Clock.bitError s' = 0 /\ Clock.wasMark s' = false
   /\ Clock.receiveBuffer s' = 0
   /\ Clock.errors s' = Clock.errors (Clock.logFrameError true s)
   /\ Clock.errIdx s' = Clock.errIdx (Clock.logFrameError true s)
   /\ Clock.lastFrameBuffer s' = Clock.lastFrameBuffer s
   /\ Clock.frameEndTime s' = Clock.frameEndTime s)
  /\ (nth_error (Clock.errors s') (Z.to_nat (Clock.errIdx s)) = Some 1
      /\ (forall m, m <> Z.to_nat (Clock.errIdx s) ->
            nth_error (Clock.errors s') m = nth_error (Clock.errors s) m)
      /\ length (Clock.errors s') = 10%nat
      /\ Clock.errIdx s' = (Clock.errIdx s + 1) mod 10)
  /\ (forall r, sane r -> boundary r = true -> frame_accepted r = false ->
        Clock.errors r = Clock.errors s -> Clock.errIdx r = Clock.errIdx s ->
        Clock.lastFrameBuffer r = Clock.lastFrameBuffer s ->
        Clock.frameEndTime r = Clock.frameEndTime s ->
        let r' := Clock.processBit r in
        Clock.bitPosition r' = Clock.bitPosition s'
        /\ Clock.framePosition r' = Clock.framePosition s'
        /\ Clock.bitError r' = Clock.bitError s'
        /\ Clock.wasMark r' = Clock.wasMark s'
        /\ Clock.receiveBuffer r' = Clock.receiveBuffer s'
        /\ Clock.frameError r' = Clock.frameError s'
        /\ Clock.errors r' = Clock.errors s'
        /\ Clock.errIdx r' = Clock.errIdx s'
        /\ Clock.lastFrameBuffer r' = Clock.lastFrameBuffer s'
        /\ Clock.frameEndTime r' = Clock.frameEndTime s')
  /\ (forall t ps,
        1 <= Clock.bitPosition (Clock.pulses t ps Clock.init) <= 60).
Proof.
  intros Hs Hb H60. cbv zeta.
  destruct (processBit_overflow s Hs Hb H60)
    as (E1 & E2 & E3 & E4 & E5 & E6 & E7 & E8 & E9 & E10 & E11 & _).
  pose proof Hs as (_ & _ & _ & _ & Hei & Hlen).
  destruct (logFrameError_spec true s Hei) as [L1 L2].
  destruct (store_slots (Clock.errIdx s) 1 (Clock.errors s))
    as (S1 & S2 & S3); [lia|lia|].
  rewrite <- E8 in S1, S2, S3.
  split; [|split; [|split]].
  - rewrite L1, L2. cbn [slot]. auto 10.
  - repeat apply conj; [exact S1|exact S2|now rewrite S3|exact E9].
  - intros r Hr Hrb Hno R1 R2 R3 R4.
    destruct (processBit_boundary r Hr Hrb)
      as (F1 & F2 & F3 & F4 & F5 & F6 & F7 & F8 & F9 & F10 & F11 & _).
    rewrite Hno in *. cbn [negb slot] in F8.
    rewrite F1, F2, F3, F4, F5, F6, F8, F9, F10, F11.
    rewrite E1, E2, E3, E4, E5, E6, E8, E9, E10, E11, R1, R2, R3, R4.
    auto 10.
  - intros t ps. destruct (pulses_idle ps t Clock.init init_idle)
      as (_ & _ & Hbp & _). exact Hbp.
Qed.

(** The state the witness is taken at holds successes only, so that the
    failure logged shows. *)
Lemma overflow_guard_witness :
  let s := timed 0 200 (Clock.set_errors (repeat 0 10) frame_full) in
  sane s /\ boundary s = false /\ Clock.bitPosition s = 60
  /\ Clock.bitPosition (Clock.processBit s) = 1
  /\ Clock.errors (Clock.processBit s) = [1; 0; 0; 0; 0; 0; 0; 0; 0; 0].
Proof.
  intros s.
  assert (H1 : sane s)
    by (unfold sane; vm_compute; repeat apply conj;
        (reflexivity || (intros H; discriminate H))).
  assert (H2 : boundary s = false) by reflexivity.
  assert (H3 : Clock.bitPosition s = 60) by reflexivity.
  split; [exact H1|]. split; [exact H2|]. split; [exact H3|].
  split; [exact (proj1 (proj1 (overflow_guard s H1 H2 H3)))|].
  vm_compute. reflexivity.
Defined.

(** C10.  At start-up every one of the ten slots holds a failure, so the
    window counts ten failures, and the count goes down only when a success
    is logged.  What [sumFrameErrors()] returns at start-up is that count
    added to the value its local [rv] starts with, which the code never
    sets: 10 if it starts at 0, 11 if it starts at 1. *)
Theorem startup_window :
  Clock.errors Clock.init = repeat 1 10
  /\ failures (Clock.errors Clock.init) = 10
  /\ (forall outcomes err,
        failures (Clock.errors (record (outcomes ++ [err]) Clock.init))
        < failures (Clock.errors (record outcomes Clock.init)) ->
        err = false)
  /\ (forall rv0, Clock.sumFrameErrors rv0 Clock.init = int_wrap (rv0 + 10))
  /\ Clock.sumFrameErrors 0 Clock.init = 10
  /\ Clock.sumFrameErrors 1 Clock.init = 11.
Proof.
  split; [reflexivity|]. split; [reflexivity|].
  split; [intros os err; apply failures_record_snoc|].
  split; [intros rv0; now rewrite sumFrameErrors_spec|].
  split; reflexivity.
Qed.

(** * The clock chip, the display and the signal on the air *)

(** ** Binary-coded decimal *)

Lemma bcd2dec_byte x :
  0 <= x < 256 -> Rtc.bcd2dec x = 10 * (x / 16) + x mod 16.
Proof.
  intros Hx. unfold Rtc.bcd2dec.
  rewrite Z.shiftr_div_pow2 by lia. change (2 ^ 4) with 16.
  rewrite Z.rem_mod_nonneg by lia.
  rewrite int_wrap_add_l, int_wrap_small; [lia|].
  change (2 ^ 15) with 32768. lia.
Qed.

Lemma dec2bcd_small d :
  0 <= d < 2048 -> Rtc.dec2bcd d = 16 * (d / 10) + d mod 10.
Proof.
  intros Hd. unfold Rtc.dec2bcd.
  rewrite Z.shiftl_mul_pow2 by lia. change (2 ^ 4) with 16.
  rewrite Z.quot_div_nonneg, Z.rem_mod_nonneg by lia.
  rewrite int_wrap_add_l, int_wrap_small; [lia|].
  change (2 ^ 15) with 32768. lia.
Qed.

Lemma byte_small x : 0 <= x < 256 -> Rtc.byte x = x.
Proof. intros H. unfold Rtc.byte. change (2 ^ 8) with 256. lia. Qed.

(** X1.  A number of two decimal digits survives the passage through
    [dec2bcd] and [bcd2dec], and its code is a byte of two decimal
    nibbles. *)
Theorem bcd2dec_dec2bcd (d : Z) :
  0 <= d <= 99 ->
  Rtc.bcd2dec (Rtc.dec2bcd d) = d
  /\ is_bcd (Rtc.dec2bcd d)
  /\ Rtc.byte (Rtc.dec2bcd d) = Rtc.dec2bcd d.
Proof.
  intros Hd. rewrite dec2bcd_small by lia.
  assert (H : 0 <= 16 * (d / 10) + d mod 10 < 256) by lia.
  rewrite bcd2dec_byte, byte_small by exact H.
  unfold is_bcd. lia.
Qed.

Lemma bcd2dec_dec2bcd_witness : Rtc.bcd2dec (Rtc.dec2bcd 59) = 59.
Proof. apply (bcd2dec_dec2bcd 59). lia. Defined.

(** X2.  A byte of two decimal nibbles survives the passage through
    [bcd2dec] and [dec2bcd]. *)
Theorem dec2bcd_bcd2dec (x : Z) :
  is_bcd x ->
  Rtc.dec2bcd (Rtc.bcd2dec x) = x /\ 0 <= Rtc.bcd2dec x <= 99.
Proof.
  unfold is_bcd. intros (Hx & Hh & Hl).
  rewrite bcd2dec_byte by lia.
  rewrite dec2bcd_small by lia. lia.
Qed.

Lemma dec2bcd_bcd2dec_witness : Rtc.dec2bcd (Rtc.bcd2dec 89) = 89.
Proof.
  apply (dec2bcd_bcd2dec 89). unfold is_bcd.
  repeat apply conj; vm_compute; congruence.
Defined.

(** ** The advance, as a count of minutes *)

Lemma increment_minute_of_day b :
  valid_frame b = true ->
  minute_of_day (increment_minute Clock.wwvbBuffer b)
  = (minute_of_day b + 1) mod 1440
  /\ (minute_of_day b <> 1439 ->
      day_of_year (increment_minute Clock.wwvbBuffer b) = day_of_year b
      /\ year_of (increment_minute Clock.wwvbBuffer b) = year_of b).
Proof.
  rewrite valid_frame_spec.
  unfold minute_of_day, minute_of, hour_of, day_of_year, year_of.
  intros Hv. nonneg_fields b. carries; lia.
Qed.

(** X3.  The advance is one minute.  On a valid frame,
    [incrementWwvbMinute()] adds one to the minutes since midnight, going
    from 1439 to 0, and leaves the day of the year and the year alone
    unless it goes past midnight. *)
Theorem advance_is_one_minute (b : Z) :
  valid_frame b = true ->
  let b' := Clock.incrementWwvbMinute b in
  minute_of_day b' = (minute_of_day b + 1) mod 1440
  /\ (minute_of_day b <> 1439 ->
      day_of_year b' = day_of_year b /\ year_of b' = year_of b).
Proof. intros Hv. exact (increment_minute_of_day b Hv). Qed.

Lemma advance_is_one_minute_witness :
  minute_of_day (Clock.incrementWwvbMinute (held frame_2357)) = 1438.
Proof.
  assert (H : valid_frame (held frame_2357) = true)
    by (vm_compute; reflexivity).
  exact (proj1 (advance_is_one_minute (held frame_2357) H)).
Defined.

(** ** Setting the clock chip *)

Lemma frame_get_byte f b : Rtc.byte (frame_get f b) = frame_get f b.
Proof.
  apply byte_small. pose proof (frame_get_range f b) as H.
  assert (W : 2 ^ width Clock.wwvbBuffer f <= 256)
    by (destruct f; vm_compute; congruence).
  lia.
Qed.

Lemma frame_get_bound f b : 0 <= frame_get f b <= 15.
Proof.
  pose proof (frame_get_range f b) as H.
  assert (W : 2 ^ width Clock.wwvbBuffer f <= 16)
    by (destruct f; vm_compute; congruence).
  lia.
Qed.

Lemma day_hundreds_bound b : 0 <= frame_get DayHun b <= 3.
Proof.
  pose proof (frame_get_range DayHun b) as H.
  change (2 ^ width Clock.wwvbBuffer DayHun) with 4 in H. lia.
Qed.

Lemma wwvbFrame_eq f s r l t :
  Rtc.wwvbFrame f (Rtc.mkGlobals s r l t)
  = frame_get f (Clock.lastFrameBuffer s).
Proof. reflexivity. Qed.

Lemma updateRTC_eq now g :
  let b := Clock.incrementWwvbMinute (Clock.lastFrameBuffer (Rtc.decoder g)) in
  let r :=
    registers_of
      (Rtc.secondsSinceFrame now (Clock.frameEndTime (Rtc.decoder g)))
      b (Rtc.rtc g) in
  Rtc.updateRTC now g =
  (Rtc.mkGlobals (Clock.set_lastFrameBuffer b (Rtc.decoder g)) r
     (Rtc.lastRtcUpdateTime g) (text_of r),
   [ 0; Rtc.second r; Rtc.minute r; Rtc.hour r; Rtc.day r; Rtc.date r;
     Rtc.month r; Rtc.year r; Rtc.ctrl r ]).
Proof.
  destruct g as [s r l txt]. cbv zeta.
  unfold Rtc.updateRTC, Rtc.setRTC, Rtc.RTC_SECS, registers_of, text_of.
  cbv zeta.
  cbn [fst Rtc.rtc Rtc.decoder Rtc.lastRtcUpdateTime Rtc.lastTimeUpdate
       Rtc.second Rtc.minute Rtc.hour Rtc.day Rtc.date Rtc.month Rtc.year
       Rtc.ctrl].
  rewrite !wwvbFrame_eq.
  destruct s as [pst pet fet br wm fp bp lb errs ei be fe rb lfb].
  state_cbv.
  generalize (Clock.incrementWwvbMinute lfb); intros b.
  rewrite !frame_get_byte.
  rewrite !Z.shiftl_mul_pow2 by lia. change (2 ^ 4) with 16.
  pose proof (frame_get_bound MinTen b). pose proof (frame_get_bound MinOne b).
  pose proof (frame_get_bound HourTen b).
  pose proof (frame_get_bound HourOne b).
  pose proof (frame_get_bound YearTen b).
  pose proof (frame_get_bound YearOne b).
  pose proof (frame_get_bound DayTen b). pose proof (frame_get_bound DayOne b).
  pose proof (day_hundreds_bound b).
  rewrite (byte_small (frame_get MinTen b * 16 + frame_get MinOne b)) by lia.
  rewrite (byte_small (frame_get HourTen b * 16 + frame_get HourOne b)) by lia.
  rewrite (byte_small (frame_get YearTen b * 16 + frame_get YearOne b)) by lia.
  assert (D : int_wrap (frame_get DayHun b * 100 + frame_get DayTen b * 10
                        + frame_get DayOne b) = day_of_year b)
    by (unfold day_of_year; rewrite int_wrap_small;
        [lia | change (2 ^ 15) with 32768; lia]).
  rewrite D.
  generalize (Rtc.month_loop 14 0 (frame_get Leapyear b) (day_of_year b)).
  intros i. clear.
  rewrite (Z.mul_comm (frame_get MinTen b) 16).
  rewrite (Z.mul_comm (frame_get HourTen b) 16).
  rewrite (Z.mul_comm (frame_get YearTen b) 16).
  reflexivity.
Qed.

Lemma registers_of_fields secs b r :
  let r' := registers_of secs b r in
  Rtc.second r' = secs
  /\ Rtc.minute r' = 16 * frame_get MinTen b + frame_get MinOne b
  /\ Rtc.hour r' = 16 * frame_get HourTen b + frame_get HourOne b
  /\ Rtc.day r' = 0
  /\ Rtc.year r' = 16 * frame_get YearTen b + frame_get YearOne b
  /\ Rtc.ctrl r' = Rtc.ctrl r.
Proof. repeat apply conj; reflexivity. Qed.

Lemma bcd2dec_pair a c :
  0 <= a <= 15 -> 0 <= c <= 15 -> Rtc.bcd2dec (16 * a + c) = 10 * a + c.
Proof. intros Ha Hc. rewrite bcd2dec_byte by lia. lia. Qed.


Lemma secondsSinceFrame_eq t1 t2 :
  0 <= t2 - t1 < 65536 ->
  Rtc.secondsSinceFrame (Clock.millis t2) (Clock.millis t1)
  = (t2 - t1 + 499) / 1000.
Proof.
  intros H. unfold Rtc.secondsSinceFrame, Clock.millis, wrap16, wrap32.
  rewrite <- Zminus_mod.
  change (2 ^ 32) with 4294967296. change (2 ^ 16) with 65536.
  rewrite (Z.mod_small (t2 - t1) 4294967296) by lia.
  rewrite (Z.mod_small (t2 - t1) 65536) by lia.
  generalize dependent (t2 - t1). intros e He.
  rewrite (byte_small (e / 1000)) by lia.
  destruct (Z.gtb_spec (e mod 1000) 500).
  - rewrite byte_small by lia. lia.
  - lia.
Qed.

(** X5.  The seconds [updateRTC()] sends are the time since the frame's
    on-time marker, to the nearest second, as long as that time is below
    65.536 s.  They are sent as a plain number, not as binary-coded
    decimal: the clock chip reads the number meant up to 15.5 s only. *)
Theorem updateRTC_seconds (t1 t2 : Z) (g : Rtc.globals) :
  Clock.frameEndTime (Rtc.decoder g) = Clock.millis t1 ->
  0 <= t2 - t1 < 65536 ->
  let secs := Rtc.second (Rtc.rtc (fst (Rtc.updateRTC (Clock.millis t2) g))) in
  -500 <= 1000 * secs - (t2 - t1) < 500
  /\ (Rtc.bcd2dec secs = secs <-> t2 - t1 <= 15500).
Proof.
  intros Hf Ht. cbv zeta. rewrite updateRTC_eq. cbv zeta.
  cbn [fst Rtc.rtc]. rewrite Hf.
  destruct (registers_of_fields
              (Rtc.secondsSinceFrame (Clock.millis t2) (Clock.millis t1))
              (Clock.incrementWwvbMinute (Clock.lastFrameBuffer (Rtc.decoder g)))
              (Rtc.rtc g)) as (E & _).
  rewrite E, secondsSinceFrame_eq by exact Ht. clear E Hf.
  generalize dependent (t2 - t1). intros e He.
  assert (Hs : 0 <= (e + 499) / 1000 < 256) by lia.
  rewrite bcd2dec_byte by exact Hs.
  split; [lia|]. split; intros H; lia.
Qed.

Lemma updateRTC_seconds_witness :
  Rtc.second
    (Rtc.rtc (fst (Rtc.updateRTC (Clock.millis 61050)
                     (Rtc.mkGlobals (Clock.set_frameEndTime 60000 Clock.init)
                        (Rtc.rtc Rtc.init) 0 ""%string)))) = 1.
Proof.
  pose proof (updateRTC_seconds 60000 61050
                (Rtc.mkGlobals (Clock.set_frameEndTime 60000 Clock.init)
                   (Rtc.rtc Rtc.init) 0 ""%string) eq_refl) as H.
  cbv zeta in H.
  assert (Ht : 0 <= 61050 - 60000 < 65536) by lia.
  destruct (H Ht) as [H1 _]. lia.
Defined.

(** The table look-up of [updateRTC()], tried on every day of a common
    year and of a leap year. *)
Lemma month_loop_table :
  forallb (fun leap =>
    forallb (fun n =>
      let doy := Z.of_nat n in
      let i := Rtc.month_loop 14 0 leap doy in
      let month := Rtc.byte (Rtc.dec2bcd (if i >? 12 then 1 else i)) in
      let date :=
        Rtc.byte (Rtc.dec2bcd
          (int_wrap (doy - Rtc.eomYear_at (i - 1) leap))) in
      let m := Rtc.bcd2dec month in
      let d := Rtc.bcd2dec date in
      (i >? 0) && (1 <=? m) && (m <=? 12) && (1 <=? d)
      && (Rtc.eomYear_at (m - 1) leap + d =? doy)
      && (doy <=? Rtc.eomYear_at m leap)
      && (month / 16 <=? 9) && (month mod 16 <=? 9)
      && (date / 16 <=? 9) && (date mod 16 <=? 9)
      && (month <? 256) && (date <? 256) && (0 <=? month) && (0 <=? date))
      (seq 1 (Z.to_nat (365 + leap))))
    [0; 1] = true.
Proof. vm_compute. reflexivity. Qed.

Lemma month_loop_day leap doy :
  0 <= leap <= 1 -> 1 <= doy <= 365 + leap ->
  let i := Rtc.month_loop 14 0 leap doy in
  let month := Rtc.byte (Rtc.dec2bcd (if i >? 12 then 1 else i)) in
  let date :=
    Rtc.byte (Rtc.dec2bcd (int_wrap (doy - Rtc.eomYear_at (i - 1) leap))) in
  let m := Rtc.bcd2dec month in
  let d := Rtc.bcd2dec date in
  (i >? 0) = true /\ 1 <= m <= 12 /\ 1 <= d
  /\ Rtc.eomYear_at (m - 1) leap + d = doy
  /\ doy <= Rtc.eomYear_at m leap
  /\ is_bcd month /\ is_bcd date.
Proof.
  intros Hl Hd. pose proof month_loop_table as T.
  rewrite forallb_forall in T.
  assert (Hin : In leap [0; 1]) by (cbn; lia).
  specialize (T leap Hin). rewrite forallb_forall in T.
  assert (Hn : In (Z.to_nat doy) (seq 1 (Z.to_nat (365 + leap))))
    by (apply in_seq; lia).
  specialize (T (Z.to_nat doy) Hn). cbv zeta in T |- *.
  rewrite Z2Nat.id in T by lia.
  generalize dependent (Rtc.month_loop 14 0 leap doy). intros i T.
  repeat (apply andb_prop in T; destruct T as [T ?]).
  unfold is_bcd. repeat apply conj; try lia.
Qed.

Lemma registers_of_date secs b r :
  let leap := frame_get Leapyear b in
  let i := Rtc.month_loop 14 0 leap (day_of_year b) in
  Rtc.date (registers_of secs b r)
  = (if i >? 0
     then Rtc.byte (Rtc.dec2bcd
            (int_wrap (day_of_year b - Rtc.eomYear_at (i - 1) leap)))
     else Rtc.date r)
  /\ Rtc.month (registers_of secs b r)
     = (if i >? 0 then Rtc.byte (Rtc.dec2bcd (if i >? 12 then 1 else i))
        else Rtc.month r).
Proof. split; reflexivity. Qed.

Lemma updateRTC_fst now g :
  Clock.lastFrameBuffer (Rtc.decoder (fst (Rtc.updateRTC now g)))
  = Clock.incrementWwvbMinute (Clock.lastFrameBuffer (Rtc.decoder g))
  /\ Rtc.rtc (fst (Rtc.updateRTC now g))
     = registers_of
         (Rtc.secondsSinceFrame now (Clock.frameEndTime (Rtc.decoder g)))
         (Clock.incrementWwvbMinute (Clock.lastFrameBuffer (Rtc.decoder g)))
         (Rtc.rtc g)
  /\ Rtc.lastTimeUpdate (fst (Rtc.updateRTC now g))
     = text_of (Rtc.rtc (fst (Rtc.updateRTC now g)))
  /\ Rtc.lastRtcUpdateTime (fst (Rtc.updateRTC now g))
     = Rtc.lastRtcUpdateTime g.
Proof.
  rewrite updateRTC_eq. cbv zeta. cbn [fst Rtc.decoder Rtc.rtc
    Rtc.lastTimeUpdate Rtc.lastRtcUpdateTime].
  repeat apply conj; reflexivity.
Qed.

(** X6.  For a valid held frame, the month and the day of the month
    [updateRTC()] sends to the clock chip are the calendar date of the day
    of the year of the frame one minute on: month [m] from 1 to 12, day [d]
    from 1 to the length of that month, the months before [m] and [d] days
    making up the day of the year by the table [eomYear]; both are sent as
    binary-coded decimal. *)
Theorem updateRTC_date (now : Z) (g : Rtc.globals) :
  valid_frame (Clock.lastFrameBuffer (Rtc.decoder g)) = true ->
  let g' := fst (Rtc.updateRTC now g) in
  let b := Clock.lastFrameBuffer (Rtc.decoder g') in
  let leap := frame_get Leapyear b in
  let m := Rtc.bcd2dec (Rtc.month (Rtc.rtc g')) in
  let d := Rtc.bcd2dec (Rtc.date (Rtc.rtc g')) in
  1 <= m <= 12 /\ 1 <= d
  /\ Rtc.eomYear_at (m - 1) leap + d = day_of_year b
  /\ day_of_year b <= Rtc.eomYear_at m leap
  /\ is_bcd (Rtc.month (Rtc.rtc g')) /\ is_bcd (Rtc.date (Rtc.rtc g')).
Proof.
  intros Hv. cbv zeta.
  destruct (updateRTC_fst now g) as (Eb & Er & _). rewrite Eb, Er.
  clear Eb Er.
  apply increment_minute_valid in Hv. revert Hv.
  unfold Clock.incrementWwvbMinute.
  generalize
    (increment_minute Clock.wwvbBuffer (Clock.lastFrameBuffer (Rtc.decoder g))).
  intros b Hv.
  generalize (Rtc.secondsSinceFrame now (Clock.frameEndTime (Rtc.decoder g))).
  intros secs.
  destruct (registers_of_date secs b (Rtc.rtc g)) as [Ed Em].
  cbv zeta in Ed, Em. rewrite Ed, Em. clear Ed Em.
  apply valid_frame_spec in Hv.
  pose proof (leap_flag_range b) as Hl.
  assert (Hd : 1 <= day_of_year b <= 365 + frame_get Leapyear b) by tauto.
  pose proof (month_loop_day (frame_get Leapyear b) (day_of_year b) Hl Hd)
    as M.
  cbv zeta in M. destruct M as (Hi & M). rewrite Hi. exact M.
Qed.

Lemma updateRTC_date_witness :
  let g := Rtc.mkGlobals (Clock.set_lastFrameBuffer (held frame_2357) Clock.init)
             (Rtc.rtc Rtc.init) 0 ""%string in
  Rtc.bcd2dec (Rtc.month (Rtc.rtc (fst (Rtc.updateRTC 0 g)))) <= 12.
Proof.
  intros g.
  assert (H : valid_frame (Clock.lastFrameBuffer (Rtc.decoder g)) = true)
    by (vm_compute; reflexivity).
  exact (proj2 (proj1 (updateRTC_date 0 g H))).
Defined.

Lemma month_loop_beyond :
  forallb (fun leap =>
    forallb (fun n =>
      let doy := Z.of_nat n in
      let i := Rtc.month_loop 14 0 leap doy in
      (i >? 12)
      && (Rtc.bcd2dec (Rtc.byte (Rtc.dec2bcd
            (int_wrap (doy - Rtc.eomYear_at (i - 1) leap))))
          =? Z.max 1 (doy - 366 - leap)))
      (seq (Z.to_nat (366 + leap)) (Z.to_nat (100 - leap))))
    [0; 1] = true.
Proof. vm_compute. reflexivity. Qed.

(** X7.  A day of the year outside the year.  With day 0 in the frame,
    [updateRTC()] leaves the month and the day of the month as they were
    read from the clock chip.  With a day past the last one of the year
    (365, or 366 with the leap year flag) it sends a day in January, and
    the year of the frame nonetheless: day 1 for the first day past the
    year, and so on from day 1 again for those after it. *)
Theorem updateRTC_day_outside_year (now : Z) (g : Rtc.globals) :
  let g' := fst (Rtc.updateRTC now g) in
  let b := Clock.lastFrameBuffer (Rtc.decoder g') in
  let leap := frame_get Leapyear b in
  let r := Rtc.rtc g' in
  (day_of_year b = 0 ->
   Rtc.month r = Rtc.month (Rtc.rtc g) /\ Rtc.date r = Rtc.date (Rtc.rtc g))
  /\ (365 + leap < day_of_year b ->
      Rtc.month r = 1
      /\ Rtc.bcd2dec (Rtc.date r) = Z.max 1 (day_of_year b - 366 - leap)
      /\ Rtc.bcd2dec (Rtc.year r) = year_of b).
Proof.
  cbv zeta.
  destruct (updateRTC_fst now g) as (Eb & Er & _). rewrite Eb, Er.
  generalize
    (Clock.incrementWwvbMinute (Clock.lastFrameBuffer (Rtc.decoder g))).
  intros b.
  generalize (Rtc.secondsSinceFrame now (Clock.frameEndTime (Rtc.decoder g))).
  intros secs.
  assert (Ey : Rtc.bcd2dec (Rtc.year (registers_of secs b (Rtc.rtc g)))
               = year_of b).
  { destruct (registers_of_fields secs b (Rtc.rtc g))
      as (_ & _ & _ & _ & E & _).
    rewrite E. unfold year_of. apply bcd2dec_pair; apply frame_get_bound. }
  destruct (registers_of_date secs b (Rtc.rtc g)) as [Ed Em].
  cbv zeta in Ed, Em. rewrite Ed, Em. clear Ed Em.
  pose proof (leap_flag_range b) as Hl.
  split.
  - intros H0. rewrite H0.
    assert (E : Rtc.month_loop 14 0 (frame_get Leapyear b) 0 = 0).
    { assert (C : frame_get Leapyear b = 0 \/ frame_get Leapyear b = 1)
        by lia.
      destruct C as [C|C]; rewrite C; vm_compute; reflexivity. }
    rewrite E. split; reflexivity.
  - intros Hd.
    pose proof (frame_get_bound DayTen b).
    pose proof (frame_get_bound DayOne b).
    pose proof (day_hundreds_bound b).
    assert (Hu : day_of_year b <= 465) by (unfold day_of_year; lia).
    pose proof month_loop_beyond as T.
    rewrite forallb_forall in T.
    assert (Hin : In (frame_get Leapyear b) [0; 1]) by (cbn; lia).
    specialize (T _ Hin). rewrite forallb_forall in T.
    assert (Hn : In (Z.to_nat (day_of_year b))
                   (seq (Z.to_nat (366 + frame_get Leapyear b))
                        (Z.to_nat (100 - frame_get Leapyear b))))
      by (apply in_seq; lia).
    specialize (T _ Hn). cbv zeta in T.
    rewrite Z2Nat.id in T by lia.
    generalize dependent
      (Rtc.month_loop 14 0 (frame_get Leapyear b) (day_of_year b)).
    intros i T.
    apply andb_prop in T. destruct T as [T1 T2].
    assert (Hi : (i >? 0) = true) by lia.
    rewrite Hi, T1.
    split; [vm_compute; reflexivity|]. split; [lia|exact Ey].
Qed.

Lemma updateRTC_day_outside_year_witness :
  let g := Rtc.mkGlobals Clock.init (Rtc.mkRegisters 0 0 0 0 17 9 0 0)
             0 ""%string in
  Rtc.month (Rtc.rtc (fst (Rtc.updateRTC 0 g))) = 9
  /\ Rtc.date (Rtc.rtc (fst (Rtc.updateRTC 0 g))) = 17.
Proof.
  intros g.
  assert (H : day_of_year
                (Clock.lastFrameBuffer (Rtc.decoder (fst (Rtc.updateRTC 0 g))))
              = 0) by (vm_compute; reflexivity).
  exact (proj1 (updateRTC_day_outside_year 0 g) H).
Defined.

(** ** The texts of the display *)

Lemma length_append s1 s2 :
  String.length (String.append s1 s2)
  = (String.length s1 + String.length s2)%nat.
Proof. induction s1 as [|c s1 IH]; cbn; [reflexivity|now rewrite IH]. Qed.

(** [%0.2i] of a number of at most two digits is two characters wide. *)
Lemma fmt_i_2_table :
  forallb (fun n => Nat.eqb (String.length (Rtc.fmt_i 2 (Z.of_nat n))) 2)
          (seq 0 100) = true.
Proof. vm_compute. reflexivity. Qed.

Lemma fmt_i_2_length x :
  0 <= x <= 99 -> String.length (Rtc.fmt_i 2 x) = 2%nat.
Proof.
  intros Hx. pose proof fmt_i_2_table as T. rewrite forallb_forall in T.
  specialize (T (Z.to_nat x)). rewrite Z2Nat.id in T by lia.
  apply Nat.eqb_eq, T, in_seq. lia.
Qed.

Lemma fmt_i_1_table :
  forallb (fun n => Nat.leb (String.length (Rtc.fmt_i 1 (Z.of_nat n))) 2)
          (seq 0 100) = true.
Proof. vm_compute. reflexivity. Qed.

Lemma fmt_i_1_length x :
  0 <= x <= 99 -> (String.length (Rtc.fmt_i 1 x) <= 2)%nat.
Proof.
  intros Hx. pose proof fmt_i_1_table as T. rewrite forallb_forall in T.
  specialize (T (Z.to_nat x)). rewrite Z2Nat.id in T by lia.
  apply Nat.leb_le, T, in_seq. lia.
Qed.

Lemma bcd2dec_range x : is_bcd x -> 0 <= Rtc.bcd2dec x <= 99.
Proof.
  unfold is_bcd. intros (Hx & Hh & Hl). rewrite bcd2dec_byte by lia. lia.
Qed.

Lemma text_of_length r :
  is_bcd (Rtc.hour r) -> is_bcd (Rtc.minute r) -> is_bcd (Rtc.month r) ->
  is_bcd (Rtc.date r) -> is_bcd (Rtc.year r) ->
  String.length (text_of r) = 14%nat.
Proof.
  intros H1 H2 H3 H4 H5. unfold text_of.
  apply bcd2dec_range in H1, H2, H3, H4, H5.
  generalize dependent (Rtc.bcd2dec (Rtc.hour r)).
  generalize dependent (Rtc.bcd2dec (Rtc.minute r)).
  generalize dependent (Rtc.bcd2dec (Rtc.month r)).
  generalize dependent (Rtc.bcd2dec (Rtc.date r)).
  generalize dependent (Rtc.bcd2dec (Rtc.year r)).
  intros y Hy d Hd m Hm mi Hmi h Hh.
  cbn [String.concat]. rewrite !length_append.
  rewrite !fmt_i_2_length by assumption. reflexivity.
Qed.

Lemma pair_is_bcd a c :
  0 <= a <= 9 -> 0 <= c <= 9 -> is_bcd (16 * a + c).
Proof. unfold is_bcd. lia. Qed.

(** X8.  After [updateRTC()] on a valid held frame, the text kept for the
    display, hour, minute, month, day and year of the frame one minute on,
    is fourteen characters long: with the brackets the display puts around
    it, the sixteen of a row. *)
Theorem updateRTC_text (now : Z) (g : Rtc.globals) :
  valid_frame (Clock.lastFrameBuffer (Rtc.decoder g)) = true ->
  let g' := fst (Rtc.updateRTC now g) in
  String.length (Rtc.lastTimeUpdate g') = 14%nat
  /\ Rtc.lastTimeUpdate g'
     = String.concat ""%string
         [ Rtc.fmt_i 2 (hour_of (Clock.lastFrameBuffer (Rtc.decoder g')));
           ":"%string;
           Rtc.fmt_i 2 (minute_of (Clock.lastFrameBuffer (Rtc.decoder g')));
           " "%string;
           Rtc.fmt_i 2 (Rtc.bcd2dec (Rtc.month (Rtc.rtc g'))); "/"%string;
           Rtc.fmt_i 2 (Rtc.bcd2dec (Rtc.date (Rtc.rtc g'))); "/"%string;
           Rtc.fmt_i 2 (year_of (Clock.lastFrameBuffer (Rtc.decoder g'))) ].
Proof.
  intros Hv. cbv zeta.
  destruct (updateRTC_fst now g) as (Eb & Er & Et & _).
  rewrite Et, Eb, Er. clear Eb Er Et.
  apply increment_minute_valid in Hv. revert Hv.
  unfold Clock.incrementWwvbMinute.
  generalize
    (increment_minute Clock.wwvbBuffer (Clock.lastFrameBuffer (Rtc.decoder g))).
  intros b Hv.
  generalize (Rtc.secondsSinceFrame now (Clock.frameEndTime (Rtc.decoder g))).
  intros secs.
  destruct (registers_of_fields secs b (Rtc.rtc g))
    as (_ & E2 & E3 & _ & E5 & _).
  destruct (registers_of_date secs b (Rtc.rtc g)) as [Ed Em].
  cbv zeta in Ed, Em.
  pose proof (valid_frame_spec b) as V. apply V in Hv. clear V.
  pose proof (leap_flag_range b) as Hl.
  assert (Hd : 1 <= day_of_year b <= 365 + frame_get Leapyear b) by tauto.
  pose proof (month_loop_day (frame_get Leapyear b) (day_of_year b) Hl Hd)
    as M.
  cbv zeta in M. destruct M as (Hi & _ & _ & _ & _ & Bm & Bd).
  rewrite Hi in Ed, Em. rewrite <- Em in Bm. rewrite <- Ed in Bd.
  nonneg_fields b.
  split.
  - apply text_of_length; try assumption.
    + rewrite E3. apply pair_is_bcd; lia.
    + rewrite E2. apply pair_is_bcd; lia.
    + rewrite E5. apply pair_is_bcd; lia.
  - unfold text_of. rewrite E2, E3, E5.
    unfold hour_of, minute_of, year_of.
    rewrite !bcd2dec_pair by apply frame_get_bound. reflexivity.
Qed.

Lemma updateRTC_text_witness :
  let g := Rtc.mkGlobals (Clock.set_lastFrameBuffer (held frame_2357) Clock.init)
             (Rtc.rtc Rtc.init) 0 ""%string in
  String.length (Rtc.lastTimeUpdate (fst (Rtc.updateRTC 0 g))) = 14%nat.
Proof.
  intros g.
  assert (H : valid_frame (Clock.lastFrameBuffer (Rtc.decoder g)) = true)
    by (vm_compute; reflexivity).
  exact (proj1 (updateRTC_text 0 g H)).
Defined.

Lemma months_table :
  forallb (fun n => Nat.eqb (String.length (nth n Rtc.months ""%string)) 3)
          (seq 0 12) = true.
Proof. vm_compute. reflexivity. Qed.

Lemma months_length i :
  0 <= i < 12 ->
  String.length (nth (Z.to_nat i) Rtc.months ""%string) = 3%nat.
Proof.
  intros Hi. pose proof months_table as T. rewrite forallb_forall in T.
  apply Nat.eqb_eq, T, in_seq. lia.
Qed.

Lemma buildTimeString_length g :
  is_bcd (Rtc.hour (Rtc.rtc g)) -> is_bcd (Rtc.minute (Rtc.rtc g)) ->
  is_bcd (Rtc.second (Rtc.rtc g)) ->
  exists text,
    Rtc.buildTimeString g = Rtc.dead text /\ String.length text = 16%nat.
Proof.
  intros H1 H2 H3. unfold Rtc.buildTimeString, Rtc.fmt_c.
  apply bcd2dec_range in H1, H2, H3.
  eexists. split; [reflexivity|].
  cbn [String.concat]. rewrite !length_append.
  rewrite !fmt_i_2_length by assumption. reflexivity.
Qed.

(** X9.  With a time of day and a date in the registers, a count of
    frame errors from 0 to 10 and a text of the last update of at most
    fourteen characters, the text [buildTimeString()] formats for the
    first row is exactly sixteen characters, a row of the display and well
    within its local [rv]; but what it returns is the address of [rv],
    which is gone when [updateDisplay()] prints through it, so the code
    does not define what the first row shows.  The second row is a text of
    at most sixteen characters: it fits a row of the display, and it fits
    [msg], seventeen bytes with the closing zero. *)
Theorem updateDisplay_fits (rv0 : Z) (g : Rtc.globals) :
  calendar (Rtc.rtc g) ->
  0 <= Clock.sumFrameErrors rv0 (Rtc.decoder g) <= 10 ->
  (String.length (Rtc.lastTimeUpdate g) <= 14)%nat ->
  (exists text,
     Rtc.buildTimeString g = Rtc.dead text
     /\ String.length text = 16%nat)
  /\ fst (Rtc.updateDisplay rv0 g) = None
  /\ exists msg,
       snd (Rtc.updateDisplay rv0 g) = Some msg
       /\ (String.length msg <= 16)%nat.
Proof.
  intros (Bs & Hs & Bmi & Bh & Bd & Bmo & Hmo & By) Hsum Htxt.
  split; [now apply buildTimeString_length|].
  unfold Rtc.updateDisplay. cbv zeta. cbn [fst snd].
  split; [reflexivity|].
  generalize dependent (Clock.sumFrameErrors rv0 (Rtc.decoder g)).
  intros sum Hsum.
  apply bcd2dec_range in Bs, Bd, By.
  remember (Rtc.bcd2dec (Rtc.second (Rtc.rtc g))) as c eqn:Ec. clear Ec.
  remember (Rtc.bcd2dec (Rtc.month (Rtc.rtc g))) as m eqn:Em. clear Em.
  remember (Rtc.bcd2dec (Rtc.date (Rtc.rtc g))) as d eqn:Ed. clear Ed.
  remember (Rtc.bcd2dec (Rtc.year (Rtc.rtc g))) as y eqn:Ey. clear Ey.
  rewrite Z.quot_div_nonneg by lia.
  rewrite (int_wrap_small (c / 10)) by (change (2 ^ 15) with 32768; lia).
  assert (Hq : 0 <= c / 10 <= 5) by lia.
  generalize dependent (c / 10). intros q Hq.
  destruct (Z.eqb_spec q 0) as [E0|N0].
  { rewrite int_wrap_small by (change (2 ^ 15) with 32768; lia).
    assert (L : (0 <=? m - 1) && (m - 1 <? 12) = true) by lia.
    rewrite L. eexists. split; [reflexivity|].
    cbn [String.concat]. rewrite !length_append.
    rewrite months_length by lia.
    rewrite !fmt_i_2_length by assumption. cbn. lia. }
  destruct (Z.eqb_spec q 1) as [E1|N1].
  { eexists. split; [reflexivity|].
    rewrite length_append.
    rewrite (int_wrap_small (10 - sum)) by (change (2 ^ 15) with 32768; lia).
    rewrite Z.quot_div_nonneg by lia.
    rewrite int_wrap_small by (change (2 ^ 15) with 32768; lia).
    assert (F : (String.length (Rtc.fmt_i 1 ((10 - sum) / 2)) <= 2)%nat)
      by (apply fmt_i_1_length; lia).
    cbn [String.length]. lia. }
  destruct (Z.eqb_spec q 2) as [E2|N2].
  { eexists. split; [reflexivity|].
    destruct (Rtc.byte (Rtc.wwvbFrame Leapyear g) =? 1);
      destruct (Rtc.byte (Rtc.wwvbFrame Leapsec g) =? 1); cbn; lia. }
  destruct (Z.eqb_spec q 3) as [E3|N3].
  { unfold Rtc.wwvbFrame. fold frame_get. rewrite frame_get_byte.
    pose proof (frame_get_range Dst
                  (Clock.lastFrameBuffer (Rtc.decoder g))) as R.
    change (2 ^ width Clock.wwvbBuffer Dst) with 4 in R.
    generalize dependent
      (frame_get Dst (Clock.lastFrameBuffer (Rtc.decoder g))).
    intros v R.
    destruct (Z.eqb_spec v 0); [eexists; split; [reflexivity|cbn; lia]|].
    destruct (Z.eqb_spec v 1); [eexists; split; [reflexivity|cbn; lia]|].
    destruct (Z.eqb_spec v 2); [eexists; split; [reflexivity|cbn; lia]|].
    destruct (Z.eqb_spec v 3); [eexists; split; [reflexivity|cbn; lia]|].
    lia. }
  destruct (Z.eqb_spec q 4) as [E4|N4].
  { eexists. split; [reflexivity|].
    unfold Rtc.wwvbFrame. fold frame_get. rewrite !frame_get_byte.
    pose proof (frame_get_bound OffVal
                  (Clock.lastFrameBuffer (Rtc.decoder g))) as R.
    assert (F : (String.length
                   (Rtc.fmt_i 1 (frame_get OffVal
                      (Clock.lastFrameBuffer (Rtc.decoder g)))) <= 2)%nat)
      by (apply fmt_i_1_length; lia).
    cbn [String.concat]. rewrite !length_append. unfold Rtc.fmt_c.
    cbn [String.length]. lia. }
  destruct (Z.eqb_spec q 5) as [E5|N5].
  { eexists. split; [reflexivity|].
    cbn [String.concat]. rewrite !length_append. cbn [String.length]. lia. }
  lia.
Qed.

Lemma updateDisplay_fits_witness :
  fst (Rtc.updateDisplay 0 Rtc.init) = None
  /\ exists msg,
       snd (Rtc.updateDisplay 0 Rtc.init) = Some msg
       /\ (String.length msg <= 16)%nat.
Proof.
  apply (updateDisplay_fits 0 Rtc.init).
  - unfold calendar, is_bcd. vm_compute.
    repeat apply conj; congruence.
  - vm_compute. split; congruence.
  - vm_compute. lia.
Defined.

(** X10.  When the seconds register does not read below 60 -- as when the
    clock chip is halted, which sets the top bit of that register --
    [updateDisplay()] prepares no second row: [msg] is printed as it was
    found. *)
Theorem updateDisplay_no_message (rv0 : Z) (g : Rtc.globals) :
  0 <= Rtc.second (Rtc.rtc g) < 256 ->
  60 <= Rtc.bcd2dec (Rtc.second (Rtc.rtc g)) ->
  snd (Rtc.updateDisplay rv0 g) = None.
Proof.
  intros Hb Hs. unfold Rtc.updateDisplay. cbv zeta. cbn [snd].
  assert (Hu : Rtc.bcd2dec (Rtc.second (Rtc.rtc g)) <= 165)
    by (rewrite bcd2dec_byte by lia; lia).
  remember (Rtc.bcd2dec (Rtc.second (Rtc.rtc g))) as c eqn:Ec. clear Ec.
  rewrite Z.quot_div_nonneg by lia.
  rewrite (int_wrap_small (c / 10)) by (change (2 ^ 15) with 32768; lia).
  assert (Hq : 6 <= c / 10) by lia.
  generalize dependent (c / 10). intros q Hq.
  destruct (Z.eqb_spec q 0); [lia|]. destruct (Z.eqb_spec q 1); [lia|].
  destruct (Z.eqb_spec q 2); [lia|]. destruct (Z.eqb_spec q 3); [lia|].
  destruct (Z.eqb_spec q 4); [lia|]. destruct (Z.eqb_spec q 5); [lia|].
  reflexivity.
Qed.

Lemma updateDisplay_no_message_witness :
  snd (Rtc.updateDisplay 0
         (Rtc.mkGlobals Clock.init (Rtc.mkRegisters 128 0 0 0 1 1 0 0)
            0 ""%string)) = None.
Proof.
  apply updateDisplay_no_message.
  - cbn. lia.
  - vm_compute. congruence.
Defined.

(** ** The debug trace *)

(** X11.  The line [debugPrintFrame()] prints shows the hour, the minute
    and the year of the held frame, and its day of the year cut down to a
    byte: from day 256 on the day printed is 256 short. *)
Theorem debugPrintFrame_day (g : Rtc.globals) :
  let b := Clock.lastFrameBuffer (Rtc.decoder g) in
  Rtc.debugPrintFrame g
  = String.concat ""%string
      [ String.String "010"%char "Frame Decoded: "%string;
        Rtc.fmt_i 2 (hour_of b); ":"%string; Rtc.fmt_i 2 (minute_of b);
        "  "%string;
        Rtc.fmt_i 3 (if day_of_year b <? 256 then day_of_year b
                     else day_of_year b - 256);
        "  20"%string; Rtc.fmt_i 2 (year_of b);
        String.String "010"%char ""%string ].
Proof.
  cbv zeta. unfold Rtc.debugPrintFrame, Rtc.wwvbFrame. fold frame_get.
  generalize (Clock.lastFrameBuffer (Rtc.decoder g)). intros b. cbv zeta.
  rewrite !frame_get_byte.
  pose proof (frame_get_bound MinTen b). pose proof (frame_get_bound MinOne b).
  pose proof (frame_get_bound HourTen b).
  pose proof (frame_get_bound HourOne b).
  pose proof (frame_get_bound YearTen b).
  pose proof (frame_get_bound YearOne b).
  pose proof (frame_get_bound DayTen b). pose proof (frame_get_bound DayOne b).
  pose proof (day_hundreds_bound b).
  rewrite !int_wrap_small by (change (2 ^ 15) with 32768; lia).
  fold (minute_of b). fold (hour_of b). fold (year_of b). fold (day_of_year b).
  assert (Hh : Rtc.byte (hour_of b) = hour_of b)
    by (apply byte_small; unfold hour_of; lia).
  assert (Hm : Rtc.byte (minute_of b) = minute_of b)
    by (apply byte_small; unfold minute_of; lia).
  assert (Hy : Rtc.byte (year_of b) = year_of b)
    by (apply byte_small; unfold year_of; lia).
  assert (Hd : Rtc.byte (day_of_year b)
               = if day_of_year b <? 256 then day_of_year b
                 else day_of_year b - 256).
  { unfold Rtc.byte. change (2 ^ 8) with 256. unfold day_of_year.
    destruct (Z.ltb_spec (100 * frame_get DayHun b + 10 * frame_get DayTen b
                          + frame_get DayOne b) 256); lia. }
  rewrite Hh, Hm, Hy, Hd. reflexivity.
Qed.

(** ** The main loop *)

Lemma getRTC_keeps rx g :
  Rtc.decoder (fst (Rtc.getRTC rx g)) = Rtc.decoder g
  /\ Rtc.lastRtcUpdateTime (fst (Rtc.getRTC rx g)) = Rtc.lastRtcUpdateTime g
  /\ Rtc.lastTimeUpdate (fst (Rtc.getRTC rx g)) = Rtc.lastTimeUpdate g
  /\ snd (Rtc.getRTC rx g) = [Rtc.RTC_SECS].
Proof.
  unfold Rtc.getRTC. cbv zeta.
  repeat match goal with
    | |- context [Rtc.Wire_read ?l] => destruct (Rtc.Wire_read l)
    end.
  repeat apply conj; reflexivity.
Qed.

(** A pass of [loop()] with no pulse to take in and no frame received:
    the clock chip is asked for its registers when the display is due,
    and nothing is written to them. *)
Lemma loop_quiet now now' now'' rx rv0 g :
  Clock.bitReceived (Rtc.decoder g) = false ->
  Clock.frameEndTime (Rtc.decoder g) = 0 ->
  Rtc.sent (snd (Rtc.loop now now' now'' rx rv0 g))
  = (if wrap32 (now - Rtc.lastRtcUpdateTime g) >? 250
     then [[Rtc.RTC_SECS]] else [])
  /\ Rtc.decoder (fst (Rtc.loop now now' now'' rx rv0 g)) = Rtc.decoder g.
Proof.
  intros Hb Hf. unfold Rtc.loop, Clock.loop. rewrite Hb.
  cbn [Rtc.decoder Rtc.rtc Rtc.lastRtcUpdateTime Rtc.lastTimeUpdate].
  destruct (wrap32 (now - Rtc.lastRtcUpdateTime g) >? 250).
  - destruct (getRTC_keeps rx
                (Rtc.mkGlobals (Rtc.decoder g) (Rtc.rtc g)
                   (Rtc.lastRtcUpdateTime g) (Rtc.lastTimeUpdate g)))
      as (E & _ & _ & E4).
    destruct (Rtc.getRTC rx
                (Rtc.mkGlobals (Rtc.decoder g) (Rtc.rtc g)
                   (Rtc.lastRtcUpdateTime g) (Rtc.lastTimeUpdate g)))
      as [g1 asked].
    cbn [Rtc.decoder fst snd] in E, E4. subst asked.
    cbn [Rtc.decoder]. rewrite E, Hf.
    cbn [Z.eqb negb fst snd Rtc.sent Rtc.decoder]. split; reflexivity.
  - split; reflexivity.
Qed.

(** A pass of [loop()] that finds a frame received, the display being
    due. *)
Lemma loop_due now now' now'' rx rv0 g :
  Clock.bitReceived (Rtc.decoder g) = false ->
  Clock.frameEndTime (Rtc.decoder g) <> 0 ->
  250 < wrap32 (now - Rtc.lastRtcUpdateTime g) ->
  let read :=
    Rtc.mkGlobals (Rtc.decoder g) (Rtc.rtc (fst (Rtc.getRTC rx g))) now'
      (Rtc.lastTimeUpdate g) in
  Rtc.sent (snd (Rtc.loop now now' now'' rx rv0 g))
  = [[Rtc.RTC_SECS]; snd (Rtc.updateRTC now'' read)]
  /\ Rtc.decoder (fst (Rtc.loop now now' now'' rx rv0 g))
     = Clock.set_frameEndTime 0 (Rtc.decoder (fst (Rtc.updateRTC now'' read)))
  /\ Rtc.rtc (fst (Rtc.loop now now' now'' rx rv0 g))
     = Rtc.rtc (fst (Rtc.updateRTC now'' read)).
Proof.
  intros Hb Hf Hd. cbv zeta. unfold Rtc.loop, Clock.loop. rewrite Hb.
  cbn [Rtc.decoder Rtc.rtc Rtc.lastRtcUpdateTime Rtc.lastTimeUpdate].
  assert (Hd' : (wrap32 (now - Rtc.lastRtcUpdateTime g) >? 250) = true)
    by lia.
  rewrite Hd'.
  assert (G : Rtc.getRTC rx
                (Rtc.mkGlobals (Rtc.decoder g) (Rtc.rtc g)
                   (Rtc.lastRtcUpdateTime g) (Rtc.lastTimeUpdate g))
              = Rtc.getRTC rx g) by (destruct g; reflexivity).
  rewrite G.
  destruct (getRTC_keeps rx g) as (E1 & E2 & E3 & E4).
  destruct (Rtc.getRTC rx g) as [g1 asked].
  cbn [fst snd] in E1, E2, E3, E4. subst asked.
  cbn [fst]. rewrite E1, E3.
  assert (Hf' : negb (Clock.frameEndTime (Rtc.decoder g) =? 0) = true)
    by (destruct (Z.eqb_spec (Clock.frameEndTime (Rtc.decoder g)) 0);
        [contradiction|reflexivity]).
  rewrite Hf'.
  destruct (Rtc.updateRTC now''
              (Rtc.mkGlobals (Rtc.decoder g) (Rtc.rtc g1) now'
                 (Rtc.lastTimeUpdate g))) as [g2 tx].
  cbn [fst snd Rtc.sent Rtc.decoder Rtc.rtc]. repeat apply conj; reflexivity.
Qed.

Lemma updateRTC_decoder now g :
  Rtc.decoder (fst (Rtc.updateRTC now g))
  = Clock.set_lastFrameBuffer
      (Clock.incrementWwvbMinute (Clock.lastFrameBuffer (Rtc.decoder g)))
      (Rtc.decoder g).
Proof. rewrite updateRTC_eq. reflexivity. Qed.

(** One pass of [loop()], seen from the decoder: the decoder's step
    [Clock.loop], followed, when the refresh of the display is due, by
    [Clock.loop_update]. *)
Lemma loop_decoder now now' now'' rx rv0 g :
  Rtc.decoder (fst (Rtc.loop now now' now'' rx rv0 g))
  = if wrap32 (now - Rtc.lastRtcUpdateTime g) >? 250
    then Clock.loop_update (Clock.loop (Rtc.decoder g))
    else Clock.loop (Rtc.decoder g).
Proof.
  unfold Rtc.loop.
  cbn [Rtc.decoder Rtc.rtc Rtc.lastRtcUpdateTime Rtc.lastTimeUpdate].
  generalize (Clock.loop (Rtc.decoder g)). intros d.
  destruct (wrap32 (now - Rtc.lastRtcUpdateTime g) >? 250); [|reflexivity].
  destruct (getRTC_keeps rx
              (Rtc.mkGlobals d (Rtc.rtc g) (Rtc.lastRtcUpdateTime g)
                 (Rtc.lastTimeUpdate g))) as (E1 & _ & E3 & _).
  destruct (Rtc.getRTC rx
              (Rtc.mkGlobals d (Rtc.rtc g) (Rtc.lastRtcUpdateTime g)
                 (Rtc.lastTimeUpdate g))) as [g1 asked].
  cbn [fst Rtc.decoder Rtc.lastTimeUpdate] in E1, E3.
  cbn [Rtc.decoder]. rewrite E1. unfold Clock.loop_update.
  destruct (negb (Clock.frameEndTime d =? 0)); [|reflexivity].
  pose proof (updateRTC_decoder now''
                (Rtc.mkGlobals d (Rtc.rtc g1) now' (Rtc.lastTimeUpdate g1)))
    as U.
  destruct (Rtc.updateRTC now''
              (Rtc.mkGlobals d (Rtc.rtc g1) now' (Rtc.lastTimeUpdate g1)))
    as [g2 tx].
  cbn [fst Rtc.decoder] in U |- *. rewrite U. reflexivity.
Qed.

(** X12.  A received frame is written to the clock chip once.  A pass of
    [loop()] that finds a frame received, with the display due for a
    refresh, asks the clock chip for its registers, then writes the
    registers to it, leaves the held frame one minute on and clears
    [frameEndTime]; a pass after it, at any time, writes no register --
    all it sends, when the display is due again, is the register number
    [getRTC()] asks with -- and leaves the held frame as it is, as long as
    no pulse has come in. *)
Theorem loop_sets_clock_once
  (now now' now'' t t' t'' rv0 rv1 : Z) (rx rx' : list Z) (g : Rtc.globals) :
  Clock.bitReceived (Rtc.decoder g) = false ->
  Clock.frameEndTime (Rtc.decoder g) <> 0 ->
  250 < wrap32 (now - Rtc.lastRtcUpdateTime g) ->
  let p1 := Rtc.loop now now' now'' rx rv0 g in
  let p2 := Rtc.loop t t' t'' rx' rv1 (fst p1) in
  let r := Rtc.rtc (fst p1) in
  Rtc.sent (snd p1)
  = [ [Rtc.RTC_SECS];
      [ Rtc.RTC_SECS; Rtc.second r; Rtc.minute r; Rtc.hour r; Rtc.day r;
        Rtc.date r; Rtc.month r; Rtc.year r; Rtc.ctrl r ] ]
  /\ Rtc.decoder (fst p1) = Clock.loop_update (Rtc.decoder g)
  /\ Clock.lastFrameBuffer (Rtc.decoder (fst p1))
     = Clock.incrementWwvbMinute (Clock.lastFrameBuffer (Rtc.decoder g))
  /\ Clock.frameEndTime (Rtc.decoder (fst p1)) = 0
  /\ Rtc.sent (snd p2)
     = (if wrap32 (t - Rtc.lastRtcUpdateTime (fst p1)) >? 250
        then [[Rtc.RTC_SECS]] else [])
  /\ Rtc.decoder (fst p2) = Rtc.decoder (fst p1).
Proof.
  intros Hb Hf Hd. cbv zeta.
  destruct (loop_due now now' now'' rx rv0 g Hb Hf Hd) as (E1 & E2 & E3).
  cbv zeta in E1, E2, E3.
  rewrite updateRTC_decoder in E2. cbn [Rtc.decoder] in E2.
  assert (Es : snd (Rtc.updateRTC now''
                 (Rtc.mkGlobals (Rtc.decoder g)
                    (Rtc.rtc (fst (Rtc.getRTC rx g)))
                    now' (Rtc.lastTimeUpdate g)))
               = (let r := Rtc.rtc (fst (Rtc.loop now now' now'' rx rv0 g)) in
                  [ Rtc.RTC_SECS; Rtc.second r; Rtc.minute r; Rtc.hour r;
                    Rtc.day r; Rtc.date r; Rtc.month r; Rtc.year r;
                    Rtc.ctrl r ])).
  { rewrite E3. rewrite updateRTC_eq. reflexivity. }
  rewrite Es in E1. cbv zeta in E1.
  assert (L : Rtc.decoder (fst (Rtc.loop now now' now'' rx rv0 g))
              = Clock.loop_update (Rtc.decoder g)).
  { rewrite E2. unfold Clock.loop_update.
    destruct (Z.eqb_spec (Clock.frameEndTime (Rtc.decoder g)) 0);
      [contradiction|reflexivity]. }
  assert (B : Clock.bitReceived
                (Rtc.decoder (fst (Rtc.loop now now' now'' rx rv0 g))) = false)
    by (rewrite E2; destruct (Rtc.decoder g); exact Hb).
  assert (F : Clock.frameEndTime
                (Rtc.decoder (fst (Rtc.loop now now' now'' rx rv0 g))) = 0)
    by (rewrite E2; destruct (Rtc.decoder g); reflexivity).
  destruct (loop_quiet t t' t'' rx' rv1 _ B F) as [Q1 Q2].
  repeat apply conj; try assumption.
  rewrite E2. destruct (Rtc.decoder g); reflexivity.
Qed.

Lemma loop_sets_clock_once_witness :
  let g := Rtc.mkGlobals
             (Clock.set_frameEndTime 60000
                (Clock.set_lastFrameBuffer (held frame_2357) Clock.init))
             (Rtc.rtc Rtc.init) 60750 ""%string in
  Clock.frameEndTime
    (Rtc.decoder (fst (Rtc.loop 61050 61051 61052 [] 0 g))) = 0.
Proof.
  intros g.
  assert (H1 : Clock.bitReceived (Rtc.decoder g) = false) by reflexivity.
  assert (H2 : Clock.frameEndTime (Rtc.decoder g) <> 0)
    by (cbn; discriminate).
  assert (H3 : 250 < wrap32 (61050 - Rtc.lastRtcUpdateTime g))
    by (vm_compute; reflexivity).
  pose proof (loop_sets_clock_once 61050 61051 61052 0 0 0 0 0 [] [] g
                H1 H2 H3) as H.
  cbv zeta in H. exact (proj1 (proj2 (proj2 (proj2 H)))).
Defined.

(** ** The two structs, one bit apart *)

Lemma received_bit e k :
  0 <= k -> Z.testbit (received e) k = (5 <=? k) && Z.testbit e (k - 1).
Proof.
  intros Hk. unfold received. rewrite Z.shiftl_spec by lia.
  destruct (Z.leb_spec 5 k).
  - rewrite Z.shiftr_spec by lia. cbn [andb]. f_equal. lia.
  - now rewrite Z.testbit_neg_r by lia.
Qed.

Lemma set_bits_up off w x v :
  4 <= off -> 0 <= w ->
  set_bits (off + 1, w) (received x) v = received (set_bits (off, w) x v).
Proof.
  intros Ho Hw. apply Z.bits_inj'; intros k Hk.
  rewrite received_bit by lia.
  rewrite set_bits_spec by lia.
  destruct (Z.leb_spec 5 k) as [H5|H5]; cbn [andb].
  - rewrite set_bits_spec by lia. rewrite received_bit by lia.
    replace (5 <=? k) with true by (symmetry; apply Z.leb_le; lia).
    cbn [andb].
    replace (off + 1 <=? k) with (off <=? k - 1) by lia.
    replace (k <? off + 1 + w) with (k - 1 <? off + w) by lia.
    replace (k - (off + 1)) with (k - 1 - off) by lia. reflexivity.
  - replace (off + 1 <=? k) with false by lia. cbn [andb].
    rewrite received_bit by lia.
    replace (5 <=? k) with false by lia. reflexivity.
Qed.

Lemma clock_field_up f :
  clock_field f = true \/ f = Leapyear ->
  locate Clock.wwvbBuffer f 0
  = (fst (locate Simulator.wwvbBuffer f 0) + 1,
     snd (locate Simulator.wwvbBuffer f 0))
  /\ 4 <= fst (locate Simulator.wwvbBuffer f 0)
  /\ 0 <= snd (locate Simulator.wwvbBuffer f 0).
Proof.
  intros [H| ->]; [destruct f; try discriminate H|];
    vm_compute; repeat apply conj; congruence.
Qed.

Lemma get_up f e :
  clock_field f = true \/ f = Leapyear ->
  get Clock.wwvbBuffer f (received e) = get Simulator.wwvbBuffer f e.
Proof.
  intros Hf. destruct (clock_field_up f Hf) as (Hl & Ho & _).
  apply (held_field f e Hl Ho).
Qed.

Lemma assign_up f v e :
  clock_field f = true ->
  assign Clock.wwvbBuffer f v (received e)
  = received (assign Simulator.wwvbBuffer f v e).
Proof.
  intros Hf. destruct (clock_field_up f (or_introl Hf)) as (Hl & Ho & Hw).
  unfold assign. rewrite Hl.
  destruct (locate Simulator.wwvbBuffer f 0) as [off w]. cbn [fst snd] in *.
  now apply set_bits_up.
Qed.

Ltac up :=
  repeat first
    [ rewrite get_up by (left; reflexivity)
    | rewrite (get_up Leapyear) by (right; reflexivity)
    | rewrite assign_up by reflexivity ].

Ltac carry_up fn :=
  intros; unfold fn, incr; cbv zeta; up;
  repeat match goal with
    | |- context [if ?c then _ else _] => destruct c
    end;
  up; reflexivity.

Lemma carry_MinOne_up e :
  carry_MinOne Clock.wwvbBuffer (received e)
  = received (carry_MinOne Simulator.wwvbBuffer e).
Proof. carry_up carry_MinOne. Qed.

Lemma carry_MinTen_up e :
  carry_MinTen Clock.wwvbBuffer (received e)
  = received (carry_MinTen Simulator.wwvbBuffer e).
Proof. carry_up carry_MinTen. Qed.

Lemma carry_HourOne_up e :
  carry_HourOne Clock.wwvbBuffer (received e)
  = received (carry_HourOne Simulator.wwvbBuffer e).
Proof. carry_up carry_HourOne. Qed.

Lemma carry_Hour24_up e :
  carry_Hour24 Clock.wwvbBuffer (received e)
  = received (carry_Hour24 Simulator.wwvbBuffer e).
Proof. carry_up carry_Hour24. Qed.

Lemma carry_DayOne_up e :
  carry_DayOne Clock.wwvbBuffer (received e)
  = received (carry_DayOne Simulator.wwvbBuffer e).
Proof. carry_up carry_DayOne. Qed.

Lemma carry_DayTen_up e :
  carry_DayTen Clock.wwvbBuffer (received e)
  = received (carry_DayTen Simulator.wwvbBuffer e).
Proof. carry_up carry_DayTen. Qed.

Lemma carry_NewYear_up e :
  carry_NewYear Clock.wwvbBuffer (received e)
  = received (carry_NewYear Simulator.wwvbBuffer e).
Proof. carry_up carry_NewYear. Qed.

Lemma carry_YearOne_up e :
  carry_YearOne Clock.wwvbBuffer (received e)
  = received (carry_YearOne Simulator.wwvbBuffer e).
Proof. carry_up carry_YearOne. Qed.

Lemma carry_YearTen_up e :
  carry_YearTen Clock.wwvbBuffer (received e)
  = received (carry_YearTen Simulator.wwvbBuffer e).
Proof. carry_up carry_YearTen. Qed.

Lemma increment_up e :
  increment_minute Clock.wwvbBuffer (received e)
  = received (increment_minute Simulator.wwvbBuffer e).
Proof.
  unfold increment_minute.
  now rewrite carry_MinOne_up, carry_MinTen_up, carry_HourOne_up,
    carry_Hour24_up, carry_DayOne_up, carry_DayTen_up, carry_NewYear_up,
    carry_YearOne_up, carry_YearTen_up.
Qed.

(** X13.  The clock and the simulator advance alike.  The minute the
    clock adds to the frame it holds makes of the frame it took in the
    very frame the simulator sends next. *)
Theorem advance_predicts_next_frame (e : Z) :
  Clock.incrementWwvbMinute (received e)
  = received (snd (Simulator.loop e)).
Proof. apply increment_up. Qed.

(** ** The simulator left running *)

(** The minute the simulator adds touches none of the bits that are not
    sent as data. *)
Lemma assign_keeps_bit f v x k :
  clock_field f = true -> 0 <= k ->
  k < 4 \/ 63 <= k \/ (64 - k) mod 10 = 0 ->
  Z.testbit (assign Simulator.wwvbBuffer f v x) k = Z.testbit x k.
Proof.
  intros Hf Hk Hq. unfold assign.
  assert (O : ~ (fst (locate Simulator.wwvbBuffer f 0) <= k
                 < fst (locate Simulator.wwvbBuffer f 0)
                   + snd (locate Simulator.wwvbBuffer f 0))).
  { destruct f; try discriminate Hf; located; lia. }
  destruct (locate_ok _ simulator_layout_ok f) as [Ho Hw].
  destruct (locate Simulator.wwvbBuffer f 0) as [off w]. cbn [fst snd] in *.
  rewrite set_bits_spec by lia.
  destruct (Z.leb_spec off k), (Z.ltb_spec k (off + w)); cbn [andb];
    try reflexivity.
  lia.
Qed.

Ltac keeps fn :=
  intros; unfold fn, incr; cbv zeta;
  repeat match goal with
    | |- context [if ?c then _ else _] => destruct c
    end;
  rewrite ?assign_keeps_bit by (reflexivity || assumption); reflexivity.

Lemma increment_keeps_bit e k :
  0 <= k -> k < 4 \/ 63 <= k \/ (64 - k) mod 10 = 0 ->
  Z.testbit (increment_minute Simulator.wwvbBuffer e) k = Z.testbit e k.
Proof.
  intros Hk Hq.
  assert (E1 : forall x, Z.testbit (carry_MinOne Simulator.wwvbBuffer x) k
                         = Z.testbit x k) by keeps carry_MinOne.
  assert (E2 : forall x, Z.testbit (carry_MinTen Simulator.wwvbBuffer x) k
                         = Z.testbit x k) by keeps carry_MinTen.
  assert (E3 : forall x, Z.testbit (carry_HourOne Simulator.wwvbBuffer x) k
                         = Z.testbit x k) by keeps carry_HourOne.
  assert (E4 : forall x, Z.testbit (carry_Hour24 Simulator.wwvbBuffer x) k
                         = Z.testbit x k) by keeps carry_Hour24.
  assert (E5 : forall x, Z.testbit (carry_DayOne Simulator.wwvbBuffer x) k
                         = Z.testbit x k) by keeps carry_DayOne.
  assert (E6 : forall x, Z.testbit (carry_DayTen Simulator.wwvbBuffer x) k
                         = Z.testbit x k) by keeps carry_DayTen.
  assert (E7 : forall x, Z.testbit (carry_NewYear Simulator.wwvbBuffer x) k
                         = Z.testbit x k) by keeps carry_NewYear.
  assert (E8 : forall x, Z.testbit (carry_YearOne Simulator.wwvbBuffer x) k
                         = Z.testbit x k) by keeps carry_YearOne.
  assert (E9 : forall x, Z.testbit (carry_YearTen Simulator.wwvbBuffer x) k
                         = Z.testbit x k) by keeps carry_YearTen.
  unfold increment_minute.
  now rewrite E9, E8, E7, E6, E5, E4, E3, E2, E1.
Qed.

Lemma loop_quiet_word e : quiet e -> quiet (snd (Simulator.loop e)).
Proof.
  intros Hq k Hk Hc. unfold Simulator.loop. cbn [snd].
  rewrite increment_keeps_bit by assumption. now apply Hq.
Qed.

Lemma run_step loop n e :
  run loop (S n) e
  = (fst (loop e) ++ fst (run loop n (snd (loop e))),
     snd (run loop n (snd (loop e)))).
Proof.
  cbn [run]. destruct (loop e) as [a b]. cbn [fst snd].
  destruct (run loop n b). reflexivity.
Qed.

Lemma simulator_word_step e n :
  simulator_word e (S n) = simulator_word (snd (Simulator.loop e)) n.
Proof. unfold simulator_word. rewrite run_step. reflexivity. Qed.

Lemma simulator_run_step e n :
  simulator_run e (S n)
  = Simulator.frame e ++ simulator_run (snd (Simulator.loop e)) n.
Proof. unfold simulator_run. rewrite run_step. reflexivity. Qed.

Lemma simulator_word_0 e : simulator_word e 0 = e.
Proof. reflexivity. Qed.

Lemma simulator_word_quiet n : forall e, quiet e -> quiet (simulator_word e n).
Proof.
  induction n as [|n IH]; intros e Hq;
    [rewrite simulator_word_0; exact Hq
    |rewrite simulator_word_step; apply IH, loop_quiet_word, Hq].
Qed.

Lemma simulator_word_S n : forall e,
  simulator_word e (S n) = snd (Simulator.loop (simulator_word e n)).
Proof.
  induction n as [|n IH]; intros e.
  - rewrite simulator_word_step. rewrite !simulator_word_0. reflexivity.
  - rewrite (simulator_word_step e (S n)).
    rewrite (IH (snd (Simulator.loop e))).
    rewrite (simulator_word_step e n). reflexivity.
Qed.

Lemma window_same s s' :
  Clock.errors s' = Clock.errors s -> Clock.errIdx s' = Clock.errIdx s ->
  window s' = window s.
Proof. intros E1 E2. unfold window. now rewrite E1, E2. Qed.

(** The window of outcomes after a step that logged [err]. *)
Lemma window_logged err s s' :
  0 <= Clock.errIdx s < 10 -> length (Clock.errors s) = 10%nat ->
  Clock.errors s' = Clock.store (Clock.errIdx s) (slot err) (Clock.errors s) ->
  Clock.errIdx s' = (Clock.errIdx s + 1) mod 10 ->
  window s' = tl (window s) ++ [slot err].
Proof.
  intros Hi Hl He Hx.
  rewrite <- (window_logFrameError err s Hi Hl).
  destruct (logFrameError_spec err s Hi) as [L1 L2].
  unfold window. now rewrite He, Hx, L1, L2.
Qed.

(** The opening marker of the next frame: the frame just received is taken
    and logged as a success, and the decoder stands at position 1 of the
    frame of [e']. *)
Lemma frame_boundary e e' s t :
  quiet e' -> synced e 60 s ->
  let s1 := Clock.pulse t 800 s in
  synced e' 1 s1
  /\ Clock.lastFrameBuffer s1 = received e
  /\ Clock.frameEndTime s1 = Clock.millis t
  /\ window s1 = tl (window s) ++ [0].
Proof.
  intros Hq' Hs. cbv zeta.
  pose proof Hs as ((Hbr & Hsane) & Hbp & Hfp & Hwm & Hbe & Hrb).
  change (60 mod 10 =? 0) with true in Hwm.
  destruct (frame_opening e' s t Hq' (conj Hbr Hsane) Hwm) as [O1 O2].
  cbv zeta in O1, O2. split; [exact O1|].
  rewrite pulse_timed in * by assumption.
  pose proof (sane_timed t 800 s Hsane) as Hst.
  destruct (timed_fields t 800 s)
    as (T1 & _ & T3 & T4 & T5 & T6 & T7 & T8 & T9 & T10 & T11 & T12).
  assert (Hb : boundary (timed t 800 s) = true).
  { unfold boundary. rewrite T4, pulseWidth_timed, Hwm. reflexivity. }
  assert (Hok : frame_accepted (timed t 800 s) = true).
  { unfold frame_accepted. rewrite T5, T6, T9, Hfp, Hbp, Hbe. reflexivity. }
  destruct (processBit_boundary (timed t 800 s) Hst Hb)
    as (E1 & E2 & E3 & E4 & E5 & E6 & E7 & E8 & E9 & E10 & E11 & _).
  rewrite Hok in *. cbn [negb] in E8.
  destruct Hsane as (_ & _ & _ & _ & Hei & Hlen).
  repeat apply conj.
  - rewrite E10, T11, Hrb. reflexivity.
  - rewrite E11, T1. reflexivity.
  - apply (window_logged false s); assumption.
Qed.

Lemma frame_head e :
  Simulator.frame e = (800, 200) :: Simulator.send_bits 59 (63 - 1) 1 e.
Proof.
  unfold Simulator.frame. rewrite send_bits_S.
  change (63 >=? 4) with true. change (0 =? 0) with true.
  cbn [orb negb]. change (1 =? 0) with false. cbn [negb]. cbv iota.
  unfold Simulator.sendMark at 1. change (0 + 1) with 1. reflexivity.
Qed.

(** One more frame, after a frame: the decoder takes the frame before,
    and stands at position 60 of this one. *)
Lemma frame_after_frame e e' s t :
  quiet e' -> synced e 60 s ->
  exists s',
    (forall rest,
       Clock.pulses t (Simulator.frame e' ++ rest) s
       = Clock.pulses (t + 60000) rest s')
    /\ synced e' 60 s'
    /\ Clock.lastFrameBuffer s' = received e
    /\ Clock.frameEndTime s' = Clock.millis t
    /\ window s' = tl (window s) ++ [0].
Proof.
  intros Hq' Hs.
  destruct (frame_boundary e e' s t Hq' Hs) as (B1 & B2 & B3 & B4).
  cbv zeta in B1, B2, B3, B4.
  destruct (frame_body e' Hq' 59 1 (Clock.pulse t 800 s) (t + 800 + 200))
    as (s' & I0 & I1 & I2 & I3 & I4 & I5); [lia|lia|exact B1|].
  exists s'. split; [|split; [exact I1|repeat apply conj]].
  - intros rest. rewrite frame_head.
    rewrite <- app_comm_cons, pulses_cons, I0. f_equal. lia.
  - now rewrite I2.
  - now rewrite I3.
  - rewrite (window_same _ _ I4 I5). exact B4.
Qed.

(** ** Frame after frame *)

Lemma window_length s : length (window s) = length (Clock.errors s).
Proof.
  unfold window. rewrite length_app, length_skipn, length_firstn. lia.
Qed.

Lemma shift_in_ten x w :
  length w = 10%nat -> Nat.iter 10 (shift_in x) w = repeat x 10.
Proof.
  intros H.
  do 10 (destruct w as [|? w]; [discriminate H|]).
  destruct w; [reflexivity|discriminate H].
Qed.

Lemma shift_in_many x n w :
  length w = 10%nat -> (10 <= n)%nat ->
  Nat.iter n (shift_in x) w = repeat x 10.
Proof.
  intros Hl Hn. replace n with ((n - 10) + 10)%nat by lia.
  rewrite Nat.iter_add, (shift_in_ten x w Hl).
  induction (n - 10)%nat as [|k IH]; [reflexivity|].
  rewrite Nat.iter_succ, IH. reflexivity.
Qed.

(** A whole frame, taken in by a decoder whose last pulse was a marker. *)
Lemma first_frame e s t :
  quiet e -> idle s -> Clock.wasMark s = true ->
  exists s60,
    synced e 60 s60
    /\ forall rest,
         Clock.pulses t (Simulator.frame e ++ rest) s
         = Clock.pulses (t + 60000) rest s60.
Proof.
  intros Hq Hs Hw.
  destruct (frame_opening e s t Hq Hs Hw) as [Hs1 _].
  destruct (frame_body e Hq 59 1 (Clock.pulse t 800 s) (t + 800 + 200))
    as (s60 & E0 & Hs60 & _); [lia|lia|exact Hs1|].
  exists s60. split; [exact Hs60|].
  intros rest. rewrite frame_head.
  rewrite <- app_comm_cons, pulses_cons, E0. f_equal. lia.
Qed.

(** The frames of [n] more minutes, after the frame of the word [e]. *)
Lemma frames_after_frame n : forall e s t,
  quiet e -> synced e 60 s ->
  exists s',
    (forall rest,
       Clock.pulses t (simulator_run (snd (Simulator.loop e)) n ++ rest) s
       = Clock.pulses (t + 60000 * Z.of_nat n) rest s')
    /\ synced (simulator_word e n) 60 s'
    /\ window s' = Nat.iter n (shift_in 0) (window s).
Proof.
  induction n as [|n IH]; intros e s t Hq Hs.
  - exists s. rewrite simulator_word_0. split; [|split; [exact Hs|reflexivity]].
    intros rest. unfold simulator_run. cbn [run fst app].
    f_equal. lia.
  - pose proof (loop_quiet_word e Hq) as Hq1.
    destruct (frame_after_frame e (snd (Simulator.loop e)) s t Hq1 Hs)
      as (s1 & F0 & F1 & _ & _ & F4).
    destruct (IH (snd (Simulator.loop e)) s1 (t + 60000) Hq1 F1)
      as (s' & I0 & I1 & I2).
    exists s'. split; [|split].
    + intros rest. rewrite simulator_run_step, <- app_assoc, F0, I0.
      f_equal. lia.
    + rewrite simulator_word_step. exact I1.
    + rewrite I2, F4. rewrite Nat.iter_succ_r. reflexivity.
Qed.

Lemma stream_received n e s t :
  quiet e -> idle s -> Clock.wasMark s = true ->
  let s' :=
    Clock.pulses t (simulator_run e (S n) ++ [Simulator.sendMark]) s in
  Clock.lastFrameBuffer s' = received (simulator_word e n)
  /\ Clock.frameEndTime s' = Clock.millis (t + 60000 * Z.of_nat (S n))
  /\ exists w, length w = 10%nat /\ window s' = Nat.iter (S n) (shift_in 0) w.
Proof.
  intros Hq Hs Hw. cbv zeta.
  destruct (first_frame e s t Hq Hs Hw) as (s60 & S0 & E0).
  destruct (frames_after_frame n e s60 (t + 60000) Hq S0)
    as (s' & I0 & I1 & I2).
  rewrite simulator_run_step, <- app_assoc, E0, I0.
  destruct (frame_boundary (simulator_word e n) e s'
              (t + 60000 + 60000 * Z.of_nat n) Hq I1) as (_ & B2 & B3 & B4).
  cbv zeta in B2, B3, B4.
  unfold Simulator.sendMark. rewrite pulses_cons, pulses_nil.
  split; [exact B2|]. split; [rewrite B3; f_equal; lia|].
  exists (window s60). split.
  - rewrite window_length. destruct S0 as ((_ & Hsane) & _).
    destruct Hsane as (_ & _ & _ & _ & _ & Hl). exact Hl.
  - rewrite B4, I2. reflexivity.
Qed.





(** ** Joining the signal *)

(** The pulse the simulator sends at any position of a frame. *)
Lemma sent_class e position :
  0 <= position <= 59 ->
  exists low high,
    (if negb ((if (position =? 0) || ((position + 1) mod 10 =? 0)
               then 1 else 0) =? 0)
     then Simulator.sendMark
     else if (if Z.land e (wrap64 (Z.shiftl 1 (63 - position))) =? 0
              then 0 else 1) =? 0
          then Simulator.sendUnweighted
          else Simulator.sendWeighted) = (low, high)
    /\ low + high = 1000
    /\ wrap16 low = low
    /\ is_marker (classify low) = is_mark position
    /\ is_invalid (classify low) = false.
Proof.
  intros Hp. unfold is_mark.
  destruct ((position =? 0) || ((position + 1) mod 10 =? 0)).
  - exists 800, 200. repeat apply conj; reflexivity.
  - cbn [negb Z.eqb].
    destruct (Z.land e (wrap64 (Z.shiftl 1 (63 - position))) =? 0).
    + exists 200, 800. repeat apply conj; reflexivity.
    + exists 500, 500. repeat apply conj; reflexivity.
Qed.

Lemma is_mark_apart position :
  0 <= position -> is_mark position = true -> is_mark (position + 1) = false.
Proof.
  unfold is_mark. intros Hp H.
  destruct (Z.eqb_spec position 0) as [->|N]; [reflexivity|].
  cbn [orb] in H. apply Z.eqb_eq in H.
  apply Bool.orb_false_iff. split; apply Z.eqb_neq; lia.
Qed.

(** Symbols taken in one after the other, none of them a frame boundary,
    the frame not yet full. *)
Lemma frame_drift e : forall n position s t,
  0 <= position -> position + Z.of_nat n <= 60 ->
  idle s -> (Clock.wasMark s = true -> is_mark position = false) ->
  Clock.bitPosition s + Z.of_nat n <= 60 ->
  exists s',
    (forall rest,
       Clock.pulses t
         (Simulator.send_bits n (63 - position) position e ++ rest) s
       = Clock.pulses (t + 1000 * Z.of_nat n) rest s')
    /\ idle s'
    /\ Clock.bitPosition s' = Clock.bitPosition s + Z.of_nat n
    /\ ((0 < n)%nat ->
        Clock.wasMark s' = is_mark (position + Z.of_nat n - 1))
    /\ ((n = 0)%nat -> s' = s)
    /\ Clock.lastFrameBuffer s' = Clock.lastFrameBuffer s
    /\ Clock.frameEndTime s' = Clock.frameEndTime s
    /\ Clock.errors s' = Clock.errors s
    /\ Clock.errIdx s' = Clock.errIdx s.
Proof.
  induction n as [|n IH]; intros position s t Hp Hn Hs Hwm Hbp.
  - exists s. cbn [Simulator.send_bits app].
    replace (t + 1000 * Z.of_nat 0) with t by lia.
    split; [reflexivity|]. split; [exact Hs|].
    split; [lia|]. split; [lia|]. auto.
  - rewrite send_bits_S.
    replace (63 - position >=? 4) with true
      by (symmetry; rewrite Z.geb_leb; apply Z.leb_le; lia).
    destruct (sent_class e position)
      as (low & high & -> & Hlh & Hw & Hm & Hi); [lia|].
    destruct Hs as (Hbr & Hsane).
    pose proof (pulse_timed t low s Hbr) as Hpulse.
    pose proof (sane_timed t low s Hsane) as Hst.
    destruct (timed_fields t low s)
      as (_ & _ & T3 & T4 & T5 & T6 & T7 & T8 & T9 & T10 & T11 & T12).
    assert (Hnb : boundary (timed t low s) = false).
    { unfold boundary. rewrite T4, pulseWidth_timed, Hw, Hm.
      destruct (Clock.wasMark s); [|reflexivity].
      rewrite (Hwm eq_refl). reflexivity. }
    destruct (processBit_buffers (timed t low s) Hst Hnb)
      as (E1 & E2 & E3 & E4 & E5 & E6 & E7 & E8 & E9 & E10 & E11 & _);
      [rewrite T6; lia|].
    destruct (processBit_sane (timed t low s) Hst) as [Hs1 Hbr1].
    rewrite pulseWidth_timed, Hw in E4.
    rewrite Hm in E4. rewrite T6 in E1.
    rewrite T7 in E8. rewrite T8 in E9. rewrite T12 in E10.
    rewrite T3 in E11.
    clear E2 E3 E5 E6 E7 T3 T4 T5 T6 T7 T8 T9 T10 T11 T12 Hst Hnb.
    generalize dependent (Clock.processBit (timed t low s)). intros s1.
    intros.
    replace (63 - position - 1) with (63 - (position + 1)) by lia.
    destruct (IH (position + 1) s1 (t + low + high))
      as (s' & I0 & I1 & I2 & I3 & I3' & I4 & I5 & I6 & I7);
      [lia|lia|split; assumption| |lia|].
    { rewrite E4. intros H. apply is_mark_apart; [lia|exact H]. }
    exists s'. split; [|split; [exact I1|repeat apply conj]].
    + intros rest. rewrite <- app_comm_cons, pulses_cons, Hpulse, I0.
      f_equal. lia.
    + rewrite I2, E1. lia.
    + intros _. destruct n as [|n].
      * rewrite (I3' eq_refl), E4. f_equal. lia.
      * rewrite I3 by lia. f_equal. lia.
    + discriminate.
    + rewrite I4. exact E10.
    + rewrite I5. exact E11.
    + rewrite I6. exact E8.
    + rewrite I7. exact E9.
Qed.

Lemma send_bits_nil n i position e :
  i < 4 -> Simulator.send_bits n i position e = [].
Proof.
  intros Hi. destruct n; [reflexivity|]. rewrite send_bits_S.
  replace (i >=? 4) with false by lia. reflexivity.
Qed.

Lemma send_bits_app m e : forall n i position,
  Simulator.send_bits (n + m) i position e
  = Simulator.send_bits n i position e
    ++ Simulator.send_bits m (i - Z.of_nat n) (position + Z.of_nat n) e.
Proof.
  induction n as [|n IH]; intros i position.
  - cbn [Nat.add Simulator.send_bits app]. f_equal; lia.
  - change (S n + m)%nat with (S (n + m)). rewrite !send_bits_S.
    destruct (Z.geb_spec i 4) as [Hi|Hi].
    + rewrite IH. rewrite <- app_comm_cons. f_equal. f_equal.
      f_equal; lia.
    + cbn [app]. symmetry. apply send_bits_nil. lia.
Qed.

(** A marker that is no frame boundary, on a full frame: the frame is
    dropped and logged as a failure, and the marker with it. *)
Lemma marker_overflows s t :
  idle s -> Clock.wasMark s = false -> Clock.bitPosition s = 60 ->
  let s' := Clock.pulse t 800 s in
  idle s' /\ Clock.wasMark s' = false /\ Clock.bitPosition s' = 1
  /\ Clock.lastFrameBuffer s' = Clock.lastFrameBuffer s
  /\ Clock.frameEndTime s' = Clock.frameEndTime s
  /\ window s' = shift_in 1 (window s).
Proof.
  intros (Hbr & Hsane) Hw Hb. cbv zeta.
  rewrite (pulse_timed t 800 s Hbr).
  pose proof (sane_timed t 800 s Hsane) as Hst.
  destruct (timed_fields t 800 s)
    as (_ & _ & T3 & T4 & T5 & T6 & T7 & T8 & T9 & T10 & T11 & T12).
  assert (Hnb : boundary (timed t 800 s) = false).
  { unfold boundary. rewrite T4, Hw. reflexivity. }
  destruct (processBit_overflow _ Hst Hnb)
    as (E1 & E2 & E3 & E4 & E5 & E6 & E7 & E8 & E9 & E10 & E11 & _);
    [rewrite T6, Hb; reflexivity|].
  destruct (processBit_sane _ Hst) as [Hs' Hbr'].
  split; [split; assumption|]. repeat apply conj.
  - exact E4.
  - exact E1.
  - rewrite E10, T12. reflexivity.
  - rewrite E11, T3. reflexivity.
  - unfold shift_in.
    destruct Hsane as (_ & _ & _ & _ & Hei & Hlen).
    apply (window_logged true s); assumption.
Qed.

Lemma frame_last e :
  Simulator.frame e = Simulator.send_bits 59 (63 - 0) 0 e ++ [(800, 200)].
Proof.
  unfold Simulator.frame. change 60%nat with (59 + 1)%nat.
  rewrite send_bits_app. f_equal.
Qed.

(** A whole frame, taken in from its first symbol by a decoder that stands
    at the start of its buffer: the sixtieth symbol overflows the frame,
    which is dropped and logged as a failure. *)
Lemma frame_overflows e s t :
  idle s -> Clock.wasMark s = false -> Clock.bitPosition s = 1 ->
  exists s',
    (forall rest,
       Clock.pulses t (Simulator.frame e ++ rest) s
       = Clock.pulses (t + 60000) rest s')
    /\ idle s' /\ Clock.wasMark s' = false /\ Clock.bitPosition s' = 1
    /\ Clock.lastFrameBuffer s' = Clock.lastFrameBuffer s
    /\ Clock.frameEndTime s' = Clock.frameEndTime s
    /\ window s' = shift_in 1 (window s).
Proof.
  intros Hs Hw Hb.
  destruct (frame_drift e 59 0 s t)
    as (s1 & D0 & D1 & D2 & D3 & _ & D4 & D5 & D6 & D7);
    [lia|lia|exact Hs|rewrite Hw; discriminate|lia|].
  assert (Hw1 : Clock.wasMark s1 = false)
    by (rewrite D3 by lia; reflexivity).
  assert (Hb1 : Clock.bitPosition s1 = 60) by (rewrite D2, Hb; reflexivity).
  destruct (marker_overflows s1 (t + 1000 * Z.of_nat 59) D1 Hw1 Hb1)
    as (M1 & M2 & M3 & M4 & M5 & M6).
  exists (Clock.pulse (t + 1000 * Z.of_nat 59) 800 s1).
  split; [|split; [exact M1|repeat apply conj]].
  - intros rest. rewrite frame_last, <- app_assoc, D0.
    cbn [app]. rewrite pulses_cons. f_equal. lia.
  - exact M2.
  - exact M3.
  - rewrite M4. exact D4.
  - rewrite M5. exact D5.
  - rewrite M6, (window_same _ _ D6 D7). reflexivity.
Qed.

Lemma frames_overflow n : forall e s t,
  idle s -> Clock.wasMark s = false -> Clock.bitPosition s = 1 ->
  exists s',
    (forall rest,
       Clock.pulses t (simulator_run e n ++ rest) s
       = Clock.pulses (t + 60000 * Z.of_nat n) rest s')
    /\ Clock.lastFrameBuffer s' = Clock.lastFrameBuffer s
    /\ Clock.frameEndTime s' = Clock.frameEndTime s
    /\ window s' = Nat.iter n (shift_in 1) (window s).
Proof.
  induction n as [|n IH]; intros e s t Hs Hw Hb.
  - exists s. split; [|auto].
    intros rest. unfold simulator_run. cbn [run fst app]. f_equal. lia.
  - destruct (frame_overflows e s t Hs Hw Hb)
      as (s1 & F0 & F1 & F2 & F3 & F4 & F5 & F6).
    destruct (IH (snd (Simulator.loop e)) s1 (t + 60000) F1 F2 F3)
      as (s' & I0 & I1 & I2 & I3).
    exists s'. repeat apply conj.
    + intros rest. rewrite simulator_run_step, <- app_assoc, F0, I0.
      f_equal. lia.
    + rewrite I1. exact F4.
    + rewrite I2. exact F5.
    + rewrite I3, F6. rewrite Nat.iter_succ_r. reflexivity.
Qed.

(** X16.  A decoder that starts at the start of a frame never locks.
    Standing at the start of its buffer, its last pulse no marker -- as
    after power-up --, and given whole frames of the simulator from the
    first symbol of a frame on, the decoder takes every opening marker for
    a symbol of the frame, overflows on the sixtieth symbol and logs a
    failure, frame after frame: the held frame and its time are never
    written, for any number of frames and any words sent. *)
Theorem frame_start_never_locks
  (n : nat) (e : Z) (s : Clock.state) (t : Z) :
  idle s -> Clock.wasMark s = false -> Clock.bitPosition s = 1 ->
  let s' := Clock.pulses t (simulator_run e n) s in
  Clock.lastFrameBuffer s' = Clock.lastFrameBuffer s
  /\ Clock.frameEndTime s' = Clock.frameEndTime s
  /\ window s' = Nat.iter n (shift_in 1) (window s)
  /\ ((10 <= n)%nat -> window s' = repeat 1 10).
Proof.
  intros Hs Hw Hb. cbv zeta.
  destruct (frames_overflow n e s t Hs Hw Hb) as (s' & E & I1 & I2 & I3).
  specialize (E []). rewrite app_nil_r, pulses_nil in E. rewrite E.
  repeat apply conj; try assumption.
  intros Hn. rewrite I3. apply shift_in_many; [|exact Hn].
  rewrite window_length. destruct Hs as (_ & _ & _ & _ & _ & _ & Hl).
  exact Hl.
Qed.

Lemma frame_start_never_locks_witness :
  Clock.frameEndTime (Clock.pulses 0 (simulator_run Simulator.setup 3)
                        Clock.init) = 0.
Proof.
  exact (proj1 (proj2 (frame_start_never_locks 3 Simulator.setup Clock.init 0
                         init_idle eq_refl eq_refl))).
Defined.

Lemma send_bits_length e : forall n i position,
  Z.of_nat n <= i - 3 ->
  length (Simulator.send_bits n i position e) = n.
Proof.
  induction n as [|n IH]; intros i position Hn; [reflexivity|].
  rewrite send_bits_S.
  replace (i >=? 4) with true by lia.
  cbn [length]. rewrite IH by lia. reflexivity.
Qed.

(** A frame from its symbol [p] on. *)
Lemma frame_from p e :
  (p <= 60)%nat ->
  skipn p (Simulator.frame e)
  = Simulator.send_bits (60 - p) (63 - Z.of_nat p) (Z.of_nat p) e.
Proof.
  intros Hp. unfold Simulator.frame.
  replace 60%nat with (p + (60 - p))%nat at 1 by lia.
  rewrite send_bits_app.
  rewrite skipn_app, send_bits_length by lia.
  rewrite Nat.sub_diag.
  rewrite skipn_all2 by (rewrite send_bits_length; lia).
  cbn [skipn app]. f_equal.
Qed.

(** The rest of a frame from its symbol [p] on, taken in by a decoder that
    has counted no more symbols than were sent, then whole frames. *)
Lemma rest_then_frames p n e0 e s t :
  (1 <= p <= 59)%nat -> quiet e -> idle s ->
  (Clock.wasMark s = true -> is_mark (Z.of_nat p) = false) ->
  Clock.bitPosition s <= Z.of_nat p ->
  let s' :=
    Clock.pulses t
      (skipn p (Simulator.frame e0)
       ++ simulator_run e (S n) ++ [Simulator.sendMark]) s in
  Clock.lastFrameBuffer s' = received (simulator_word e n)
  /\ Clock.frameEndTime s'
     = Clock.millis (t + 1000 * Z.of_nat (60 - p) + 60000 * Z.of_nat (S n)).
Proof.
  intros Hp Hq Hs Hw Hb. cbv zeta.
  rewrite frame_from by lia.
  destruct (frame_drift e0 (60 - p) (Z.of_nat p) s t)
    as (s1 & D0 & D1 & D2 & D3 & _);
    [lia|lia|exact Hs|exact Hw|lia|].
  rewrite D0.
  assert (Hw1 : Clock.wasMark s1 = true).
  { rewrite D3 by lia.
    replace (Z.of_nat p + Z.of_nat (60 - p) - 1) with 59 by lia.
    reflexivity. }
  destruct (stream_received n e s1 (t + 1000 * Z.of_nat (60 - p)) Hq D1 Hw1)
    as (R1 & R2 & _).
  split; assumption.
Qed.

(** X17.  A decoder switched on inside a frame locks on the next one.
    From power-up, given the rest of a frame from any symbol but its first
    on, then the frames the simulator sends in [n + 1] passes of [loop()]
    and the marker after them, the decoder holds the last of these
    frames. *)
Theorem joining_inside_a_frame_locks
  (p n : nat) (e0 e : Z) (s : Clock.state) (t : Z) :
  (1 <= p <= 59)%nat -> quiet e ->
  idle s -> Clock.wasMark s = false -> Clock.bitPosition s = 1 ->
  let s' :=
    Clock.pulses t
      (skipn p (Simulator.frame e0)
       ++ simulator_run e (S n) ++ [Simulator.sendMark]) s in
  Clock.lastFrameBuffer s' = received (simulator_word e n)
  /\ Clock.frameEndTime s'
     = Clock.millis (t + 1000 * Z.of_nat (60 - p) + 60000 * Z.of_nat (S n)).
Proof.
  intros Hp Hq Hs Hw Hb.
  apply rest_then_frames; try assumption; [rewrite Hw; discriminate|lia].
Qed.

Lemma joining_inside_a_frame_locks_witness :
  Clock.lastFrameBuffer
    (Clock.pulses 0
       (skipn 17 (Simulator.frame 0)
        ++ simulator_run Simulator.setup 1 ++ [Simulator.sendMark])
       Clock.init)
  = received (simulator_word Simulator.setup 0).
Proof.
  assert (Hp : (1 <= 17 <= 59)%nat) by lia.
  exact (proj1 (joining_inside_a_frame_locks 17 0 0 Simulator.setup
                  Clock.init 0 Hp (preset_quiet _) init_idle eq_refl
                  eq_refl)).
Defined.

(** ** The shape of a frame *)

Lemma send_bits_nth e d : forall n i position p,
  (p < n)%nat -> Z.of_nat n <= i - 3 -> i < 64 ->
  nth p (Simulator.send_bits n i position e) d
  = if is_mark (position + Z.of_nat p) then Simulator.sendMark
    else if Z.testbit e (i - Z.of_nat p) then Simulator.sendWeighted
    else Simulator.sendUnweighted.
Proof.
  induction n as [|n IH]; intros i position p Hp Hn Hi; [lia|].
  rewrite send_bits_S. replace (i >=? 4) with true by lia.
  destruct p as [|p].
  - cbn [nth]. rewrite mask_test by lia. unfold is_mark.
    replace (position + Z.of_nat 0) with position by lia.
    replace (i - Z.of_nat 0) with i by lia.
    destruct ((position =? 0) || ((position + 1) mod 10 =? 0));
      [reflexivity|].
    destruct (Z.testbit e i); reflexivity.
  - cbn [nth]. rewrite IH by lia.
    replace (position + 1 + Z.of_nat p) with (position + Z.of_nat (S p))
      by lia.
    replace (i - 1 - Z.of_nat p) with (i - Z.of_nat (S p)) by lia.
    reflexivity.
Qed.

Lemma frame_nth e d p :
  (p < 60)%nat ->
  nth p (Simulator.frame e) d
  = if is_mark (Z.of_nat p) then Simulator.sendMark
    else if Z.testbit e (63 - Z.of_nat p) then Simulator.sendWeighted
    else Simulator.sendUnweighted.
Proof.
  intros Hp. unfold Simulator.frame.
  rewrite send_bits_nth by lia. reflexivity.
Qed.

Lemma frame_length e : length (Simulator.frame e) = 60%nat.
Proof. unfold Simulator.frame. apply send_bits_length. lia. Qed.

(** X18.  The shape of a frame.  Whatever the word, the simulator sends
    sixty symbols of one second each; those at the positions 0, 9, 19, 29,
    39, 49 and 59 are markers, and the symbol at any other position [p] is
    a one or a zero as bit [63 - p] of the word is set or clear. *)
Theorem frame_shape (e : Z) :
  length (Simulator.frame e) = 60%nat
  /\ (forall p, (p < 60)%nat ->
        nth p (Simulator.frame e) (0, 0)
        = if is_mark (Z.of_nat p) then Simulator.sendMark
          else if Z.testbit e (63 - Z.of_nat p) then Simulator.sendWeighted
          else Simulator.sendUnweighted)
  /\ (forall p, 0 <= p < 60 ->
        (is_mark p = true <-> In p [0; 9; 19; 29; 39; 49; 59]))
  /\ Forall (fun sym => fst sym + snd sym = 1000) (Simulator.frame e).
Proof.
  split; [apply frame_length|]. split; [intros p Hp; now apply frame_nth|].
  split.
  - intros p Hp. unfold is_mark. cbn [In]. split.
    + intros H. apply Bool.orb_true_iff in H. lia.
    + intros H. apply Bool.orb_true_iff. lia.
  - apply Forall_forall. intros sym Hin.
    destruct (In_nth _ _ (0, 0) Hin) as (p & Hp & <-).
    rewrite frame_length in Hp. rewrite frame_nth by exact Hp.
    destruct (is_mark (Z.of_nat p)); [reflexivity|].
    destruct (Z.testbit e (63 - Z.of_nat p)); reflexivity.
Qed.

(** X19.  What the simulator never sends.  The four lowest bits of the
    word, the bits at the positions of the markers and the bits above bit
    62 have no part in the frame: two words that agree on the other bits
    give the same sixty symbols. *)
Theorem frame_ignores_unsent_bits (e e' : Z) :
  (forall k, 5 <= k <= 62 -> (64 - k) mod 10 <> 0 ->
             Z.testbit e k = Z.testbit e' k) ->
  Simulator.frame e = Simulator.frame e'.
Proof.
  intros H. apply (nth_ext _ _ (0, 0) (0, 0)).
  - now rewrite !frame_length.
  - intros p Hp. rewrite frame_length in Hp.
    rewrite !frame_nth by exact Hp.
    destruct (is_mark (Z.of_nat p)) eqn:Em; [reflexivity|].
    rewrite H; [reflexivity| |].
    + unfold is_mark in Em. apply Bool.orb_false_iff in Em. lia.
    + unfold is_mark in Em. apply Bool.orb_false_iff in Em.
      replace (64 - (63 - Z.of_nat p)) with (Z.of_nat p + 1) by lia. lia.
Qed.

Lemma frame_ignores_unsent_bits_witness :
  Simulator.frame 0 = Simulator.frame 15.
Proof.
  apply frame_ignores_unsent_bits. intros k Hk _.
  rewrite Z.bits_0. symmetry.
  change 15 with (Z.ones 4). apply Z.ones_spec_high. lia.
Defined.

(** ** The simulator as a clock *)

Lemma received_next e :
  received (snd (Simulator.loop e))
  = increment_minute Clock.wwvbBuffer (received e).
Proof. symmetry. apply increment_up. Qed.

Lemma simulator_minutes n : forall e,
  valid_frame (received e) = true ->
  valid_frame (received (simulator_word e n)) = true
  /\ minute_of_day (received (simulator_word e n))
     = (minute_of_day (received e) + Z.of_nat n) mod 1440.
Proof.
  induction n as [|n IH]; intros e Hv.
  - rewrite simulator_word_0. split; [exact Hv|].
    apply valid_frame_spec in Hv.
    unfold minute_of_day, hour_of, minute_of in *.
    nonneg_fields (received e). lia.
  - rewrite simulator_word_S, received_next.
    destruct (IH e Hv) as [V M].
    generalize dependent (received (simulator_word e n)). intros b V M.
    split; [apply increment_minute_valid; exact V|].
    destruct (increment_minute_of_day b V) as [E _]. rewrite E, M.
    generalize (minute_of_day (received e)). intros m.
    rewrite Nat2Z.inj_succ. lia.
Qed.

(** X20.  The simulator counts minutes.  From a valid time, the word the
    simulator holds after [n] passes of [loop()] is a valid time again, [n]
    minutes on in the day. *)
Theorem simulator_counts_minutes (n : nat) (e : Z) :
  valid_frame (received e) = true ->
  valid_frame (received (simulator_word e n)) = true
  /\ minute_of_day (received (simulator_word e n))
     = (minute_of_day (received e) + Z.of_nat n) mod 1440.
Proof. apply simulator_minutes. Qed.

Lemma simulator_counts_minutes_witness :
  minute_of_day (received (simulator_word Simulator.setup 5))
  = (minute_of_day (received Simulator.setup) + 5) mod 1440.
Proof.
  assert (H : valid_frame (received Simulator.setup) = true)
    by (vm_compute; reflexivity).
  exact (proj2 (simulator_counts_minutes 5 Simulator.setup H)).
Defined.

(** ** From the signal to the clock chip *)



(** ** Noise *)

(** A pulse of a width that stands for no symbol, taken in while the frame
    is not yet full. *)
Lemma invalid_pulse_step s t low :
  idle s -> classify (wrap16 low) = Invalid -> Clock.bitPosition s < 60 ->
  let s' := Clock.pulse t low s in
  idle s' /\ Clock.wasMark s' = false
  /\ Clock.bitPosition s' = Clock.bitPosition s + 1
  /\ Clock.lastFrameBuffer s' = Clock.lastFrameBuffer s
  /\ Clock.frameEndTime s' = Clock.frameEndTime s
  /\ Clock.errors s' = Clock.errors s
  /\ Clock.errIdx s' = Clock.errIdx s.
Proof.
  intros (Hbr & Hsane) Hc Hb. cbv zeta.
  rewrite (pulse_timed t low s Hbr).
  pose proof (sane_timed t low s Hsane) as Hst.
  destruct (timed_fields t low s)
    as (_ & _ & T3 & T4 & T5 & T6 & T7 & T8 & T9 & T10 & T11 & T12).
  assert (Hnb : boundary (timed t low s) = false).
  { unfold boundary. rewrite pulseWidth_timed, Hc.
    apply Bool.andb_false_r. }
  destruct (processBit_buffers (timed t low s) Hst Hnb)
    as (E1 & E2 & E3 & E4 & E5 & E6 & E7 & E8 & E9 & E10 & E11 & _);
    [rewrite T6; exact Hb|].
  destruct (processBit_sane (timed t low s) Hst) as [Hs1 Hbr1].
  rewrite pulseWidth_timed, Hc in E4.
  split; [split; assumption|]. repeat apply conj.
  - exact E4.
  - rewrite E1, T6. reflexivity.
  - rewrite E10, T12. reflexivity.
  - rewrite E11, T3. reflexivity.
  - rewrite E8, T7. reflexivity.
  - rewrite E9, T8. reflexivity.
Qed.

(** X22.  One bad symbol costs one frame.  A decoder that stands at
    position [p] of the frame on the air gets, in place of the symbol at
    that position, a pulse of a width that stands for no symbol, then the
    rest of the frame, the frames of [n + 1] passes of [loop()] of the
    simulator and the marker after them: it holds the last of these
    frames. *)
Theorem bad_symbol_costs_one_frame
  (p n : nat) (e0 e : Z) (s : Clock.state) (t low high : Z) :
  (1 <= p <= 58)%nat -> quiet e -> idle s ->
  Clock.bitPosition s = Z.of_nat p ->
  classify (wrap16 low) = Invalid ->
  let s' :=
    Clock.pulses t
      ((low, high) :: skipn (S p) (Simulator.frame e0)
       ++ simulator_run e (S n) ++ [Simulator.sendMark]) s in
  Clock.lastFrameBuffer s' = received (simulator_word e n).
Proof.
  intros Hp Hq Hs Hb Hc. cbv zeta. rewrite pulses_cons.
  destruct (invalid_pulse_step s t low Hs Hc) as (I1 & I2 & I3 & _);
    [lia|].
  cbv zeta in I1, I2, I3.
  assert (Hp' : (1 <= S p <= 59)%nat) by lia.
  assert (Hw : Clock.wasMark (Clock.pulse t low s) = true ->
               is_mark (Z.of_nat (S p)) = false)
    by (rewrite I2; discriminate).
  assert (Hb' : Clock.bitPosition (Clock.pulse t low s) <= Z.of_nat (S p))
    by (rewrite I3; lia).
  exact (proj1 (rest_then_frames (S p) n e0 e (Clock.pulse t low s)
                  (t + low + high) Hp' Hq I1 Hw Hb')).
Qed.

Lemma bad_symbol_costs_one_frame_witness :
  Clock.lastFrameBuffer
    (Clock.pulses 1000
       ((50, 950) :: skipn 3 (Simulator.frame 0)
        ++ simulator_run Simulator.setup 1 ++ [Simulator.sendMark])
       after_marker)
  = received (simulator_word Simulator.setup 0).
Proof.
  assert (Hp : (1 <= 2 <= 58)%nat) by lia.
  assert (Hs : idle after_marker)
    by (unfold after_marker; apply pulse_idle, init_idle).
  exact (bad_symbol_costs_one_frame 2 0 0 Simulator.setup after_marker
           1000 50 950 Hp (preset_quiet _) Hs eq_refl eq_refl).
Defined.

(** X23.  One pulse too many locks the decoder out.  A decoder that
    stands at position [p] of the frame on the air gets one pulse more than
    the frame has -- a glitch, of a width that stands for no symbol --
    before the symbol at that position.  From then on it counts one symbol
    too many: the closing marker of the frame overflows it, the opening
    marker of every later frame is taken for a symbol of the frame, and
    however many whole frames follow, each is logged as a failure and none
    is held. *)
Theorem glitch_locks_decoder_out
  (p n : nat) (e0 e : Z) (s : Clock.state) (t low high : Z) :
  (1 <= p <= 59)%nat -> idle s ->
  Clock.bitPosition s = Z.of_nat p ->
  classify (wrap16 low) = Invalid ->
  let s' :=
    Clock.pulses t
      ((low, high) :: skipn p (Simulator.frame e0) ++ simulator_run e n) s in
  Clock.lastFrameBuffer s' = Clock.lastFrameBuffer s
  /\ Clock.frameEndTime s' = Clock.frameEndTime s
  /\ window s' = Nat.iter (S n) (shift_in 1) (window s).
Proof.
  intros Hp Hs Hb Hc. cbv zeta. rewrite pulses_cons.
  destruct (invalid_pulse_step s t low Hs Hc)
    as (I1 & I2 & I3 & I4 & I5 & I6 & I7); [lia|].
  cbv zeta in I1, I2, I3, I4, I5, I6, I7.
  generalize dependent (Clock.pulse t low s). intros s1. intros.
  rewrite frame_from by lia.
  replace (60 - p)%nat with ((59 - p) + 1)%nat by lia.
  rewrite send_bits_app.
  replace (63 - Z.of_nat p - Z.of_nat (59 - p)) with 4 by lia.
  replace (Z.of_nat p + Z.of_nat (59 - p)) with 59 by lia.
  change (Simulator.send_bits 1 4 59 e0) with [(800, 200)].
  destruct (frame_drift e0 (59 - p) (Z.of_nat p) s1 (t + low + high))
    as (s2 & D0 & D1 & D2 & D3 & D3' & D4 & D5 & D6 & D7);
    [lia|lia|exact I1|rewrite I2; discriminate|lia|].
  rewrite <- !app_assoc, D0. cbn [app]. rewrite pulses_cons.
  assert (Hw2 : Clock.wasMark s2 = false).
  { destruct (Nat.eq_dec (59 - p) 0) as [Z0|NZ].
    - rewrite (D3' Z0). exact I2.
    - rewrite D3 by lia.
      replace (Z.of_nat p + Z.of_nat (59 - p) - 1) with 58 by lia.
      reflexivity. }
  assert (Hb2 : Clock.bitPosition s2 = 60) by (rewrite D2, I3, Hb; lia).
  destruct (marker_overflows s2 (t + low + high + 1000 * Z.of_nat (59 - p))
              D1 Hw2 Hb2) as (M1 & M2 & M3 & M4 & M5 & M6).
  cbv zeta in M1, M2, M3, M4, M5, M6.
  destruct (frames_overflow n e _
              (t + low + high + 1000 * Z.of_nat (59 - p) + 800 + 200)
              M1 M2 M3) as (s' & E & F1 & F2 & F3).
  specialize (E []). rewrite app_nil_r, pulses_nil in E. rewrite E.
  repeat apply conj.
  - rewrite F1, M4, D4. exact I4.
  - rewrite F2, M5, D5. exact I5.
  - rewrite F3, M6, (window_same _ _ D6 D7), (window_same _ _ I6 I7).
    rewrite Nat.iter_succ_r. reflexivity.
Qed.

Lemma glitch_locks_decoder_out_witness :
  Clock.frameEndTime
    (Clock.pulses 1000
       ((50, 20) :: skipn 2 (Simulator.frame Simulator.setup)
        ++ simulator_run Simulator.setup 3)
       after_marker)
  = Clock.frameEndTime after_marker.
Proof.
  assert (Hp : (1 <= 2 <= 59)%nat) by lia.
  assert (Hs : idle after_marker)
    by (unfold after_marker; apply pulse_idle, init_idle).
  exact (proj1 (proj2 (glitch_locks_decoder_out 2 3 Simulator.setup
                         Simulator.setup after_marker 1000 50 20 Hp Hs
                         eq_refl eq_refl))).
Defined.

(** X24.  One lost pulse costs one frame.  A decoder that stands at
    position [p] of the frame on the air, from 1 to 58, with the marker
    flag as a locked decoder has it there (set at positions 10, 20, 30, 40
    and 50, right after a marker inside the frame, and clear elsewhere),
    misses the symbol at that position and gets the rest of the frame, then
    the frames of [n + 1] passes of [loop()] of the simulator and the
    marker after them: it holds the last of these frames. *)
Theorem lost_pulse_costs_one_frame
  (p n : nat) (e0 e : Z) (s : Clock.state) (t : Z) :
  (1 <= p <= 58)%nat -> quiet e -> idle s ->
  Clock.bitPosition s = Z.of_nat p ->
  Clock.wasMark s = (Z.of_nat p mod 10 =? 0) ->
  let s' :=
    Clock.pulses t
      (skipn (S p) (Simulator.frame e0)
       ++ simulator_run e (S n) ++ [Simulator.sendMark]) s in
  Clock.lastFrameBuffer s' = received (simulator_word e n).
Proof.
  intros Hp Hq Hs Hb Hw.
  assert (Hp' : (1 <= S p <= 59)%nat) by lia.
  assert (Hw' : Clock.wasMark s = true -> is_mark (Z.of_nat (S p)) = false).
  { rewrite Hw. intros H. apply Z.eqb_eq in H.
    unfold is_mark. apply Bool.orb_false_iff.
    rewrite Nat2Z.inj_succ. split; apply Z.eqb_neq; lia. }
  assert (Hb' : Clock.bitPosition s <= Z.of_nat (S p)) by lia.
  exact (proj1 (rest_then_frames (S p) n e0 e s t Hp' Hq Hs Hw' Hb')).
Qed.

Lemma lost_pulse_costs_one_frame_witness :
  Clock.lastFrameBuffer
    (Clock.pulses 1000
       (skipn 2 (Simulator.frame 0)
        ++ simulator_run Simulator.setup 1 ++ [Simulator.sendMark])
       Clock.init)
  = received (simulator_word Simulator.setup 0).
Proof.
  assert (Hp : (1 <= 1 <= 58)%nat) by lia.
  exact (lost_pulse_costs_one_frame 1 0 0 Simulator.setup
           Clock.init 1000 Hp (preset_quiet _) init_idle
           eq_refl eq_refl).
Defined.

(** ** Signal strength, and pulses taken once *)

Lemma failures_bounds a :
  Forall (fun x => 0 <= x <= 1) a -> 0 <= failures a <= Z.of_nat (length a).
Proof.
  induction 1 as [|x a Hx _ IH]; unfold failures in *;
    cbn [fold_right length]; [lia|].
  rewrite Nat2Z.inj_succ. lia.
Qed.

(** X25.  The signal strength shown.  In the second ten seconds of a
    minute the second row shows half of ten less the count
    [sumFrameErrors()] returns, rounded toward zero; when the local [rv] of
    [sumFrameErrors()] starts at 0 this is a number from 0, with ten
    failures in the window, to 5, with none or one. *)
Theorem signal_strength (rv0 : Z) (g : Rtc.globals) :
  0 <= Rtc.second (Rtc.rtc g) < 256 ->
  Rtc.bcd2dec (Rtc.second (Rtc.rtc g)) / 10 = 1 ->
  length (Clock.errors (Rtc.decoder g)) = 10%nat ->
  Forall (fun x => 0 <= x <= 1) (Clock.errors (Rtc.decoder g)) ->
  -16000 <= rv0 <= 16000 ->
  let signal :=
    Z.quot (10 - (rv0 + failures (Clock.errors (Rtc.decoder g)))) 2 in
  snd (Rtc.updateDisplay rv0 g)
  = Some (String.append "WWVB Signal: "%string (Rtc.fmt_i 1 signal))
  /\ (rv0 = 0 -> 0 <= signal <= 5).
Proof.
  intros Hb Hc Hl Hf Hr. cbv zeta.
  pose proof (failures_bounds _ Hf) as Hfb. rewrite Hl in Hfb.
  unfold Rtc.updateDisplay. cbv zeta. cbn [snd].
  rewrite (sumFrameErrors_spec rv0 _ Hl).
  generalize dependent (failures (Clock.errors (Rtc.decoder g))).
  intros f Hfb.
  assert (Hs : 0 <= Rtc.bcd2dec (Rtc.second (Rtc.rtc g)))
    by (rewrite bcd2dec_byte by lia; lia).
  generalize dependent (Rtc.bcd2dec (Rtc.second (Rtc.rtc g))).
  intros c Hc Hs.
  rewrite Z.quot_div_nonneg, Hc by lia.
  change (int_wrap 1 =? 0) with false. change (int_wrap 1 =? 1) with true.
  cbv iota.
  rewrite (int_wrap_small (rv0 + f)) by (change (2 ^ 15) with 32768; lia).
  rewrite (int_wrap_small (10 - (rv0 + f)))
    by (change (2 ^ 15) with 32768; lia).
  assert (Hq : -16384 <= Z.quot (10 - (rv0 + f)) 2 <= 16384)
    by (Z.quot_rem_to_equations; lia).
  rewrite int_wrap_small by (change (2 ^ 15) with 32768; lia).
  split; [reflexivity|].
  intros ->. rewrite Z.quot_div_nonneg by lia. lia.
Qed.

Lemma signal_strength_witness :
  snd (Rtc.updateDisplay 0
         (Rtc.mkGlobals Clock.init (Rtc.mkRegisters 18 0 0 0 1 1 0 0)
            0 ""%string))
  = Some "WWVB Signal: 0"%string.
Proof.
  assert (Hb : 0 <= 18 < 256) by lia.
  assert (Hc : Rtc.bcd2dec 18 / 10 = 1) by reflexivity.
  assert (Hf : Forall (fun x => 0 <= x <= 1) (Clock.errors Clock.init))
    by (repeat constructor; lia).
  assert (Hr : -16000 <= 0 <= 16000) by lia.
  exact (proj1 (signal_strength 0
                  (Rtc.mkGlobals Clock.init (Rtc.mkRegisters 18 0 0 0 1 1 0 0)
                     0 ""%string) Hb Hc eq_refl Hf Hr)).
Defined.

Lemma logFrameError_bitReceived err s :
  Clock.bitReceived (Clock.logFrameError err s) = Clock.bitReceived s.
Proof.
  unfold Clock.logFrameError. cbv zeta.
  destruct s as [pst pet fet br wm fp bp lb errs ei be fe rb lfb].
  state_cbv.
  destruct (int_wrap (ei + 1) >=? 10); reflexivity.
Qed.

Lemma reset_counters_bitReceived s :
  Clock.bitReceived (Clock.reset_counters s) = Clock.bitReceived s.
Proof. reflexivity. Qed.

Lemma buffer_bitReceived bit s :
  Clock.bitReceived (Clock.buffer bit s) = Clock.bitReceived s.
Proof. rewrite buffer_eq. reflexivity. Qed.

Lemma decode_pulse_bitReceived s :
  Clock.bitReceived (Clock.decode_pulse s) = Clock.bitReceived s.
Proof.
  rewrite decode_pulse_classify.
  destruct (classify (Clock.pulseWidth s)).
  - destruct (Clock.wasMark s).
    + rewrite reset_counters_bitReceived.
      destruct ((Clock.framePosition s =? 6) && (Clock.bitPosition s =? 60)
                && (Clock.bitError s =? 0)).
      * rewrite logFrameError_bitReceived. reflexivity.
      * reflexivity.
    + change (Clock.bitReceived
                (Clock.set_wasMark true (Clock.buffer (-1) s)))
        with (Clock.bitReceived (Clock.buffer (-1) s)).
      apply buffer_bitReceived.
  - change (Clock.bitReceived (Clock.set_wasMark false (Clock.buffer 0 s)))
      with (Clock.bitReceived (Clock.buffer 0 s)).
    apply buffer_bitReceived.
  - change (Clock.bitReceived (Clock.set_wasMark false (Clock.buffer 1 s)))
      with (Clock.bitReceived (Clock.buffer 1 s)).
    apply buffer_bitReceived.
  - change (Clock.bitReceived
              (Clock.set_wasMark false
                 (Clock.set_bitError
                    (int_wrap (Clock.bitError (Clock.buffer (-2) s) + 1))
                    (Clock.buffer (-2) s))))
      with (Clock.bitReceived (Clock.buffer (-2) s)).
    apply buffer_bitReceived.
Qed.

Lemma processBit_bitReceived s :
  Clock.bitReceived (Clock.processBit s) = false.
Proof.
  unfold Clock.processBit. cbv zeta. unfold Clock.check_frame.
  assert (D : Clock.bitReceived
                (Clock.decode_pulse (Clock.set_bitReceived false s)) = false)
    by (rewrite decode_pulse_bitReceived; reflexivity).
  generalize dependent (Clock.decode_pulse (Clock.set_bitReceived false s)).
  intros d D.
  destruct (Clock.frameError d || (Clock.bitPosition d >? 60)); [|exact D].
  cbv zeta. rewrite reset_counters_bitReceived, logFrameError_bitReceived.
  exact D.
Qed.

(** X26.  A pulse is taken once.  A pass of the first statement of
    [loop()] leaves no pulse waiting, so that a second pass changes
    nothing; and of two pulses that come in between two passes only the
    second is left to take. *)
Theorem pulse_taken_once (s : Clock.state) (t1 t2 t3 t4 : Z) :
  Clock.loop (Clock.loop s) = Clock.loop s
  /\ Clock.wwvbChange true t4
       (Clock.wwvbChange false t3
          (Clock.wwvbChange true t2 (Clock.wwvbChange false t1 s)))
     = Clock.wwvbChange true t4 (Clock.wwvbChange false t3 s).
Proof.
  split.
  - unfold Clock.loop. destruct (Clock.bitReceived s) eqn:E.
    + rewrite processBit_bitReceived. reflexivity.
    + rewrite E. reflexivity.
  - destruct s as [pst pet fet br wm fp bp lb errs ei be fe rb lfb].
    reflexivity.
Qed.
